(** * Consent-gated Sentry integration for Cloudflare Zaraz

    A shallow embedding of [src/src/index.ts]:
    - the purpose resolver ([checkZarazConsent], [getZarazConsentState]);
    - the integration class [SentryZarazConsentIntegrationClass], in the
      variant that carries the configuration reconciler: its per-event hook
      [processEvent], the readiness waiter [initializeConsentMonitoring],
      the first resolution [checkConsent], the change listener, the queue
      flush and the configuration patch [buildConsentBasedConfig].

    JavaScript objects used as open maps (the Sentry client options, the
    configuration patch) are finite maps from property names to values.
    The class instance is a record [Self]; everything it mutates outside
    itself (the document's listener registry, the browser's timers, the
    Sentry client and scope, the calls made to Sentry, the records passed
    to [logEvent]) is a record [Env].  A method is a function on [State],
    the pair of the two; a method that returns a value returns it next to
    the new state.  What Sentry does with a capture while the call runs,
    the hook of this integration being one of its event processors, is an
    input of the page ([sentryPipeline]).  The debug flag and [this.log]
    only write to the console and are left out. *)

From Stdlib Require Import QArith Qcanon Ascii.
From stdpp Require Import numbers gmap strings list fin_maps.

Set Default Proof Using "Type".
Local Open Scope string_scope.
Local Open Scope list_scope.

(** ** The consent source: [window.zaraz.consent] *)

Module Zaraz.

(** [window.zaraz?.consent]: the readiness flag and the per-identifier
    lookup, which answers [true], [false] or [undefined]. *)
Record ConsentAPI := mkConsentAPI {
  APIReady : option bool;
  get : string → option bool
}.

Record ZarazObject := mkZaraz { consent : option ConsentAPI }.

Record Window := mkWindow { zaraz : option ZarazObject }.

(** The global scope: [None] when [typeof window === 'undefined']. *)
Definition Global := option Window.

(** [window.zaraz?.consent], with [undefined] as [None]. *)
Definition zaraz_consent (g : Global) : option ConsentAPI :=
  w ← g; z ← zaraz w; consent z.

(** Truthiness of [window?.zaraz?.consent?.APIReady]. *)
Definition api_ready (g : Global) : bool :=
  match zaraz_consent g with
  | Some c => default false (APIReady c)
  | None => false
  end.

End Zaraz.
Export Zaraz.

(** ** Purpose mapping and resolver *)

Inductive Purpose := Functional | Analytics | Marketing | Preferences.

(** One entry of [purposeMapping]: [string[] | boolean]; an absent entry
    ([undefined]) is [None] at the use site. *)
Inductive MappingEntry :=
| MBool (b : bool)
| MIds (ids : list string).

Record PurposeMapping := mkPurposeMapping {
  pm_functional : option MappingEntry;
  pm_analytics : option MappingEntry;
  pm_marketing : option MappingEntry;
  pm_preferences : option MappingEntry
}.

(** What a resolver returns: one boolean per purpose. *)
Record ConsentStatus := mkConsentStatus {
  st_functional : bool;
  st_analytics : bool;
  st_marketing : bool;
  st_preferences : bool
}.

(** [window.zaraz?.consent?.get(purposeId) === true]. *)
Definition granted (c : ConsentAPI) (purposeId : string) : bool :=
  bool_decide (get c purposeId = Some true).

(** [checkZarazConsent(mapping)]: a boolean is returned as it is, an
    absent entry is [false], an array needs the consent object and then
    [every] identifier granted. *)
Definition checkZarazConsent (g : Global) (mapping : option MappingEntry) : bool :=
  match mapping with
  | Some (MBool b) => b
  | None => false
  | Some (MIds ids) =>
      match zaraz_consent g with
      | None => false
      | Some c => forallb (granted c) ids
      end
  end.

Definition getZarazConsentState (purposeMapping : PurposeMapping) (g : Global)
  : ConsentStatus :=
  {| st_functional := checkZarazConsent g (pm_functional purposeMapping);
     st_analytics := checkZarazConsent g (pm_analytics purposeMapping);
     st_marketing := checkZarazConsent g (pm_marketing purposeMapping);
     st_preferences := checkZarazConsent g (pm_preferences purposeMapping) |}.

Definition pm_entry (p : Purpose) (m : PurposeMapping) : option MappingEntry :=
  match p with
  | Functional => pm_functional m
  | Analytics => pm_analytics m
  | Marketing => pm_marketing m
  | Preferences => pm_preferences m
  end.

Definition st_entry (p : Purpose) (s : ConsentStatus) : bool :=
  match p with
  | Functional => st_functional s
  | Analytics => st_analytics s
  | Marketing => st_marketing s
  | Preferences => st_preferences s
  end.

(** ** Sentry events and JavaScript values *)

(** A JavaScript number as a template literal reads it: whether it is truthy
    (neither [0] nor [NaN]) and the text [String(n)] gives for it. *)
Record JSNumber := mkNumber {
  num_truthy : bool;
  num_text : string
}.

Record StackFrame := mkFrame {
  filename : option string;
  lineno : option JSNumber
}.

(** One entry of [event.exception.values]; [exc_frames] is
    [stacktrace?.frames]. *)
Record ExceptionValue := mkExceptionValue {
  exc_value : option string;
  exc_frames : option (list StackFrame)
}.

Record Event := mkEvent {
  ev_type : option string;
  event_id : option string;
  level : option string;
  message : option string;
  exception_values : option (list ExceptionValue)
}.

Record EventHint := mkHint { hint_event_id : option string }.

(** A Sentry hook ([beforeSend] and the like): it returns the event to
    send, or [null] to drop it. *)
Definition Hook := Event → option Event.

Inductive JSValue :=
| VUndefined
| VNull
| VBool (b : bool)
| VNum (n : Qc)
| VFun (f : Hook).

(** A JavaScript object used as an open map of properties. *)
Abbreviation JSObject := (gmap string JSValue).

(** [o.k]: a missing property reads as [undefined]. *)
Definition get_prop (o : JSObject) (k : string) : JSValue :=
  default VUndefined (o !! k).

(** [v ?? d] *)
Definition nullish (v d : JSValue) : JSValue :=
  match v with
  | VUndefined | VNull => d
  | _ => v
  end.

(** [Object.assign(target, source)] *)
Definition Object_assign (target source : JSObject) : JSObject := source ∪ target.

(** [s || d] on an optional string: the empty string is falsy. *)
Definition str_or (s : option string) (d : string) : string :=
  match s with
  | Some x => if decide (x = "") then d else x
  | None => d
  end.

Definition str_truthy (s : option string) : bool :=
  match s with
  | Some x => bool_decide (x ≠ "")
  | None => false
  end.

(** The text of [n || 0] in a template literal. *)
Definition num_or_zero (n : option JSNumber) : string :=
  match n with
  | Some x => if num_truthy x then num_text x else "0"
  | None => "0"
  end.

Definition newline : string := String "010"%char EmptyString.
Definition dquote : string := String "034"%char EmptyString.

(** [Array.prototype.join] *)
Fixpoint join (sep : string) (l : list string) : string :=
  match l with
  | [] => ""
  | [x] => x
  | x :: rest => x +:+ sep +:+ join sep rest
  end.

(** ** Consent snapshots as the class keeps them *)

(** [interface ConsentState]: every field optional. *)
Record ConsentState := mkConsentState {
  cs_functional : option bool;
  cs_analytics : option bool;
  cs_marketing : option bool;
  cs_preferences : option bool
}.

(** The initial [{}]. *)
Definition empty_consent_state : ConsentState := mkConsentState None None None None.

Definition asConsentState (st : ConsentStatus) : ConsentState :=
  {| cs_functional := Some (st_functional st);
     cs_analytics := Some (st_analytics st);
     cs_marketing := Some (st_marketing st);
     cs_preferences := Some (st_preferences st) |}.

Definition cs_entry (p : Purpose) (cs : ConsentState) : option bool :=
  match p with
  | Functional => cs_functional cs
  | Analytics => cs_analytics cs
  | Marketing => cs_marketing cs
  | Preferences => cs_preferences cs
  end.

(** Structural equality of two snapshots: the same value under every key. *)
Definition snapshot_equal (a b : ConsentState) : Prop :=
  ∀ p, cs_entry p a = cs_entry p b.

(** Truthiness of an optional boolean property. *)
Definition truthy (b : option bool) : bool := default false b.

Definition json_bool (b : bool) : string := if b then "true" else "false".

(** One [key:value] member; a property that is [undefined] is left out. *)
Definition json_member (k : string) (v : option bool) : list string :=
  match v with
  | Some b => [dquote +:+ k +:+ dquote +:+ ":" +:+ json_bool b]
  | None => []
  end.

(** [JSON.stringify] of a snapshot.  The members come in the order in which
    the object's keys were created; every snapshot the class compares is
    built by the one resolver, so one order, the interface's, serves. *)
Definition JSON_stringify (cs : ConsentState) : string :=
  "{" +:+ join ","
        (json_member "functional" (cs_functional cs) ++
         json_member "analytics" (cs_analytics cs) ++
         json_member "marketing" (cs_marketing cs) ++
         json_member "preferences" (cs_preferences cs)) +:+ "}".

(** ** What the integration calls on Sentry *)

Record JSError := mkError {
  err_message : string;
  err_stack : string
}.

Inductive SentryCall :=
| captureException (error : JSError)
| captureMessage (msg : string) (lvl : option string)
| captureEvent (event : Event) (hint : EventHint).

Definition User := string.
Definition Context := string.

Inductive ScopeCall :=
| setUser (user : option User)
| setTag (key : string) (value : option string)
| setContext (key : string) (context : option Context).

(** The private fields of the Sentry scope read at setup. *)
Record ScopeData := mkScopeData {
  _user : option User;
  _tags : option (list (string * string));
  _contexts : option (list (string * Context))
}.

(** [originalScopeData]: [{}] until captured. *)
Record OriginalScopeData := mkOriginalScope {
  osd_user : option User;
  osd_tags : option (list (string * string));
  osd_contexts : option (list (string * Context))
}.

(** ** The document and the timers *)

Inductive DocEvent := zarazConsentAPIReady | zarazConsentChoicesUpdated.

Inductive Listener := handleZarazLoaded | consentChangeListenerFn.

Inductive TimerBody := WarningTimeout | ErrorTimeout.

Record Timer := mkTimer {
  timer_id : nat;
  timer_delay : Z;
  timer_body : TimerBody
}.

Global Instance DocEvent_eq_dec : EqDecision DocEvent.
Proof. solve_decision. Defined.
Global Instance Listener_eq_dec : EqDecision Listener.
Proof. solve_decision. Defined.
Global Instance TimerBody_eq_dec : EqDecision TimerBody.
Proof. solve_decision. Defined.
Global Instance Purpose_eq_dec : EqDecision Purpose.
Proof. solve_decision. Defined.
Global Instance ConsentState_eq_dec : EqDecision ConsentState.
Proof. solve_decision. Defined.

(** ** The instance and its surroundings *)

Record Self := mkSelf {
  purposeMapping : PurposeMapping;
  isConsentReady : bool;
  hasConsent : bool;
  eventQueue : list (Event * EventHint);
  consentChangeListener : option Listener;
  currentConsentState : ConsentState;
  warningTimeoutId : option nat;
  errorTimeoutId : option nat;
  originalSentryConfig : JSObject;
  originalScopeData : OriginalScopeData
}.

(** What Sentry does with a capture before the call returns.  It builds an
    event from the capture and may run the integrations' [processEvent] on
    it, this integration's included, or drop the capture earlier (a disabled
    client, sampling, a capture that throws).  The capture [call], made
    after [n] earlier captures of the integration, is handed to the hook as
    [sentryPipeline n call], or not at all if that is [None]; what Sentry
    does with the hook's answer is its own affair. *)
Definition Pipeline : Type := nat → SentryCall → option (Event * EventHint).

(** [client] and [scope] are what the hub kept in [currentSentryHub] gives
    access to; [None] when the hub has none. *)
Record Env := mkEnv {
  client : option JSObject;          (* getClient()?.getOptions() *)
  scope : option ScopeData;          (* getScope() *)
  hasCaptureEvent : bool;            (* (Sentry as any).captureEvent *)
  sentryPipeline : Pipeline;         (* what Sentry does with a capture *)
  docListeners : list (DocEvent * Listener);
  timers : list Timer;               (* armed, not yet run *)
  nextTimerId : nat;
  sentryCalls : list SentryCall;
  scopeCalls : list ScopeCall;
  eventLog : list string             (* names passed to logEvent *)
}.

Record State := mkState { self : Self; env : Env }.

(** Field updates. *)
Definition set_isConsentReady (v : bool) (me : Self) : Self :=
  mkSelf (purposeMapping me) v (hasConsent me) (eventQueue me) (consentChangeListener me)
    (currentConsentState me) (warningTimeoutId me) (errorTimeoutId me)
    (originalSentryConfig me) (originalScopeData me).
Definition set_hasConsent (v : bool) (me : Self) : Self :=
  mkSelf (purposeMapping me) (isConsentReady me) v (eventQueue me) (consentChangeListener me)
    (currentConsentState me) (warningTimeoutId me) (errorTimeoutId me)
    (originalSentryConfig me) (originalScopeData me).
Definition set_eventQueue (v : list (Event * EventHint)) (me : Self) : Self :=
  mkSelf (purposeMapping me) (isConsentReady me) (hasConsent me) v (consentChangeListener me)
    (currentConsentState me) (warningTimeoutId me) (errorTimeoutId me)
    (originalSentryConfig me) (originalScopeData me).
Definition set_consentChangeListener (v : option Listener) (me : Self) : Self :=
  mkSelf (purposeMapping me) (isConsentReady me) (hasConsent me) (eventQueue me) v
    (currentConsentState me) (warningTimeoutId me) (errorTimeoutId me)
    (originalSentryConfig me) (originalScopeData me).
Definition set_currentConsentState (v : ConsentState) (me : Self) : Self :=
  mkSelf (purposeMapping me) (isConsentReady me) (hasConsent me) (eventQueue me)
    (consentChangeListener me) v (warningTimeoutId me) (errorTimeoutId me)
    (originalSentryConfig me) (originalScopeData me).
Definition set_warningTimeoutId (v : option nat) (me : Self) : Self :=
  mkSelf (purposeMapping me) (isConsentReady me) (hasConsent me) (eventQueue me)
    (consentChangeListener me) (currentConsentState me) v (errorTimeoutId me)
    (originalSentryConfig me) (originalScopeData me).
Definition set_errorTimeoutId (v : option nat) (me : Self) : Self :=
  mkSelf (purposeMapping me) (isConsentReady me) (hasConsent me) (eventQueue me)
    (consentChangeListener me) (currentConsentState me) (warningTimeoutId me) v
    (originalSentryConfig me) (originalScopeData me).
Definition set_originalSentryConfig (v : JSObject) (me : Self) : Self :=
  mkSelf (purposeMapping me) (isConsentReady me) (hasConsent me) (eventQueue me)
    (consentChangeListener me) (currentConsentState me) (warningTimeoutId me)
    (errorTimeoutId me) v (originalScopeData me).
Definition set_originalScopeData (v : OriginalScopeData) (me : Self) : Self :=
  mkSelf (purposeMapping me) (isConsentReady me) (hasConsent me) (eventQueue me)
    (consentChangeListener me) (currentConsentState me) (warningTimeoutId me)
    (errorTimeoutId me) (originalSentryConfig me) v.

Definition set_client (v : option JSObject) (e : Env) : Env :=
  mkEnv v (scope e) (hasCaptureEvent e) (sentryPipeline e) (docListeners e) (timers e) (nextTimerId e)
    (sentryCalls e) (scopeCalls e) (eventLog e).
Definition set_docListeners (v : list (DocEvent * Listener)) (e : Env) : Env :=
  mkEnv (client e) (scope e) (hasCaptureEvent e) (sentryPipeline e) v (timers e) (nextTimerId e)
    (sentryCalls e) (scopeCalls e) (eventLog e).
Definition set_timers (v : list Timer) (e : Env) : Env :=
  mkEnv (client e) (scope e) (hasCaptureEvent e) (sentryPipeline e) (docListeners e) v (nextTimerId e)
    (sentryCalls e) (scopeCalls e) (eventLog e).
Definition set_nextTimerId (v : nat) (e : Env) : Env :=
  mkEnv (client e) (scope e) (hasCaptureEvent e) (sentryPipeline e) (docListeners e) (timers e) v
    (sentryCalls e) (scopeCalls e) (eventLog e).
Definition set_sentryCalls (v : list SentryCall) (e : Env) : Env :=
  mkEnv (client e) (scope e) (hasCaptureEvent e) (sentryPipeline e) (docListeners e) (timers e) (nextTimerId e)
    v (scopeCalls e) (eventLog e).
Definition set_scopeCalls (v : list ScopeCall) (e : Env) : Env :=
  mkEnv (client e) (scope e) (hasCaptureEvent e) (sentryPipeline e) (docListeners e) (timers e) (nextTimerId e)
    (sentryCalls e) v (eventLog e).
Definition set_eventLog (v : list string) (e : Env) : Env :=
  mkEnv (client e) (scope e) (hasCaptureEvent e) (sentryPipeline e) (docListeners e) (timers e) (nextTimerId e)
    (sentryCalls e) (scopeCalls e) v.

Definition upd_self (f : Self → Self) (s : State) : State := mkState (f (self s)) (env s).
Definition upd_env (f : Env → Env) (s : State) : State := mkState (self s) (f (env s)).

(** ** Browser and Sentry primitives *)

(** [logEvent(name, data)]: the record's name is kept, its payload is not.
    Console output ([this.log], [console.warn], [console.error]) is not part
    of the state. *)
Definition logEvent (name : string) (s : State) : State :=
  upd_env (λ e, set_eventLog (eventLog e ++ [name]) e) s.

(** [setTimeout(body, delay)] returns a fresh id; browser ids are positive. *)
Definition setTimeout (body : TimerBody) (delay : Z) (s : State) : nat * State :=
  let id := nextTimerId (env s) in
  (id, upd_env (λ e, set_nextTimerId (S id) (set_timers (timers e ++ [mkTimer id delay body]) e)) s).

Definition clearTimeout (id : nat) (s : State) : State :=
  upd_env (λ e, set_timers (filter (λ t, timer_id t ≠ id) (timers e)) e) s.

Definition addEventListener (ev : DocEvent) (l : Listener) (s : State) : State :=
  upd_env (λ e, set_docListeners (docListeners e ++ [(ev, l)]) e) s.

Fixpoint remove_first {A} `{EqDecision A} (x : A) (l : list A) : list A :=
  match l with
  | [] => []
  | y :: rest => if decide (x = y) then rest else y :: remove_first x rest
  end.

Definition removeEventListener (ev : DocEvent) (l : Listener) (s : State) : State :=
  upd_env (λ e, set_docListeners (remove_first (ev, l) (docListeners e)) e) s.

Definition sentry_call (c : SentryCall) (s : State) : State :=
  upd_env (λ e, set_sentryCalls (sentryCalls e ++ [c]) e) s.

Definition scope_calls (cs : list ScopeCall) (s : State) : State :=
  upd_env (λ e, set_scopeCalls (scopeCalls e ++ cs) e) s.

(** ** Configuration reconciler *)

Definition block_all : Hook := λ _, None.

(** The fields every patch writes. *)
Definition gated_fields : list string :=
  ["enabled"; "sampleRate"; "beforeSend"; "maxBreadcrumbs"; "attachStacktrace";
   "tracesSampleRate"; "profilesSampleRate"; "beforeBreadcrumb";
   "beforeSendTransaction"; "sendDefaultPii"; "replaysSessionSampleRate";
   "replaysOnErrorSampleRate"].

Definition buildConsentBasedConfig (original : JSObject) (consentState : ConsentState)
  : JSObject :=
  let config : JSObject := ∅ in
  let config :=
    if negb (truthy (cs_functional consentState)) then
      <["beforeSend" := VFun block_all]>
        (<["sampleRate" := VNum 0]> (<["enabled" := VBool false]> config))
    else
      <["beforeSend" := get_prop original "beforeSend"]>
        (<["sampleRate" := nullish (get_prop original "sampleRate") (VNum 1)]>
           (<["enabled" := VBool true]> config)) in
  let config :=
    if negb (truthy (cs_analytics consentState)) then
      <["beforeSendTransaction" := VFun block_all]>
        (<["beforeBreadcrumb" := VFun block_all]>
           (<["profilesSampleRate" := VNum 0]>
              (<["tracesSampleRate" := VNum 0]>
                 (<["attachStacktrace" := VBool false]>
                    (<["maxBreadcrumbs" := VNum 0]> config)))))
    else
      <["beforeSendTransaction" := get_prop original "beforeSendTransaction"]>
        (<["beforeBreadcrumb" := get_prop original "beforeBreadcrumb"]>
           (<["profilesSampleRate" := nullish (get_prop original "profilesSampleRate") (VNum 0)]>
              (<["tracesSampleRate" := nullish (get_prop original "tracesSampleRate") (VNum 0)]>
                 (<["attachStacktrace" := nullish (get_prop original "attachStacktrace") (VBool false)]>
                    (<["maxBreadcrumbs" := nullish (get_prop original "maxBreadcrumbs") (VNum (Qc_of_Z 100))]>
                       config))))) in
  if negb (truthy (cs_preferences consentState)) then
    <["replaysOnErrorSampleRate" := VNum 0]>
      (<["replaysSessionSampleRate" := VNum 0]>
         (<["sendDefaultPii" := VBool false]> config))
  else
    <["replaysOnErrorSampleRate" := nullish (get_prop original "replaysOnErrorSampleRate") (VNum 0)]>
      (<["replaysSessionSampleRate" := nullish (get_prop original "replaysSessionSampleRate") (VNum 0)]>
         (<["sendDefaultPii" := nullish (get_prop original "sendDefaultPii") (VBool false)]> config)).

Definition updateSentryScope (hasMarketingConsent : bool) (s : State) : State :=
  match scope (env s) with
  | None => s
  | Some _ =>
      let original := originalScopeData (self s) in
      if negb hasMarketingConsent then
        scope_calls
          ([setUser None] ++
           match osd_tags original with
           | Some tags => (λ kv, setTag kv.1 None) <$> tags
           | None => []
           end ++
           [setContext "marketing" None]) s
      else
        scope_calls
          (match osd_user original with Some u => [setUser (Some u)] | None => [] end ++
           match osd_tags original with
           | Some tags => (λ kv, setTag kv.1 (Some kv.2)) <$> tags
           | None => []
           end ++
           match osd_contexts original with
           | Some contexts => (λ kv, setContext kv.1 (Some kv.2)) <$> contexts
           | None => []
           end) s
  end.

Definition applySentryConfiguration (consentState : ConsentState) (s : State) : State :=
  match client (env s) with
  | None => s
  | Some options =>
      let newConfig := buildConsentBasedConfig (originalSentryConfig (self s)) consentState in
      let s := upd_env (set_client (Some (Object_assign options newConfig))) s in
      match cs_marketing consentState with
      | Some marketing => updateSentryScope marketing s
      | None => s
      end
  end.

(** A placeholder in the source: it only writes to the console. *)
Definition updateIntegrationConfigs (consentState : ConsentState) (s : State) : State := s.

Definition captured_fields : list string :=
  ["sendDefaultPii"; "maxBreadcrumbs"; "attachStacktrace"; "sampleRate";
   "tracesSampleRate"; "beforeBreadcrumb"; "beforeSend"; "beforeSendTransaction";
   "replaysSessionSampleRate"; "replaysOnErrorSampleRate"; "profilesSampleRate"].

Definition default_config : JSObject :=
  list_to_map
    [("sendDefaultPii", VBool false); ("maxBreadcrumbs", VNum (Qc_of_Z 100));
     ("attachStacktrace", VBool false); ("sampleRate", VNum 1);
     ("tracesSampleRate", VNum 0); ("replaysSessionSampleRate", VNum 0);
     ("replaysOnErrorSampleRate", VNum 0); ("profilesSampleRate", VNum 0)].

Definition captureOriginalSentryConfig (s : State) : State :=
  match client (env s) with
  | Some options =>
      upd_self (set_originalSentryConfig
                  (list_to_map ((λ k, (k, get_prop options k)) <$> captured_fields))) s
  | None => upd_self (set_originalSentryConfig default_config) s
  end.

Definition captureOriginalScopeData (s : State) : State :=
  match scope (env s) with
  | Some sc =>
      upd_self (set_originalScopeData
                  {| osd_user := _user sc;
                     osd_tags := Some (default [] (_tags sc));
                     osd_contexts := Some (default [] (_contexts sc)) |}) s
  | None => s
  end.

(** ** The integration class *)

Inductive GatingState := NOT_READY | READY_GRANTED | READY_DENIED.

(** The gating state is the pair of flags [isConsentReady], [hasConsent]. *)
Definition gating (s : State) : GatingState :=
  if isConsentReady (self s) then
    if hasConsent (self s) then READY_GRANTED else READY_DENIED
  else NOT_READY.

(** What the outside world can make the instance do once it is set up. *)
Inductive Trigger :=
| Capture (event : Event) (hint : EventHint)   (* Sentry runs the hook *)
| Dispatch (ev : DocEvent)                     (* a document event *)
| TimerFires (id : nat)                        (* the browser runs a timer *)
| Cleanup.

(** [new SentryZarazConsentIntegrationClass(options)] *)
Definition new (mapping : PurposeMapping) : Self :=
  {| purposeMapping := mapping;
     isConsentReady := false;
     hasConsent := false;
     eventQueue := [];
     consentChangeListener := None;
     currentConsentState := empty_consent_state;
     warningTimeoutId := None;
     errorTimeoutId := None;
     originalSentryConfig := ∅;
     originalScopeData := mkOriginalScope None None None |}.

(** A page in which nothing is registered yet.  Timer ids are handed out
    from 1, as in a page that has set no timer before; what matters of them
    is that they are positive, hence truthy, and distinct. *)
Definition fresh_env (options : option JSObject) (sc : option ScopeData)
    (capture_event : bool) (pipeline : Pipeline) : Env :=
  {| client := options;
     scope := sc;
     hasCaptureEvent := capture_event;
     sentryPipeline := pipeline;
     docListeners := [];
     timers := [];
     nextTimerId := 1;
     sentryCalls := [];
     scopeCalls := [];
     eventLog := [] |}.

Definition processEvent (event : Event) (hint : EventHint) (s : State)
  : option Event * State :=
  if isConsentReady (self s) && hasConsent (self s) then
    (Some event, logEvent "Sentry event allowed" s)
  else if isConsentReady (self s) && negb (hasConsent (self s)) then
    (None, logEvent "Event blocked" s)
  else
    let s := logEvent "Sentry event queued" s in
    (None, upd_self (λ me, set_eventQueue (eventQueue me ++ [(event, hint)]) me) s).

Definition clearEventQueue (s : State) : State := upd_self (set_eventQueue []) s.

(** [if (id) { clearTimeout(id); id = null }]: the id [0] would be falsy. *)
Definition clear_if_set (id : option nat) (reset : Self → Self) (s : State) : State :=
  match id with
  | Some (S n) => upd_self reset (clearTimeout (S n) s)
  | _ => s
  end.

Definition clearWarningAndErrorTimeouts (s : State) : State :=
  let s := clear_if_set (warningTimeoutId (self s)) (set_warningTimeoutId None) s in
  clear_if_set (errorTimeoutId (self s)) (set_errorTimeoutId None) s.

Definition frame_line (f : StackFrame) : string :=
  str_or (filename f) "unknown" +:+ ":" +:+ num_or_zero (lineno f).

(** The body of the [try] in [processQueuedEvents]: which capture the
    queued event is re-sent through; [None] when the event has no exception,
    no message, and Sentry has no [captureEvent]. *)
Definition recapture (capture_event : bool) (event : Event) (hint : EventHint)
  : option SentryCall :=
  match exception_values event ≫= head with
  | Some v =>
      let error :=
        {| err_message := str_or (exc_value v) "Queued error";
           err_stack := join newline (frame_line <$> default [] (exc_frames v)) |} in
      Some (captureException error)
  | None =>
      if str_truthy (message event) then
        Some (captureMessage (str_or (message event) "Queued message") (level event))
      else if capture_event then Some (captureEvent event hint)
      else None
  end.

(** A capture that throws is swallowed by the [catch]; the call has been
    made all the same.  Sentry may run the hook on the capture before the
    call returns: that is [processEvent] entered again, in the state the
    flush has reached. *)
Definition resend (event : Event) (hint : EventHint) (s : State) : State :=
  match recapture (hasCaptureEvent (env s)) event hint with
  | Some call =>
      let n := length (sentryCalls (env s)) in
      let s := sentry_call call s in
      match sentryPipeline (env s) n call with
      | Some (event', hint') => (processEvent event' hint' s).2
      | None => s
      end
  | None => s
  end.

(** The [async] body has no [await]: it runs to its end when called. *)
Definition processQueuedEvents (s : State) : State :=
  let queuedEvents := eventQueue (self s) in
  let s := upd_self (set_eventQueue []) s in
  foldl (λ s q, if hasConsent (self s) then resend q.1 q.2 s else s) s queuedEvents.

Definition listenForConsentChanges (s : State) : State :=
  let s := upd_self (set_consentChangeListener (Some consentChangeListenerFn)) s in
  addEventListener zarazConsentChoicesUpdated consentChangeListenerFn s.

Definition run_timer (body : TimerBody) (s : State) : State :=
  match body with
  | WarningTimeout => logEvent "Zaraz loading warning" s
  | ErrorTimeout =>
      let s := logEvent "Zaraz loading error" s in
      let s := upd_self (set_isConsentReady true) s in
      let s := upd_self (set_hasConsent false) s in
      clearEventQueue s
  end.

Definition fire_timer (id : nat) (s : State) : State :=
  match list_find (λ t, timer_id t = id) (timers (env s)) with
  | Some (_, t) => run_timer (timer_body t) (clearTimeout id s)
  | None => s
  end.

Definition cleanup (s : State) : State :=
  let s := clearWarningAndErrorTimeouts s in
  let s :=
    match consentChangeListener (self s) with
    | Some l =>
        upd_self (set_consentChangeListener None)
          (removeEventListener zarazConsentChoicesUpdated l s)
    | None => s
    end in
  clearEventQueue s.

Section Integration.

(** [getConsentStatus] is imported from [./zaraz]: any resolver from the
    mapping and the page to one boolean per purpose. *)
Variable getConsentStatus : PurposeMapping → Global → ConsentStatus.

Definition checkConsent (g : Global) (s : State) : State :=
  let currentConsentState := getConsentStatus (purposeMapping (self s)) g in
  let s := upd_self (set_currentConsentState (asConsentState currentConsentState)) s in
  let hasConsent := st_functional currentConsentState in
  let s := upd_self (set_isConsentReady true) s in
  let s := upd_self (set_hasConsent hasConsent) s in
  let s := applySentryConfiguration (asConsentState currentConsentState) s in
  let s := updateIntegrationConfigs (asConsentState currentConsentState) s in
  let s :=
    if hasConsent then processQueuedEvents (logEvent "Consent granted" s)
    else clearEventQueue (logEvent "Consent denied" s) in
  let s := listenForConsentChanges s in
  clearWarningAndErrorTimeouts s.

(** The closure stored in [consentChangeListener]. *)
Definition consentChanged (g : Global) (s : State) : State :=
  let newConsentState := getConsentStatus (purposeMapping (self s)) g in
  let currentConsent := st_functional newConsentState in
  if bool_decide (currentConsent ≠ hasConsent (self s))
     || bool_decide (JSON_stringify (asConsentState newConsentState)
                     ≠ JSON_stringify (currentConsentState (self s))) then
    let s := logEvent "Consent status changed" s in
    let s := upd_self (set_hasConsent currentConsent) s in
    let s := upd_self (set_currentConsentState (asConsentState newConsentState)) s in
    let s := applySentryConfiguration (asConsentState newConsentState) s in
    let s := updateIntegrationConfigs (asConsentState newConsentState) s in
    if currentConsent then processQueuedEvents s else s
  else s.

(** The closure [handleZarazLoaded]. *)
Definition zarazLoaded (g : Global) (s : State) : State :=
  if api_ready g then
    let s := checkConsent g s in
    let s := removeEventListener zarazConsentAPIReady handleZarazLoaded s in
    clearWarningAndErrorTimeouts s
  else s.

Definition initializeConsentMonitoring (g : Global) (s : State) : State :=
  if api_ready g then checkConsent g s
  else
    let s := addEventListener zarazConsentAPIReady handleZarazLoaded s in
    let '(id, s) := setTimeout WarningTimeout 20000 s in
    let s := upd_self (set_warningTimeoutId (Some id)) s in
    let '(id, s) := setTimeout ErrorTimeout 45000 s in
    upd_self (set_errorTimeoutId (Some id)) s.

Definition setupOnce (g : Global) (s : State) : State :=
  let s := captureOriginalSentryConfig s in
  let s := captureOriginalScopeData s in
  initializeConsentMonitoring g s.

Definition run_listener (l : Listener) (g : Global) (s : State) : State :=
  match l with
  | handleZarazLoaded => zarazLoaded g s
  | consentChangeListenerFn => consentChanged g s
  end.

(** The document runs the listeners registered for [ev] when the event is
    dispatched, in registration order. *)
Definition dispatch (ev : DocEvent) (g : Global) (s : State) : State :=
  foldl (λ s r, run_listener r.2 g s) s
        (filter (λ r, r.1 = ev) (docListeners (env s))).

(** One trigger, in the page as it is at that moment. *)
Definition step (s : State) (i : Global * Trigger) : State :=
  match i.2 with
  | Capture event hint => (processEvent event hint s).2
  | Dispatch ev => dispatch ev i.1 s
  | TimerFires id => fire_timer id s
  | Cleanup => cleanup s
  end.

Definition run (s : State) (inputs : list (Global * Trigger)) : State :=
  foldl step s inputs.

(** The instance after [setupOnce], in a fresh page. *)
Definition start (mapping : PurposeMapping) (e : Env) (g : Global) : State :=
  setupOnce g (mkState (new mapping) e).

End Integration.

(** ** Observations on a state *)

(** How many records of a kind the log holds. *)
Definition count_records (kind : string → bool) (log : list string) : nat :=
  length (filter (λ n, kind n = true) log).

(** [checkConsent] is the one place that logs these two records: their
    number is the number of first resolutions that have run. *)
Definition is_resolution_record (name : string) : bool :=
  bool_decide (name = "Consent granted") || bool_decide (name = "Consent denied").

Definition resolutions (s : State) : nat :=
  count_records is_resolution_record (eventLog (env s)).

(** The two delayed callbacks log one record each when their body runs. *)
Definition is_timer_record (name : string) : bool :=
  bool_decide (name = "Zaraz loading warning") || bool_decide (name = "Zaraz loading error").

Definition timer_runs (s : State) : nat :=
  count_records is_timer_record (eventLog (env s)).

(** The fallback's body is the one place that logs this record. *)
Definition is_fallback_record (name : string) : bool :=
  bool_decide (name = "Zaraz loading error").

Definition fallback_runs (s : State) : nat :=
  count_records is_fallback_record (eventLog (env s)).

(** The captures a whole queue is re-sent through, in order. *)
Definition recaptured (capture_event : bool) (queue : list (Event * EventHint))
  : list SentryCall :=
  omap (λ q, recapture capture_event q.1 q.2) queue.

(** The events Sentry hands to the hook for the captures [calls], made
    after [n] earlier ones. *)
Fixpoint handed_back (pipeline : Pipeline) (n : nat) (calls : list SentryCall)
  : list (Event * EventHint) :=
  match calls with
  | [] => []
  | call :: rest => option_list (pipeline n call) ++ handed_back pipeline (S n) rest
  end.

(** What a flush of the queue of [s] hands to the hook. *)
Definition flush_back (s : State) : list (Event * EventHint) :=
  handed_back (sentryPipeline (env s)) (length (sentryCalls (env s)))
    (recaptured (hasCaptureEvent (env s)) (eventQueue (self s))).

(** The two timers [initializeConsentMonitoring] arms in a fresh page. *)
Definition warning_timer : Timer := mkTimer 1 20000 WarningTimeout.
Definition error_timer : Timer := mkTimer 2 45000 ErrorTimeout.

Definition ready_listener : DocEvent * Listener := (zarazConsentAPIReady, handleZarazLoaded).
Definition change_listener : DocEvent * Listener :=
  (zarazConsentChoicesUpdated, consentChangeListenerFn).

Definition when {A} (b : bool) (x : A) : list A := if b then [x] else [].

(** ** Sample pages and events *)

Definition consent_of (grants : list (string * bool)) : ConsentAPI :=
  {| APIReady := Some true;
     get := λ k, (list_to_map grants : gmap string bool) !! k |}.

Definition window_with (grants : list (string * bool)) : Global :=
  Some (mkWindow (Some (mkZaraz (Some (consent_of grants))))).

Definition window_without_zaraz : Global := Some (mkWindow None).

Definition sample_mapping : PurposeMapping :=
  {| pm_functional := Some (MIds ["F"]);
     pm_analytics := Some (MIds ["A"]);
     pm_marketing := Some (MBool true);
     pm_preferences := None |}.

Definition error_event : Event :=
  {| ev_type := None; event_id := Some "e1"; level := Some "error"; message := None;
     exception_values :=
       Some [mkExceptionValue (Some "boom")
               (Some [mkFrame (Some "app.js") (Some (mkNumber true "10")); mkFrame None None])] |}.

Definition message_event : Event :=
  {| ev_type := None; event_id := Some "e2"; level := Some "info";
     message := Some "hello"; exception_values := None |}.

Definition plain_event : Event :=
  {| ev_type := Some "transaction"; event_id := Some "e3"; level := None;
     message := None; exception_values := None |}.

Definition no_hint : EventHint := mkHint None.

Definition sample_options : JSObject :=
  list_to_map [("sampleRate", VNum (Qc_of_Z 1 / Qc_of_Z 2)); ("maxBreadcrumbs", VNum (Qc_of_Z 50))].

(** A Sentry that runs the hook on every capture, with the event it builds
    from it. *)
Definition sample_pipeline : Pipeline :=
  λ _ call,
    Some (match call with
          | captureException error =>
              (mkEvent None None (Some "error") None
                 (Some [mkExceptionValue (Some (err_message error)) None]), no_hint)
          | captureMessage msg lvl => (mkEvent None None lvl (Some msg) None, no_hint)
          | captureEvent event hint => (event, hint)
          end).

Definition sample_env : Env := fresh_env (Some sample_options) None true sample_pipeline.

Definition queued_state : State :=
  run getZarazConsentState
    (start getZarazConsentState sample_mapping sample_env window_without_zaraz)
    [(window_without_zaraz, Capture error_event no_hint);
     (window_without_zaraz, Capture message_event no_hint);
     (window_without_zaraz, Capture plain_event no_hint)].

(** ** The two phases of an instance that has been set up *)

Definition id_if (b : bool) (id : nat) : option nat := if b then Some id else None.

(** Before any first resolution: [handleZarazLoaded] is the only listener,
    the timers still armed are among the two armed at setup and their ids
    are still in the instance, and if the gate is already decided it was
    decided by the fallback. *)
Record waiting (s : State) : Prop := mkWaiting {
  w_resolutions : resolutions s = 0;
  w_listeners : docListeners (env s) = [ready_listener];
  w_timers :
    ∃ warning_armed error_armed warning_kept error_kept : bool,
      timers (env s) = when warning_armed warning_timer ++ when error_armed error_timer
      ∧ warningTimeoutId (self s) = id_if warning_kept 1
      ∧ errorTimeoutId (self s) = id_if error_kept 2
      ∧ (warning_armed = true → warning_kept = true)
      ∧ (error_armed = true → error_kept = true)
      ∧ (isConsentReady (self s) = true → error_armed = false);
  w_fallback :
    isConsentReady (self s) = true →
    hasConsent (self s) = false ∧ eventQueue (self s) = [] ∧ 0 < fallback_runs s;
  w_undecided : isConsentReady (self s) = false → fallback_runs s = 0;
  w_nothing_sent : sentryCalls (env s) = []
}.

(** After the first resolution: no timer is armed, the gate is decided and
    agrees with the cached snapshot, the queue is empty. *)
Record resolved (s : State) : Prop := mkResolved {
  r_resolutions : resolutions s = 1;
  r_timers : timers (env s) = [];
  r_ready : isConsentReady (self s) = true;
  r_queue : eventQueue (self s) = [];
  r_synced : cs_functional (currentConsentState (self s)) = Some (hasConsent (self s));
  r_listeners : docListeners (env s) = [change_listener] ∨ docListeners (env s) = []
}.

Definition lifecycle (s : State) : Prop := waiting s ∨ resolved s.

(** A page in which the consent source is not ready, and a trigger other
    than the host's [cleanup]. *)
Definition source_not_ready (i : Global * Trigger) : Prop :=
  api_ready i.1 = false ∧ i.2 ≠ Cleanup.

(** The fallback timer is still armed, or its body has decided the gate. *)
Definition fallback_armed_or_fired (s : State) : Prop :=
  waiting s
  ∧ errorTimeoutId (self s) = Some 2
  ∧ (error_timer ∈ timers (env s) ∨ isConsentReady (self s) = true).

Definition granting_window : Global := window_with [("F", true); ("A", false)].

Definition resolved_state : State :=
  start getZarazConsentState sample_mapping sample_env granting_window.

Definition fallen_back_state : State :=
  run getZarazConsentState
    (start getZarazConsentState sample_mapping sample_env window_without_zaraz)
    [(window_without_zaraz, TimerFires 2)].

Definition three_captures : list (Global * Trigger) :=
  [(window_without_zaraz, Capture error_event no_hint);
   (window_without_zaraz, Capture message_event no_hint);
   (window_without_zaraz, Capture plain_event no_hint)].

Definition late_ready_run : list (Global * Trigger) :=
  three_captures ++ [(window_without_zaraz, TimerFires 1);
                     (granting_window, Dispatch zarazConsentAPIReady)].

Definition both_timers_due : list (Global * Trigger) :=
  [(granting_window, TimerFires 1); (granting_window, TimerFires 2)].

(** ** Further code of the package *)

(** [isZarazConsentReady()].  [get_is_function] is what
    [typeof window.zaraz.consent.get === 'function'] gives in the page.  The
    declared type of [window.zaraz.consent] makes [get] a method; the
    function tests it all the same, so it is an input here. *)
Definition isZarazConsentReady (get_is_function : bool) (g : Global) : bool :=
  match g with
  | None => false
  | Some _ =>
      match zaraz_consent g with
      | Some c => truthy (APIReady c) || get_is_function
      | None => false
      end
  end.

(** The gated fields by the purpose whose consent decides them. *)
Definition purpose_fields (p : Purpose) : list string :=
  match p with
  | Functional => ["enabled"; "sampleRate"; "beforeSend"]
  | Analytics =>
      ["maxBreadcrumbs"; "attachStacktrace"; "tracesSampleRate"; "profilesSampleRate";
       "beforeBreadcrumb"; "beforeSendTransaction"]
  | Preferences => ["sendDefaultPii"; "replaysSessionSampleRate"; "replaysOnErrorSampleRate"]
  | Marketing => []
  end.

(** The gated fields that hold a number or a flag, not a hook. *)
Definition value_fields : list string :=
  ["enabled"; "sampleRate"; "maxBreadcrumbs"; "attachStacktrace"; "tracesSampleRate";
   "profilesSampleRate"; "sendDefaultPii"; "replaysSessionSampleRate";
   "replaysOnErrorSampleRate"].

Definition is_nullish (v : JSValue) : bool :=
  match v with
  | VUndefined | VNull => true
  | _ => false
  end.

(** The reconciler run once per snapshot, in order. *)
Definition reconcile_all (snapshots : list ConsentState) (s : State) : State :=
  foldl (λ s cs, applySentryConfiguration cs s) s snapshots.

(** The captured fields that have a default, and those that are hooks. *)
Definition defaulted_fields : list string :=
  ["sendDefaultPii"; "maxBreadcrumbs"; "attachStacktrace"; "sampleRate";
   "tracesSampleRate"; "replaysSessionSampleRate"; "replaysOnErrorSampleRate";
   "profilesSampleRate"].

Definition hook_fields : list string :=
  ["beforeBreadcrumb"; "beforeSend"; "beforeSendTransaction"].

(** A call that clears something of the scope: a [null] user, an
    [undefined] tag, a [null] context. *)
Definition is_clearing (c : ScopeCall) : bool :=
  match c with
  | setUser None | setTag _ None | setContext _ None => true
  | _ => false
  end.

Definition tag_key (c : ScopeCall) : option string :=
  match c with
  | setTag k _ => Some k
  | _ => None
  end.

(** The events a run hands to the hook. *)
Definition captured (inputs : list (Global * Trigger)) : list (Event * EventHint) :=
  omap (λ i, match i.2 with
             | Capture event hint => Some (event, hint)
             | _ => None
             end) inputs.

(** The captures of a burst of events in one page. *)
Definition captures (g : Global) (events : list (Event * EventHint))
  : list (Global * Trigger) :=
  (λ q, (g, Capture q.1 q.2)) <$> events.

(** The change listener the instance remembers is the one the document has. *)
Definition listener_tracked (s : State) : Prop :=
  docListeners (env s) = [change_listener] →
  consentChangeListener (self s) = Some consentChangeListenerFn.

(** The warning's body is the one place that logs this record. *)
Definition is_warning_record (name : string) : bool :=
  bool_decide (name = "Zaraz loading warning").

Definition warning_runs (s : State) : nat :=
  count_records is_warning_record (eventLog (env s)).

Definition pending (b : bool) : nat := if b then 1 else 0.

(** Each delayed callback is armed or has run, never both, and has run at
    most once. *)
Definition timers_once (s : State) : Prop :=
  ∃ warning_armed error_armed : bool,
    timers (env s) = when warning_armed warning_timer ++ when error_armed error_timer
    ∧ (warning_runs s + pending warning_armed ≤ 1)%nat
    ∧ (fallback_runs s + pending error_armed ≤ 1)%nat.

(** After the first resolution the cached snapshot is one the resolver built. *)
Definition cached_from_resolver (s : State) : Prop :=
  resolved s → ∃ cached : ConsentStatus, currentConsentState (self s) = asConsentState cached.

(** ** The wrapper around the base package *)

(** The first version of the file builds the options of the base package;
    [onConsentChange] is the one part of it that touches the document. *)
Module Wrapper.

(** The listeners of the document: the event and the identity of the
    function.  [addEventListener] ignores a pair that is registered already,
    [removeEventListener] removes the pair if it is there. *)
Abbreviation Handlers := (list (DocEvent * nat)).

Definition addEventListener (ev : DocEvent) (h : nat) (d : Handlers) : Handlers :=
  if decide ((ev, h) ∈ d) then d else d ++ [(ev, h)].

Definition removeEventListener (ev : DocEvent) (h : nat) (d : Handlers) : Handlers :=
  remove_first (ev, h) d.

(** [onConsentChange(trigger)]: [handleConsentChange] is a closure made by
    this call, [h] is its identity; the result is the document and the
    cleanup function returned to the base package. *)
Definition onConsentChange (h : nat) (d : Handlers) : Handlers * (Handlers → Handlers) :=
  let d := addEventListener zarazConsentChoicesUpdated h d in
  let d := addEventListener zarazConsentAPIReady h d in
  (d, λ d, removeEventListener zarazConsentAPIReady h
             (removeEventListener zarazConsentChoicesUpdated h d)).

(** The functions the document runs for [ev], in registration order; each
    run of [handleConsentChange] calls [trigger] once. *)
Definition handlers_for (ev : DocEvent) (d : Handlers) : list nat :=
  (filter (λ r, r.1 = ev) d).*2.

End Wrapper.

(** ** The demo page *)

(** The demo (demo/src/components/LogsDisplay.tsx) keeps the console output
    in a bounded list, mirrors the consent snapshot for display and polls
    for the consent API when it starts. *)
Module Demo.

Definition upper_ascii (c : ascii) : ascii :=
  let n := nat_of_ascii c in
  if (97 <=? n)%nat && (n <=? 122)%nat then ascii_of_nat (n - 32) else c.

(** [String.prototype.toUpperCase], on ASCII text. *)
Fixpoint toUpperCase (s : string) : string :=
  match s with
  | EmptyString => EmptyString
  | String c rest => String (upper_ascii c) (toUpperCase rest)
  end.

(** [logs.slice(-n)]: the last [n] elements, all of them if there are fewer. *)
Definition slice_last {A} (n : nat) (l : list A) : list A := drop (length l - n) l.

(** [addLog(type, ...args)]; [args] are the arguments as already rendered
    by [String] or [JSON.stringify], [timestamp] is the clock's text. *)
Definition addLog (timestamp type : string) (args : list string) (logs : list string)
  : list string :=
  let message := join " " args in
  let logs := logs ++ ["[" +:+ timestamp +:+ "] " +:+ toUpperCase type +:+ ": " +:+ message] in
  if decide (50 < length logs)%nat then slice_last 50 logs else logs.

Definition line (entry : string * string * list string) : string :=
  "[" +:+ entry.1.1 +:+ "] " +:+ toUpperCase entry.1.2 +:+ ": " +:+ join " " entry.2.

Definition addLogs (entries : list (string * string * list string)) (logs : list string)
  : list string :=
  foldl (λ logs entry, addLog entry.1.1 entry.1.2 entry.2 logs) logs entries.

(** The consent the page displays, the text of the snapshot it was taken
    from, and how often the display was redrawn. *)
Record Display := mkDisplay {
  currentConsent : ConsentStatus;
  lastConsentCheck : string;
  redraws : nat
}.

Definition initial_display : Display :=
  mkDisplay (mkConsentStatus false false false false) "" 0.

(** [monitorConsentChanges()]; [read] is what [getConsentStatus] returned,
    [None] if it threw. *)
Definition monitorConsentChanges (read : option ConsentStatus) (d : Display) : Display :=
  match read with
  | Some newConsent =>
      let newConsentString := JSON_stringify (asConsentState newConsent) in
      if decide (newConsentString ≠ lastConsentCheck d) then
        mkDisplay newConsent newConsentString (S (redraws d))
      else d
  | None => d
  end.

Inductive Outcome :=
| ReadyAfter (attempts : nat)      (* Sentry initialized, consent monitored *)
| TimedOutAfter (attempts : nat).  (* Sentry initialized without the consent API *)

Definition maxAttempts : nat := 100.

(** [checkZaraz], which re-arms itself with [setTimeout(checkZaraz, 100)];
    [ready n] is [window.zaraz?.consent?.APIReady === true] at the [n]-th
    check.  [fuel] bounds the number of checks. *)
Fixpoint checkZaraz (fuel : nat) (ready : nat → bool) (attempts : nat) : option Outcome :=
  match fuel with
  | 0 => None
  | S fuel =>
      let attempts := S attempts in
      if ready attempts then Some (ReadyAfter attempts)
      else if decide (maxAttempts ≤ attempts)%nat then Some (TimedOutAfter attempts)
      else checkZaraz fuel ready attempts
  end.

End Demo.

(** * Properties *)

(** ** Purpose resolver *)

Lemma granted_all (c : ConsentAPI) (ids : list string) :
  forallb (granted c) ids = true ↔ Forall (λ id, get c id = Some true) ids.
Proof.
  induction ids as [|id ids IH]; simpl.
  - split; [constructor | done].
  - rewrite andb_true_iff, Forall_cons, IH. unfold granted.
    by rewrite bool_decide_eq_true.
Qed.

Lemma getZarazConsentState_entry (pm : PurposeMapping) (g : Global) (p : Purpose) :
  st_entry p (getZarazConsentState pm g) = checkZarazConsent g (pm_entry p pm).
Proof. by destruct p. Qed.

(** C3: for every entry of the purpose mapping the resolver answers the
    fixed boolean itself when the entry is a boolean, whatever the page
    holds; [false] when the entry is absent; and for a list of identifiers
    [false] when [window.zaraz.consent] is unavailable, otherwise [true]
    exactly when every identifier of the list reports granted. *)
Theorem resolver_entry (pm : PurposeMapping) (g : Global) (p : Purpose) :
  let answer := st_entry p (getZarazConsentState pm g) in
  match pm_entry p pm with
  | Some (MBool b) => answer = b
  | None => answer = false
  | Some (MIds ids) =>
      match zaraz_consent g with
      | None => answer = false
      | Some c => answer = true ↔ Forall (λ id, get c id = Some true) ids
      end
  end.
Proof.
  intros answer. subst answer. rewrite getZarazConsentState_entry.
  destruct (pm_entry p pm) as [[b|ids]|]; simpl; try done.
  destruct (zaraz_consent g) as [c|]; [apply granted_all | done].
Qed.

(** C10: a purpose mapped to the empty array resolves to [true] as soon as
    [window.zaraz.consent] exists and to [false] when it does not. *)
Theorem empty_array_follows_availability (pm : PurposeMapping) (g : Global) (p : Purpose) :
  pm_entry p pm = Some (MIds []) →
  st_entry p (getZarazConsentState pm g) = bool_decide (is_Some (zaraz_consent g)).
Proof.
  intros Hp. rewrite getZarazConsentState_entry, Hp. simpl.
  by destruct (zaraz_consent g).
Qed.

Lemma empty_array_follows_availability_witness :
  st_entry Functional
    (getZarazConsentState (mkPurposeMapping (Some (MIds [])) None None None) (window_with []))
  = bool_decide (is_Some (zaraz_consent (window_with []))).
Proof.
  apply (empty_array_follows_availability
           (mkPurposeMapping (Some (MIds [])) None None None) (window_with []) Functional).
  reflexivity.
Defined.

Example empty_array_versus_absent :
  checkZarazConsent (window_with []) (Some (MIds [])) = true
  ∧ checkZarazConsent (window_with []) None = false
  ∧ checkZarazConsent window_without_zaraz (Some (MIds [])) = false.
Proof. done. Qed.

Example resolve_all_of_two :
  checkZarazConsent (window_with [("a", true); ("b", false)]) (Some (MIds ["a"; "b"])) = false
  ∧ checkZarazConsent (window_with [("a", true); ("b", true)]) (Some (MIds ["a"; "b"])) = true
  ∧ checkZarazConsent (window_with [("a", true)]) (Some (MIds ["a"; "b"])) = false
  ∧ checkZarazConsent window_without_zaraz (Some (MBool true)) = true.
Proof. by vm_compute. Qed.

(** ** Admission gate *)

(** C1: the hook's answer and its effect on the queue depend on the gating
    state alone.  While readiness is undetermined the event is appended at
    the end of the queue and the hook returns [null]; once ready the hook
    returns the event itself under consent and [null] without, and the
    queue is left as it was.  The gating state itself is not changed. *)
Theorem processEvent_admission (event : Event) (hint : EventHint) (s : State) :
  let r := processEvent event hint s in
  gating r.2 = gating s ∧
  match gating s with
  | NOT_READY =>
      r.1 = None ∧ eventQueue (self r.2) = eventQueue (self s) ++ [(event, hint)]
  | READY_GRANTED => r.1 = Some event ∧ eventQueue (self r.2) = eventQueue (self s)
  | READY_DENIED => r.1 = None ∧ eventQueue (self r.2) = eventQueue (self s)
  end.
Proof.
  unfold processEvent, gating.
  destruct (isConsentReady (self s)) eqn:Hr, (hasConsent (self s)) eqn:Hc;
    simpl; rewrite ?Hr, ?Hc; done.
Qed.

Lemma run_cons getConsentStatus (s : State) (i : Global * Trigger) inputs :
  run getConsentStatus s (i :: inputs) = run getConsentStatus (step getConsentStatus s i) inputs.
Proof. done. Qed.

Lemma run_app getConsentStatus (s : State) inputs more :
  run getConsentStatus s (inputs ++ more)
  = run getConsentStatus (run getConsentStatus s inputs) more.
Proof. apply foldl_app. Qed.

(** Before readiness is determined, a burst of captures ends up in the
    queue in arrival order. *)
Lemma captures_queue_in_order getConsentStatus (g : Global) (evs : list (Event * EventHint))
    (s : State) :
  isConsentReady (self s) = false →
  let s' := run getConsentStatus s ((λ q, (g, Capture q.1 q.2)) <$> evs) in
  eventQueue (self s') = eventQueue (self s) ++ evs ∧ gating s' = NOT_READY.
Proof.
  revert s. induction evs as [|[e h] evs IH]; intros s Hr.
  - simpl. rewrite app_nil_r. unfold gating. by rewrite Hr.
  - rewrite fmap_cons, run_cons. cbv beta zeta in IH |- *. cbn [fst snd].
    destruct (IH (step getConsentStatus s (g, Capture e h))) as [Hq Hg].
    { unfold step, processEvent. simpl. by rewrite Hr. }
    rewrite Hq. split; [|done].
    unfold step, processEvent. simpl. rewrite Hr. simpl. by rewrite <- app_assoc.
Qed.

(** ** Configuration reconciler *)

(** What setup keeps of the client's options is what the options held. *)
Lemma captured_baseline (s : State) (options : JSObject) :
  client (env s) = Some options →
  Forall (λ k, get_prop (originalSentryConfig (self (captureOriginalSentryConfig s))) k
               = get_prop options k) captured_fields.
Proof.
  intros Hc. unfold captureOriginalSentryConfig. rewrite Hc. simpl.
  unfold captured_fields, get_prop.
  repeat (apply Forall_cons; split; [by simplify_map_eq|]). constructor.
Qed.

(** C5: without functional consent the patch turns the client off, sets the
    sampling rate to zero and installs a [beforeSend] that drops every
    event; with functional consent it turns the client on and puts back the
    baseline's [beforeSend] and the baseline's sampling rate (1.0 when the
    baseline holds none). *)
Theorem functional_consent_patch (original : JSObject) (consentState : ConsentState) :
  let patch := buildConsentBasedConfig original consentState in
  if truthy (cs_functional consentState) then
    patch !! "enabled" = Some (VBool true)
    ∧ patch !! "sampleRate" = Some (nullish (get_prop original "sampleRate") (VNum 1))
    ∧ patch !! "beforeSend" = Some (get_prop original "beforeSend")
  else
    patch !! "enabled" = Some (VBool false)
    ∧ patch !! "sampleRate" = Some (VNum 0)
    ∧ ∃ f : Hook, patch !! "beforeSend" = Some (VFun f) ∧ ∀ event, f event = None.
Proof.
  unfold buildConsentBasedConfig.
  destruct (truthy (cs_functional consentState)),
    (truthy (cs_analytics consentState)), (truthy (cs_preferences consentState));
    cbn [negb]; repeat split; try (by simplify_map_eq);
    exists block_all; split; by simplify_map_eq.
Qed.

(** A rate the host configured comes back as it was. *)
Lemma functional_consent_restores_rate (original : JSObject) (consentState : ConsentState)
    (rate : Qc) :
  truthy (cs_functional consentState) = true →
  original !! "sampleRate" = Some (VNum rate) →
  buildConsentBasedConfig original consentState !! "sampleRate" = Some (VNum rate).
Proof.
  intros Hf Hr. unfold buildConsentBasedConfig. rewrite Hf.
  destruct (truthy (cs_analytics consentState)), (truthy (cs_preferences consentState));
    cbn [negb]; simplify_map_eq; unfold get_prop; by rewrite Hr.
Qed.

Lemma patch_domain (original : JSObject) (consentState : ConsentState) :
  dom (buildConsentBasedConfig original consentState) = list_to_set gated_fields.
Proof.
  unfold buildConsentBasedConfig, gated_fields.
  destruct (truthy (cs_functional consentState)),
    (truthy (cs_analytics consentState)), (truthy (cs_preferences consentState));
    cbn [negb]; rewrite !dom_insert_L, dom_empty_L; simpl; set_solver.
Qed.

(** C6: whatever the snapshot, the patch has a value for each of the twelve
    gated fields and for nothing else, so that once it is assigned onto the
    client's options every gated field holds the patch's value and none
    keeps what an earlier consent state had put there. *)
Theorem patch_replaces_gated_fields (original options : JSObject)
    (consentState : ConsentState) :
  let patch := buildConsentBasedConfig original consentState in
  dom patch = list_to_set gated_fields
  ∧ Forall (λ k, is_Some (patch !! k)
                 ∧ Object_assign options patch !! k = patch !! k) gated_fields.
Proof.
  intros patch. split; [apply patch_domain|].
  apply Forall_forall. intros k Hk.
  assert (is_Some (patch !! k)) as Hs.
  { apply elem_of_dom. unfold patch. rewrite patch_domain. by apply elem_of_list_to_set. }
  split; [done|]. destruct Hs as [v Hv]. unfold Object_assign.
  rewrite Hv. by apply lookup_union_Some_l.
Qed.

(** With a client present, [applySentryConfiguration] leaves the patch's
    value in every gated field of the live options. *)
Lemma applied_options (consentState : ConsentState) (s : State) (options : JSObject) :
  client (env s) = Some options →
  client (env (applySentryConfiguration consentState s))
  = Some (Object_assign options
            (buildConsentBasedConfig (originalSentryConfig (self s)) consentState)).
Proof.
  intros Hc. unfold applySentryConfiguration. rewrite Hc.
  destruct (cs_marketing consentState) as [m|]; [|done].
  unfold updateSentryScope. simpl. by destruct (scope (env s)), (negb m).
Qed.

(** ** Queue flush at the first resolution *)

(** Unfold the field updates down to the record constructors. *)
Ltac normal_form :=
  cbn [upd_self upd_env logEvent clearTimeout addEventListener removeEventListener
       sentry_call scope_calls clearEventQueue
       set_isConsentReady set_hasConsent set_eventQueue set_consentChangeListener
       set_currentConsentState set_warningTimeoutId set_errorTimeoutId
       set_originalSentryConfig set_originalScopeData
       set_client set_docListeners set_timers set_nextTimerId set_sentryCalls
       set_scopeCalls set_eventLog
       self env purposeMapping isConsentReady hasConsent eventQueue
       consentChangeListener currentConsentState warningTimeoutId errorTimeoutId
       originalSentryConfig originalScopeData
       client scope hasCaptureEvent sentryPipeline docListeners timers nextTimerId sentryCalls
       scopeCalls eventLog] in *.

(** The same by call-by-value, for states given by their constructors. *)
Ltac compute_state :=
  cbv [upd_self upd_env logEvent clearTimeout addEventListener removeEventListener
       sentry_call scope_calls clearEventQueue
       set_isConsentReady set_hasConsent set_eventQueue set_consentChangeListener
       set_currentConsentState set_warningTimeoutId set_errorTimeoutId
       set_originalSentryConfig set_originalScopeData
       set_client set_docListeners set_timers set_nextTimerId set_sentryCalls
       set_scopeCalls set_eventLog
       self env purposeMapping isConsentReady hasConsent eventQueue
       consentChangeListener currentConsentState warningTimeoutId errorTimeoutId
       originalSentryConfig originalScopeData
       client scope hasCaptureEvent sentryPipeline docListeners timers nextTimerId sentryCalls
       scopeCalls eventLog].

Lemma upd_env_id (s : State) (f : Env → Env) : (∀ e, f e = e) → upd_env f s = s.
Proof. intros Hf. destruct s as [me e]. unfold upd_env. simpl. by rewrite Hf. Qed.

Lemma set_sentryCalls_same (e : Env) : set_sentryCalls (sentryCalls e) e = e.
Proof. by destruct e. Qed.

Lemma flush_loop (queue : list (Event * EventHint)) (s : State) :
  hasConsent (self s) = true →
  foldl (λ s q, if hasConsent (self s) then resend q.1 q.2 s else s) s queue
  = mkState
      (if isConsentReady (self s) then self s
       else set_eventQueue
              (eventQueue (self s)
               ++ handed_back (sentryPipeline (env s)) (length (sentryCalls (env s)))
                    (recaptured (hasCaptureEvent (env s)) queue)) (self s))
      (set_eventLog
         (eventLog (env s)
          ++ replicate
               (length (handed_back (sentryPipeline (env s)) (length (sentryCalls (env s)))
                          (recaptured (hasCaptureEvent (env s)) queue)))
               (if isConsentReady (self s) then "Sentry event allowed"
                else "Sentry event queued"))
         (set_sentryCalls
            (sentryCalls (env s) ++ recaptured (hasCaptureEvent (env s)) queue) (env s))).
Proof.
  revert s. induction queue as [|[ev h] queue IH]; intros s Hc.
  - destruct s as [[? ready ? ? ? ? ? ? ? ?] []]. unfold recaptured. simpl.
    by destruct ready; rewrite ?app_nil_r.
  - simpl. rewrite Hc. unfold resend. unfold recaptured. cbn [omap list_omap fst snd].
    fold (recaptured (hasCaptureEvent (env s)) queue).
    destruct (recapture (hasCaptureEvent (env s)) ev h) as [call|] eqn:Hcall;
      [|by rewrite IH].
    cbn [handed_back]. normal_form.
    destruct (sentryPipeline (env s) (length (sentryCalls (env s))) call)
      as [[ev' h']|] eqn:Hp; cbn [option_list].
    + unfold processEvent. normal_form. rewrite Hc.
      destruct (isConsentReady (self s)) eqn:Hr; cbn [andb negb snd];
        rewrite IH by (by normal_form); normal_form; rewrite Hr;
        destruct s as [[] []]; simpl in *;
        rewrite ?length_app, ?Nat.add_1_r, <- ?app_assoc; simpl;
        rewrite <- ?app_assoc; reflexivity.
    + rewrite IH by (by normal_form). normal_form.
      destruct s as [[] []]; simpl in *.
      rewrite ?length_app, ?Nat.add_1_r, <- ?app_assoc. reflexivity.
Qed.

Lemma discard_loop (queue : list (Event * EventHint)) (s : State) :
  hasConsent (self s) = false →
  foldl (λ s q, if hasConsent (self s) then resend q.1 q.2 s else s) s queue = s.
Proof. intros Hc. induction queue as [|q queue IH]; simpl; [done|]. by rewrite Hc. Qed.

(** The flush with consent: the queue as it was is re-sent; what Sentry
    hands back to the hook meanwhile is let through if the gate is decided
    and queued behind if it is not. *)
Lemma processQueuedEvents_granted (s : State) :
  hasConsent (self s) = true →
  processQueuedEvents s
  = mkState
      (set_eventQueue (if isConsentReady (self s) then [] else flush_back s) (self s))
      (set_eventLog
         (eventLog (env s)
          ++ replicate (length (flush_back s))
               (if isConsentReady (self s) then "Sentry event allowed"
                else "Sentry event queued"))
         (set_sentryCalls
            (sentryCalls (env s)
             ++ recaptured (hasCaptureEvent (env s)) (eventQueue (self s)))
            (env s))).
Proof.
  intros Hc. unfold processQueuedEvents. rewrite flush_loop by done.
  unfold flush_back. destruct s as [[? ready ? ? ? ? ? ? ? ?] []]. simpl. by destruct ready.
Qed.

(** The flush frames the state: it can only change the queue, the calls
    made to Sentry and the log. *)
Lemma processQueuedEvents_frame (s : State) :
  ∃ queue calls log,
    processQueuedEvents s
    = mkState (set_eventQueue queue (self s))
        (set_eventLog (eventLog (env s) ++ log)
           (set_sentryCalls (sentryCalls (env s) ++ calls) (env s))).
Proof.
  destruct (hasConsent (self s)) eqn:Hc.
  - rewrite processQueuedEvents_granted by done. by eexists _, _, _.
  - unfold processQueuedEvents. rewrite discard_loop by done.
    exists [], [], []. destruct s as [[] []]. simpl. by rewrite !app_nil_r.
Qed.

Lemma processQueuedEvents_queue (s : State) :
  isConsentReady (self s) = true → eventQueue (self (processQueuedEvents s)) = [].
Proof.
  intros Hr. destruct (hasConsent (self s)) eqn:Hc.
  - rewrite processQueuedEvents_granted by done. simpl. by rewrite Hr.
  - unfold processQueuedEvents. by rewrite discard_loop.
Qed.

(** The shape of the state after the reconciler has run: only the client's
    options and the calls made on the scope can differ. *)
Lemma applySentryConfiguration_frame (consentState : ConsentState) (s : State) :
  ∃ options calls,
    applySentryConfiguration consentState s
    = mkState (self s) (set_scopeCalls calls (set_client options (env s))).
Proof.
  unfold applySentryConfiguration.
  destruct s as [me e]. simpl. destruct (client e) as [o|] eqn:Ho.
  - destruct (cs_marketing consentState) as [m|].
    + unfold updateSentryScope. simpl. destruct (scope e); [destruct (negb m)|].
      * eexists _, _; unfold scope_calls, upd_env; simpl; reflexivity.
      * eexists _, _; unfold scope_calls, upd_env; simpl; reflexivity.
      * eexists _, (scopeCalls e). reflexivity.
    + eexists _, (scopeCalls e). reflexivity.
  - exists None, (scopeCalls e). destruct e. simpl in *. by subst.
Qed.

Lemma clearWarningAndErrorTimeouts_frame (s : State) :
  ∃ wid eid pending,
    clearWarningAndErrorTimeouts s
    = mkState (set_errorTimeoutId eid (set_warningTimeoutId wid (self s)))
              (set_timers pending (env s)).
Proof.
  destruct s as [[? ? ? ? ? ? wid eid ? ?] []].
  unfold clearWarningAndErrorTimeouts, clear_if_set.
  destruct wid as [[|w]|], eid as [[|e]|]; eexists _, _, _; compute_state; reflexivity.
Qed.

(** The reconciler changes the environment only. *)
Lemma applySentryConfiguration_exact (cs : ConsentState) (s : State) :
  applySentryConfiguration cs s
  = mkState (self s)
      (set_scopeCalls (scopeCalls (env (applySentryConfiguration cs s)))
         (set_client (client (env (applySentryConfiguration cs s))) (env s))).
Proof. by destruct (applySentryConfiguration_frame cs s) as (o & c & ->). Qed.

(** The reconciler reads the baseline and the environment only. *)
Lemma applySentryConfiguration_env (cs : ConsentState) (s t : State) :
  env t = env s →
  originalSentryConfig (self t) = originalSentryConfig (self s) →
  originalScopeData (self t) = originalScopeData (self s) →
  env (applySentryConfiguration cs t) = env (applySentryConfiguration cs s).
Proof.
  destruct s as [me e], t as [me' e']. simpl. intros -> Ho Hs.
  unfold applySentryConfiguration, updateSentryScope. simpl. rewrite Ho, Hs.
  destruct (client e); [|done]. destruct (cs_marketing cs) as [m|]; [|done].
  simpl. by destruct (scope e), (negb m).
Qed.

(** The state [checkConsent] builds, with the calls it makes and the
    records it logs. *)
Lemma checkConsent_exact getConsentStatus (g : Global) (s : State) :
  let snapshot := getConsentStatus (purposeMapping (self s)) g in
  let a := applySentryConfiguration (asConsentState snapshot) s in
  checkConsent getConsentStatus g s
  = clearWarningAndErrorTimeouts
      (mkState
         (mkSelf (purposeMapping (self s)) true (st_functional snapshot) []
            (Some consentChangeListenerFn) (asConsentState snapshot)
            (warningTimeoutId (self s)) (errorTimeoutId (self s))
            (originalSentryConfig (self s)) (originalScopeData (self s)))
         (mkEnv (client (env a)) (scope (env s)) (hasCaptureEvent (env s))
            (sentryPipeline (env s))
            (docListeners (env s) ++ [change_listener]) (timers (env s))
            (nextTimerId (env s))
            (sentryCalls (env s)
               ++ (if st_functional snapshot
                   then recaptured (hasCaptureEvent (env s)) (eventQueue (self s))
                   else []))
            (scopeCalls (env a))
            ((eventLog (env s)
                ++ [if st_functional snapshot then "Consent granted" else "Consent denied"])
             ++ (if st_functional snapshot
                 then replicate (length (flush_back s)) "Sentry event allowed"
                 else [])))).
Proof.
  intros snapshot a. unfold checkConsent. cbv zeta. unfold updateIntegrationConfigs.
  fold snapshot.
  match goal with
  | |- context [applySentryConfiguration ?cs ?t] =>
      rewrite (applySentryConfiguration_exact cs t);
      rewrite (applySentryConfiguration_env cs s t) by done
  end.
  fold a.
  destruct (st_functional snapshot) eqn:Hf.
  - rewrite processQueuedEvents_granted by done.
    unfold listenForConsentChanges, flush_back. normal_form. reflexivity.
  - unfold listenForConsentChanges. normal_form. by rewrite !app_nil_r.
Qed.

(** What one queued event is re-sent as. *)
Lemma recapture_content (capture_event : bool) (event : Event) (hint : EventHint) :
  match recapture capture_event event hint with
  | Some (captureException error) =>
      ∃ v, exception_values event ≫= head = Some v
           ∧ err_message error = str_or (exc_value v) "Queued error"
           ∧ err_stack error = join newline (frame_line <$> default [] (exc_frames v))
  | Some (captureMessage msg lvl) =>
      exception_values event ≫= head = None
      ∧ message event = Some msg ∧ msg ≠ "" ∧ lvl = level event
  | Some (captureEvent event' hint') =>
      exception_values event ≫= head = None ∧ str_truthy (message event) = false
      ∧ capture_event = true ∧ event' = event ∧ hint' = hint
  | None =>
      exception_values event ≫= head = None ∧ str_truthy (message event) = false
      ∧ capture_event = false
  end.
Proof.
  unfold recapture.
  destruct (exception_values event ≫= head) as [v|]; [by exists v|].
  destruct (str_truthy (message event)) eqn:Hm.
  - unfold str_truthy in Hm. destruct (message event) as [m|]; [|done].
    apply bool_decide_eq_true in Hm. unfold str_or. by rewrite decide_False.
  - by destruct capture_event.
Qed.

(** C2: at the first resolution the queue is emptied.  When the functional
    purpose resolves to [true] the queued events are re-sent in the order of
    the queue: an event with a first exception value as a new error that
    carries that value's message, or "Queued error", and its frames as the
    stack; failing that, an event with a non-empty message as that message
    with the event's level; any other event unchanged, with its hint,
    through [captureEvent] when Sentry exposes it, and not at all when it
    does not.  What Sentry hands back to the hook while the flush runs is
    let through, the gate being decided by then, and nothing is queued
    again.  When the purpose resolves to [false] nothing is sent.  The
    flush itself, whatever the gate: the batch is the queue as it was when
    the flush began, and what the hook queues meanwhile is queued behind,
    not re-sent, and still queued afterwards. *)
Theorem first_resolution_drains_queue getConsentStatus (g : Global) (s : State) :
  let snapshot := getConsentStatus (purposeMapping (self s)) g in
  let s' := checkConsent getConsentStatus g s in
  eventQueue (self s') = []
  ∧ (if st_functional snapshot then
       ∃ outcomes : list (option SentryCall),
         Forall2
           (λ q outcome,
              match outcome with
              | Some (captureException error) =>
                  ∃ v, exception_values q.1 ≫= head = Some v
                       ∧ err_message error = str_or (exc_value v) "Queued error"
                       ∧ err_stack error
                         = join newline (frame_line <$> default [] (exc_frames v))
              | Some (captureMessage msg lvl) =>
                  exception_values q.1 ≫= head = None
                  ∧ message q.1 = Some msg ∧ msg ≠ "" ∧ lvl = level q.1
              | Some (captureEvent event hint) =>
                  exception_values q.1 ≫= head = None
                  ∧ str_truthy (message q.1) = false
                  ∧ hasCaptureEvent (env s) = true ∧ event = q.1 ∧ hint = q.2
              | None =>
                  exception_values q.1 ≫= head = None
                  ∧ str_truthy (message q.1) = false
                  ∧ hasCaptureEvent (env s) = false
              end)
           (eventQueue (self s)) outcomes
         ∧ sentryCalls (env s') = sentryCalls (env s) ++ omap id outcomes
         ∧ eventLog (env s')
           = (eventLog (env s) ++ ["Consent granted"])
             ++ replicate (length (flush_back s)) "Sentry event allowed"
     else
       sentryCalls (env s') = sentryCalls (env s)
       ∧ eventLog (env s') = eventLog (env s) ++ ["Consent denied"])
  ∧ (∀ t, hasConsent (self t) = true →
          sentryCalls (env (processQueuedEvents t))
          = sentryCalls (env t)
            ++ recaptured (hasCaptureEvent (env t)) (eventQueue (self t))
          ∧ eventQueue (self (processQueuedEvents t))
            = if isConsentReady (self t) then [] else flush_back t).
Proof.
  intros snapshot s'. subst s'. rewrite checkConsent_exact. fold snapshot.
  match goal with
  | |- context [clearWarningAndErrorTimeouts ?t] =>
      destruct (clearWarningAndErrorTimeouts_frame t) as (w & e & p & ->)
  end.
  normal_form. split; [done|]. split.
  - destruct (st_functional snapshot); [|by rewrite !app_nil_r].
    exists ((λ q, recapture (hasCaptureEvent (env s)) q.1 q.2) <$> eventQueue (self s)).
    split; [|split; [|done]].
    + induction (eventQueue (self s)) as [|[event hint] queue IH]; [constructor|].
      rewrite fmap_cons. constructor; [|exact IH]. cbn [fst snd].
      apply recapture_content.
    + f_equal. unfold recaptured.
      induction (eventQueue (self s)) as [|q queue IH]; [done|].
      csimpl. rewrite IH. by destruct (recapture _ _ _).
  - intros t Hc. rewrite processQueuedEvents_granted by done. by normal_form.
Qed.

(** Three events of three kinds are queued and the functional purpose is
    granted, in a page whose Sentry has no [captureEvent]: the event that is
    neither an error nor a message is not re-sent. *)
Lemma plain_event_dropped_without_captureEvent :
  let s := run getZarazConsentState
             (start getZarazConsentState sample_mapping
                (fresh_env (Some sample_options) None false sample_pipeline)
                window_without_zaraz)
             three_captures in
  let s' := checkConsent getZarazConsentState granting_window s in
  st_functional (getZarazConsentState (purposeMapping (self s)) granting_window) = true
  ∧ eventQueue (self s)
    = [(error_event, no_hint); (message_event, no_hint); (plain_event, no_hint)]
  ∧ sentryCalls (env s')
    = [captureException (mkError "boom" ("app.js:10" +:+ newline +:+ "unknown:0"));
       captureMessage "hello" (Some "info")]
  ∧ eventQueue (self s') = [].
Proof. by vm_compute. Qed.

(** ** Life cycle of an instance *)

Lemma count_records_snoc (kind : string → bool) (log : list string) (name : string) :
  count_records kind (log ++ [name])
  = count_records kind log + (if kind name then 1 else 0).
Proof.
  unfold count_records. rewrite filter_app, length_app. f_equal.
  rewrite filter_cons, filter_nil. destruct (kind name); by case_decide.
Qed.

(** The records of a hook that lets an event through are none of the
    records counted below. *)
Lemma count_records_allowed (kind : string → bool) (log : list string) (k : nat) :
  kind "Sentry event allowed" = false →
  count_records kind (log ++ replicate k "Sentry event allowed") = count_records kind log.
Proof.
  intros Hk. unfold count_records. rewrite filter_app, length_app.
  replace (filter (λ n, kind n = true) (replicate k "Sentry event allowed")) with (@nil string);
    [by rewrite Nat.add_0_r|].
  induction k as [|k IH]; [done|]. simpl. rewrite filter_cons, <- IH.
  by rewrite decide_False by (by rewrite Hk).
Qed.

(** The state [checkConsent] builds, up to the final clearing of the timers. *)
Lemma checkConsent_shape getConsentStatus (g : Global) (s : State) :
  let snapshot := getConsentStatus (purposeMapping (self s)) g in
  ∃ options calls scalls allowed,
    checkConsent getConsentStatus g s
    = clearWarningAndErrorTimeouts
        (mkState
           (mkSelf (purposeMapping (self s)) true (st_functional snapshot) []
              (Some consentChangeListenerFn) (asConsentState snapshot)
              (warningTimeoutId (self s)) (errorTimeoutId (self s))
              (originalSentryConfig (self s)) (originalScopeData (self s)))
           (mkEnv options (scope (env s)) (hasCaptureEvent (env s)) (sentryPipeline (env s))
              (docListeners (env s) ++ [change_listener]) (timers (env s))
              (nextTimerId (env s)) (sentryCalls (env s) ++ calls) scalls
              ((eventLog (env s)
                  ++ [if st_functional snapshot then "Consent granted" else "Consent denied"])
               ++ replicate allowed "Sentry event allowed"))).
Proof.
  intros snapshot. unfold checkConsent. cbv zeta. unfold updateIntegrationConfigs.
  fold snapshot.
  match goal with
  | |- context [applySentryConfiguration ?cs ?t] =>
      destruct (applySentryConfiguration_frame cs t) as (o & c & ->)
  end.
  destruct (st_functional snapshot) eqn:Hf.
  - rewrite processQueuedEvents_granted by done.
    eexists o, _, c, _. unfold listenForConsentChanges. normal_form. reflexivity.
  - exists o, [], c, 0. unfold listenForConsentChanges. normal_form.
    by rewrite !app_nil_r.
Qed.

(** Clearing the timeouts when the armed timers are the instance's own. *)
Lemma clear_armed (s : State) (warning_armed error_armed warning_kept error_kept : bool) :
  timers (env s) = when warning_armed warning_timer ++ when error_armed error_timer →
  warningTimeoutId (self s) = id_if warning_kept 1 →
  errorTimeoutId (self s) = id_if error_kept 2 →
  (warning_armed = true → warning_kept = true) →
  (error_armed = true → error_kept = true) →
  clearWarningAndErrorTimeouts s
  = mkState (set_errorTimeoutId None (set_warningTimeoutId None (self s)))
            (set_timers [] (env s)).
Proof.
  destruct s as [[? ? ? ? ? ? wid eid ? ?] [? ? ? ? ? pending ? ? ? ?]]. simpl.
  intros -> -> -> Hw He.
  unfold clearWarningAndErrorTimeouts, clear_if_set.
  destruct warning_armed, error_armed, warning_kept, error_kept;
    try (by discriminate Hw); try (by discriminate He);
    try (specialize (Hw eq_refl)); try (specialize (He eq_refl));
    try discriminate; normal_form; reflexivity.
Qed.

(** Clearing leaves an empty timer list empty, and touches only the ids. *)
Lemma clear_none (s : State) :
  timers (env s) = [] →
  ∃ wid eid,
    clearWarningAndErrorTimeouts s
    = mkState (set_errorTimeoutId eid (set_warningTimeoutId wid (self s))) (env s).
Proof.
  destruct s as [[? ? ? ? ? ? wid eid ? ?] [? ? ? ? ? pending ? ? ? ?]]. simpl.
  intros ->. unfold clearWarningAndErrorTimeouts, clear_if_set.
  destruct wid as [[|w]|], eid as [[|e]|]; eexists _, _; compute_state; reflexivity.
Qed.

(** What a first resolution establishes when it starts from a state in
    which none has run yet. *)
Lemma checkConsent_resolves getConsentStatus (g : Global) (s : State)
    (warning_armed error_armed warning_kept error_kept : bool) :
  timers (env s) = when warning_armed warning_timer ++ when error_armed error_timer →
  warningTimeoutId (self s) = id_if warning_kept 1 →
  errorTimeoutId (self s) = id_if error_kept 2 →
  (warning_armed = true → warning_kept = true) →
  (error_armed = true → error_kept = true) →
  let s' := checkConsent getConsentStatus g s in
  resolutions s' = S (resolutions s)
  ∧ timer_runs s' = timer_runs s
  ∧ fallback_runs s' = fallback_runs s
  ∧ timers (env s') = []
  ∧ isConsentReady (self s') = true
  ∧ hasConsent (self s') = st_functional (getConsentStatus (purposeMapping (self s)) g)
  ∧ eventQueue (self s') = []
  ∧ cs_functional (currentConsentState (self s')) = Some (hasConsent (self s'))
  ∧ consentChangeListener (self s') = Some consentChangeListenerFn
  ∧ warningTimeoutId (self s') = None
  ∧ errorTimeoutId (self s') = None
  ∧ docListeners (env s') = docListeners (env s) ++ [change_listener].
Proof.
  intros Ht Hw He Hwa Hea s'. subst s'.
  destruct (checkConsent_shape getConsentStatus g s) as (o & c & sc & k & ->).
  erewrite clear_armed; [|exact Ht|exact Hw|exact He|exact Hwa|exact Hea].
  unfold resolutions, timer_runs, fallback_runs. normal_form.
  rewrite !count_records_allowed by (vm_compute; reflexivity).
  rewrite !count_records_snoc.
  destruct (st_functional (getConsentStatus (purposeMapping (self s)) g)) eqn:Hf;
    repeat split; simpl; rewrite ?Hf; try done; lia.
Qed.

Lemma setup_captures (s : State) :
  let s' := captureOriginalScopeData (captureOriginalSentryConfig s) in
  env s' = env s
  ∧ isConsentReady (self s') = isConsentReady (self s)
  ∧ hasConsent (self s') = hasConsent (self s)
  ∧ eventQueue (self s') = eventQueue (self s)
  ∧ warningTimeoutId (self s') = warningTimeoutId (self s)
  ∧ errorTimeoutId (self s') = errorTimeoutId (self s)
  ∧ consentChangeListener (self s') = consentChangeListener (self s)
  ∧ purposeMapping (self s') = purposeMapping (self s).
Proof.
  unfold captureOriginalScopeData, captureOriginalSentryConfig.
  destruct (client (env s)); simpl; destruct (scope (env s)); simpl; done.
Qed.

(** Setup leaves the instance in one of the two phases. *)
Lemma start_lifecycle getConsentStatus (mapping : PurposeMapping)
    (options : option JSObject) (sc : option ScopeData) (capture_event : bool)
    (pipeline : Pipeline)
    (g : Global) :
  lifecycle (start getConsentStatus mapping (fresh_env options sc capture_event pipeline) g).
Proof.
  unfold start, setupOnce, initializeConsentMonitoring.
  set (s0 := mkState (new mapping) (fresh_env options sc capture_event pipeline)).
  destruct (setup_captures s0) as (He & Hr & Hc & Hq & Hw & Hx & Hl & Hm).
  set (s1 := captureOriginalScopeData (captureOriginalSentryConfig s0)) in *.
  destruct (api_ready g).
  - right.
    destruct (checkConsent_resolves getConsentStatus g s1 false false false false)
      as (R1 & R2 & R3 & R4 & R5 & R6 & R7 & R8 & R9 & R10 & R11 & R12);
      try done; try (by rewrite He); try (by rewrite ?Hw, ?Hx).
    split; try done.
    + rewrite R1. unfold resolutions. by rewrite He.
    + left. rewrite R12. by rewrite He.
  - left. unfold setTimeout. normal_form. split; normal_form.
    + unfold resolutions. normal_form. by rewrite He.
    + by rewrite He.
    + exists true, true, true, true. rewrite He, Hr. by repeat split.
    + by rewrite Hr.
    + intros _. unfold fallback_runs. normal_form. by rewrite He.
    + by rewrite He.
Qed.

Ltac classify kind :=
  repeat match goal with
    | |- context [kind ?name] =>
        let b := eval vm_compute in (kind name) in
        progress change (kind name) with b
    end.

Ltac count_log :=
  unfold resolutions, timer_runs, fallback_runs in *; normal_form;
  rewrite ?count_records_allowed by (vm_compute; reflexivity);
  rewrite ?count_records_snoc;
  classify is_resolution_record; classify is_timer_record; classify is_fallback_record;
  cbv iota; rewrite ?Nat.add_0_r.

Ltac waiting_after wa ea wk ek Ht Hfb :=
  split; [split|split; [|split]];
  [ count_log; try done; lia
  | normal_form; auto; done
  | exists wa, ea, wk, ek; normal_form; rewrite ?Ht; repeat split; auto; done
  | let Hr := fresh "Hr" in
    normal_form; intros Hr; try (destruct (Hfb Hr) as (? & ? & ?));
    repeat split; try done; count_log; lia
  | count_log; intros; try done; auto
  | normal_form; done
  | normal_form; auto
  | count_log; intros; try done; lia
  | cbn [fst snd]; intros; done ].

(** One trigger in the waiting phase: the instance keeps waiting, and a
    decided gate stays decided; or the trigger is the ready notification in
    a page whose consent API is ready, and the first resolution has run. *)
Lemma step_waiting getConsentStatus (s : State) (i : Global * Trigger) :
  waiting s →
  (waiting (step getConsentStatus s i)
   ∧ (isConsentReady (self s) = true → isConsentReady (self (step getConsentStatus s i)) = true)
   ∧ (isConsentReady (self s) = false → fallback_runs (step getConsentStatus s i) = 0
      → isConsentReady (self (step getConsentStatus s i)) = false)
   ∧ (i.2 = Dispatch zarazConsentAPIReady → api_ready i.1 = false))
  ∨ (resolved (step getConsentStatus s i)
     ∧ i.2 = Dispatch zarazConsentAPIReady ∧ api_ready i.1 = true
     ∧ timer_runs (step getConsentStatus s i) = timer_runs s
     ∧ fallback_runs (step getConsentStatus s i) = fallback_runs s).
Proof.
  intros Hwait.
  destruct (Hwait)
    as [Hres Hls (wa & ea & wk & ek & Ht & Hw & He & Hwa & Hea & Hre) Hfb Hund Hsent].
  destruct i as [g [event hint|ev|id|]]; unfold step; cbn [fst snd].
  - (* Capture *)
    left. unfold processEvent.
    destruct (isConsentReady (self s)) eqn:Hr.
    + destruct (Hfb eq_refl) as (Hc & Hq & Hf). rewrite Hc. cbn [andb negb snd].
      split; [|by repeat split; normal_form].
      split; normal_form; try done.
      * by count_log.
      * exists wa, ea, wk, ek. repeat split; auto.
      * intros _. repeat split; try done. count_log. lia.
      * congruence.
    + cbn [andb negb snd]. split; [|by repeat split; normal_form].
      split; normal_form; try done.
      * by count_log.
      * exists wa, ea, wk, ek. repeat split; try done. congruence.
      * congruence.
      * intros _. count_log. auto.
  - (* Dispatch *)
    unfold dispatch. rewrite Hls. destruct ev.
    + (* the ready notification *)
      simpl. unfold zarazLoaded. destruct (api_ready g) eqn:Hg.
      * right.
        destruct (checkConsent_resolves getConsentStatus g s wa ea wk ek)
          as (R1 & R2 & R3 & R4 & R5 & R6 & R7 & R8 & R9 & R10 & R11 & R12); try done.
        set (s1 := checkConsent getConsentStatus g s) in *.
        assert (timers (env (removeEventListener zarazConsentAPIReady handleZarazLoaded s1))
                = []) as Ht2 by (by normal_form).
        destruct (clear_none _ Ht2) as (w' & e' & ->).
        split; [split|]; unfold resolutions, timer_runs, fallback_runs in *;
          normal_form; try done.
        -- by rewrite R1, Hres.
        -- left. rewrite R12, Hls. reflexivity.
      * left. split; [exact Hwait|]. repeat split; auto.
    + (* a change notification: no listener for it yet *)
      simpl. left. split; [exact Hwait|]. repeat split; auto; intros; discriminate.
  - (* TimerFires *)
    left. unfold fire_timer. rewrite Ht.
    destruct wa, ea; simpl; destruct id as [|[|[|id]]]; simpl;
      try (split; [exact Hwait | by repeat split; auto; intros; discriminate]).
    all: first [ waiting_after false true wk ek Ht Hfb
               | waiting_after false false wk ek Ht Hfb
               | waiting_after true false wk ek Ht Hfb ].
  - (* Cleanup *)
    left. unfold cleanup.
    rewrite (clear_armed s wa ea wk ek) by done.
    assert (∀ l, remove_first (zarazConsentChoicesUpdated, l) (docListeners (env s))
                 = [ready_listener]) as Hrm by (intros l; rewrite Hls; by destruct l).
    normal_form.
    destruct (consentChangeListener (self s)) as [l|];
      normal_form; rewrite ?Hrm;
      waiting_after false false false false Ht Hfb.
Qed.

(** The change listener either leaves the state as it is or rebuilds the
    gate and the cached snapshot from the new snapshot; a flush can change
    the queue, the calls made to Sentry and the log. *)
Lemma consentChanged_frame getConsentStatus (g : Global) (s : State) :
  let snapshot := getConsentStatus (purposeMapping (self s)) g in
  consentChanged getConsentStatus g s = s
  ∨ ∃ options calls scalls queue log,
      consentChanged getConsentStatus g s
      = mkState
          (mkSelf (purposeMapping (self s)) (isConsentReady (self s))
             (st_functional snapshot) queue
             (consentChangeListener (self s)) (asConsentState snapshot)
             (warningTimeoutId (self s)) (errorTimeoutId (self s))
             (originalSentryConfig (self s)) (originalScopeData (self s)))
          (mkEnv options (scope (env s)) (hasCaptureEvent (env s)) (sentryPipeline (env s))
             (docListeners (env s)) (timers (env s)) (nextTimerId (env s))
             (sentryCalls (env s) ++ calls) scalls
             ((eventLog (env s) ++ ["Consent status changed"]) ++ log))
      ∧ (isConsentReady (self s) = true →
         queue = (if st_functional snapshot then [] else eventQueue (self s))
         ∧ ∃ allowed, log = replicate allowed "Sentry event allowed").
Proof.
  intros snapshot. unfold consentChanged. cbv zeta. fold snapshot.
  match goal with |- context [if ?c then _ else _] => destruct c end; [right|by left].
  unfold updateIntegrationConfigs.
  match goal with
  | |- context [applySentryConfiguration ?cs ?t] =>
      destruct (applySentryConfiguration_frame cs t) as (o & c & ->)
  end.
  destruct (st_functional snapshot) eqn:Hf.
  - rewrite processQueuedEvents_granted by done.
    eexists o, _, c, _, _. normal_form. split; [reflexivity|].
    intros ->. split; [done|]. by eexists.
  - exists o, [], c, (eventQueue (self s)), []. normal_form. rewrite !app_nil_r.
    split; [done|]. intros _. split; [done|]. by exists 0.
Qed.

(** The change listener once the gate is decided. *)
Lemma consentChanged_shape getConsentStatus (g : Global) (s : State) :
  isConsentReady (self s) = true →
  let snapshot := getConsentStatus (purposeMapping (self s)) g in
  consentChanged getConsentStatus g s = s
  ∨ ∃ options calls scalls allowed,
      consentChanged getConsentStatus g s
      = mkState
          (mkSelf (purposeMapping (self s)) (isConsentReady (self s))
             (st_functional snapshot)
             (if st_functional snapshot then [] else eventQueue (self s))
             (consentChangeListener (self s)) (asConsentState snapshot)
             (warningTimeoutId (self s)) (errorTimeoutId (self s))
             (originalSentryConfig (self s)) (originalScopeData (self s)))
          (mkEnv options (scope (env s)) (hasCaptureEvent (env s)) (sentryPipeline (env s))
             (docListeners (env s)) (timers (env s)) (nextTimerId (env s))
             (sentryCalls (env s) ++ calls) scalls
             ((eventLog (env s) ++ ["Consent status changed"])
              ++ replicate allowed "Sentry event allowed")).
Proof.
  intros Hr snapshot.
  destruct (consentChanged_frame getConsentStatus g s)
    as [->|(o & c & sc & q & l & -> & Hq)]; [by left|right].
  destruct (Hq Hr) as (-> & k & ->). by exists o, c, sc, k.
Qed.

(** One trigger after the first resolution: the instance stays resolved, no
    timer body runs, and only a change notification can move the gate. *)
Lemma step_resolved getConsentStatus (s : State) (i : Global * Trigger) :
  resolved s →
  resolved (step getConsentStatus s i)
  ∧ timer_runs (step getConsentStatus s i) = timer_runs s
  ∧ fallback_runs (step getConsentStatus s i) = fallback_runs s
  ∧ (i.2 ≠ Dispatch zarazConsentChoicesUpdated →
     hasConsent (self (step getConsentStatus s i)) = hasConsent (self s)).
Proof.
  intros Hres.
  destruct (Hres) as [Hn Ht Hr Hq Hsync Hls].
  destruct i as [g [event hint|ev|id|]]; unfold step; cbn [fst snd].
  - (* Capture *)
    unfold processEvent. rewrite Hr.
    destruct (hasConsent (self s)) eqn:Hc; cbn [andb negb snd];
      (split; [split|]); count_log; rewrite ?Hc; repeat split; auto.
  - (* Dispatch *)
    unfold dispatch.
    destruct Hls as [Hls|Hls]; rewrite Hls; [|by simpl].
    destruct ev; [by simpl|]. simpl.
    destruct (consentChanged_shape getConsentStatus g s Hr) as [->|(o & c & sc & k & ->)];
      [done|].
    (split; [split|]); count_log; repeat split; auto; try done.
    by destruct (st_functional (getConsentStatus (purposeMapping (self s)) g)).
  - (* TimerFires *)
    unfold fire_timer. rewrite Ht. by simpl.
  - (* Cleanup *)
    unfold cleanup.
    destruct (clear_none s Ht) as (w & e & ->). normal_form.
    assert (∀ l, remove_first (zarazConsentChoicesUpdated, l) (docListeners (env s))
                 = [change_listener]
                 ∨ remove_first (zarazConsentChoicesUpdated, l) (docListeners (env s)) = [])
      as Hrm.
    { intros l. destruct Hls as [-> | ->]; [destruct l|]; simpl; auto. }
    destruct (consentChangeListener (self s)) as [l|];
      (split; [split|]); count_log; repeat split; auto.
Qed.

Lemma step_lifecycle getConsentStatus (s : State) (i : Global * Trigger) :
  lifecycle s → lifecycle (step getConsentStatus s i).
Proof.
  intros [Hw|Hr].
  - destruct (step_waiting getConsentStatus s i Hw) as [(? & _)|(? & _)];
      [by left|by right].
  - right. by apply step_resolved.
Qed.

Lemma run_lifecycle getConsentStatus (s : State) (inputs : list (Global * Trigger)) :
  lifecycle s → lifecycle (run getConsentStatus s inputs).
Proof.
  revert s. induction inputs as [|i inputs IH]; intros s Hs; [done|].
  rewrite run_cons. apply IH. by apply step_lifecycle.
Qed.

Lemma reachable_lifecycle getConsentStatus (mapping : PurposeMapping)
    (options : option JSObject) (sc : option ScopeData) (capture_event : bool)
    (pipeline : Pipeline)
    (g : Global) (inputs : list (Global * Trigger)) :
  lifecycle (run getConsentStatus
               (start getConsentStatus mapping (fresh_env options sc capture_event pipeline) g)
               inputs).
Proof. apply run_lifecycle, start_lifecycle. Qed.

(** ** Change listener *)

Lemma snapshot_equal_eq (a b : ConsentState) : snapshot_equal a b → a = b.
Proof.
  intros H. destruct a, b.
  pose proof (H Functional). pose proof (H Analytics).
  pose proof (H Marketing). pose proof (H Preferences).
  simpl in *. congruence.
Qed.

(** C7: when the snapshot recomputed on a change notification equals the
    cached one key by key, the notification changes nothing: the gate, the
    cached snapshot, the client's options, the queue, the calls made to
    Sentry and the log are all as before. *)
Theorem unchanged_snapshot_is_noop getConsentStatus (mapping : PurposeMapping)
    (options : option JSObject) (sc : option ScopeData) (capture_event : bool)
    (pipeline : Pipeline)
    (g0 : Global) (inputs : list (Global * Trigger)) (g : Global) :
  let s := run getConsentStatus
             (start getConsentStatus mapping (fresh_env options sc capture_event pipeline) g0)
             inputs in
  snapshot_equal (asConsentState (getConsentStatus (purposeMapping (self s)) g))
                 (currentConsentState (self s)) →
  step getConsentStatus s (g, Dispatch zarazConsentChoicesUpdated) = s.
Proof.
  intros s Heq. apply snapshot_equal_eq in Heq.
  destruct (reachable_lifecycle getConsentStatus mapping options sc capture_event pipeline g0 inputs)
    as [Hw|Hr]; fold s in Hw || fold s in Hr; unfold step, dispatch; cbn [fst snd].
  - by rewrite (w_listeners _ Hw).
  - destruct (r_listeners _ Hr) as [-> | ->]; [|done]. simpl.
    unfold consentChanged. rewrite Heq.
    pose proof (r_synced _ Hr) as Hsync. rewrite <- Heq in Hsync. simpl in Hsync.
    injection Hsync as ->.
    rewrite !bool_decide_eq_false_2; [done|by intros []|by intros []].
Qed.

Lemma unchanged_snapshot_is_noop_witness :
  step getZarazConsentState resolved_state
    (granting_window, Dispatch zarazConsentChoicesUpdated) = resolved_state.
Proof.
  apply (unchanged_snapshot_is_noop getZarazConsentState sample_mapping
           (Some sample_options) None true sample_pipeline granting_window [] granting_window).
  intros p. by destruct p.
Defined.

(** On the snapshots the resolver builds, comparing the [JSON.stringify]
    texts is comparing the snapshots. *)
Lemma JSON_stringify_status_inj (a b : ConsentStatus) :
  JSON_stringify (asConsentState a) = JSON_stringify (asConsentState b) → a = b.
Proof.
  destruct a as [[] [] [] []], b as [[] [] [] []]; intros H;
    first [reflexivity | by vm_compute in H].
Qed.

(** A notification whose snapshot differs from the cached one is acted on:
    the cached snapshot and the gate follow the new snapshot. *)
Lemma changed_snapshot_is_applied getConsentStatus (g : Global) (s : State)
    (cached : ConsentStatus) :
  currentConsentState (self s) = asConsentState cached →
  getConsentStatus (purposeMapping (self s)) g ≠ cached →
  let s' := consentChanged getConsentStatus g s in
  currentConsentState (self s')
  = asConsentState (getConsentStatus (purposeMapping (self s)) g)
  ∧ hasConsent (self s') = st_functional (getConsentStatus (purposeMapping (self s)) g).
Proof.
  intros Hc Hne s'. subst s'.
  destruct (consentChanged_frame getConsentStatus g s)
    as [Hsame|(o & c & sc & q & l & -> & _)]; [|done].
  exfalso. unfold consentChanged in Hsame.
  rewrite Hc in Hsame.
  rewrite (bool_decide_eq_true_2
             (JSON_stringify (asConsentState (getConsentStatus (purposeMapping (self s)) g))
              ≠ JSON_stringify (asConsentState cached))) in Hsame
    by (intros E; by apply JSON_stringify_status_inj in E).
  rewrite orb_true_r in Hsame.
  apply (f_equal (λ t, length (eventLog (env t)))) in Hsame. revert Hsame.
  match goal with
  | |- context [applySentryConfiguration ?cs ?t] =>
      destruct (applySentryConfiguration_frame cs t) as (o & c & ->)
  end.
  unfold updateIntegrationConfigs.
  destruct (st_functional (getConsentStatus (purposeMapping (self s)) g)) eqn:Hf.
  - rewrite processQueuedEvents_granted by done. normal_form.
    rewrite !length_app. simpl. lia.
  - normal_form. rewrite length_app. simpl. lia.
Qed.

(** ** Gating state machine *)

Lemma gating_not_ready (s : State) : gating s = NOT_READY ↔ isConsentReady (self s) = false.
Proof. unfold gating. destruct (isConsentReady (self s)), (hasConsent (self s)); naive_solver. Qed.

Lemma waiting_decided (s : State) :
  waiting s → isConsentReady (self s) = true →
  gating s = READY_DENIED ∧ eventQueue (self s) = [] ∧ 0 < fallback_runs s.
Proof.
  intros Hw Hr. destruct (w_fallback _ Hw Hr) as (Hc & Hq & Hf).
  unfold gating. by rewrite Hr, Hc.
Qed.

Lemma resolved_decided (s : State) : resolved s → gating s ≠ NOT_READY.
Proof. intros Hr. rewrite gating_not_ready, (r_ready _ Hr). done. Qed.

(** C4, as the code has it: the first resolution runs at most once.  From
    [NOT_READY] a trigger either leaves the gate undecided, or runs the
    first resolution, or is the fallback and forces [READY_DENIED].  A
    decided gate is never undecided again, and it moves only on a change
    notification, or on the ready notification that runs the first
    resolution after the fallback had already decided the gate. *)
Theorem gating_transitions getConsentStatus (mapping : PurposeMapping)
    (options : option JSObject) (sc : option ScopeData) (capture_event : bool)
    (pipeline : Pipeline)
    (g0 : Global) (inputs : list (Global * Trigger)) (i : Global * Trigger) :
  let s := run getConsentStatus
             (start getConsentStatus mapping (fresh_env options sc capture_event pipeline) g0)
             inputs in
  let s' := step getConsentStatus s i in
  (resolutions s' ≤ 1)%nat
  ∧ match gating s with
    | NOT_READY =>
        gating s' = NOT_READY
        ∨ (resolutions s = 0 ∧ resolutions s' = 1 ∧ gating s' ≠ NOT_READY)
        ∨ (fallback_runs s = 0 ∧ 0 < fallback_runs s' ∧ gating s' = READY_DENIED)
    | _ =>
        gating s' ≠ NOT_READY
        ∧ (gating s' = gating s
           ∨ i.2 = Dispatch zarazConsentChoicesUpdated
           ∨ (i.2 = Dispatch zarazConsentAPIReady ∧ 0 < fallback_runs s
              ∧ resolutions s = 0 ∧ resolutions s' = 1))
    end.
Proof.
  intros s s'.
  pose proof (reachable_lifecycle getConsentStatus mapping options sc capture_event pipeline
                g0 inputs) as Hs. fold s in Hs. clearbody s. subst s'.
  set (s' := step getConsentStatus s i).
  pose proof (step_lifecycle getConsentStatus s i Hs) as Hs'. fold s' in Hs'.
  split.
  { destruct Hs' as [Hw|Hr]; [rewrite (w_resolutions _ Hw)|rewrite (r_resolutions _ Hr)]; lia. }
  destruct Hs as [Hw|Hr].
  - (* waiting *)
    destruct (step_waiting getConsentStatus s i Hw)
      as [(Hw' & Hkeep & Hstay)|(Hr' & Hi & Hapi & _ & _)];
      fold s' in Hw' || fold s' in Hr'.
    + destruct (isConsentReady (self s)) eqn:Hready.
      * destruct (waiting_decided s Hw Hready) as (Hg & _ & _).
        destruct (waiting_decided s' Hw' (Hkeep eq_refl)) as (Hg' & _ & _).
        rewrite Hg. split; [by rewrite Hg'|]. left. by rewrite Hg'.
      * apply gating_not_ready in Hready as Hg. rewrite Hg.
        destruct (isConsentReady (self s')) eqn:Hready'.
        -- right. right. destruct (waiting_decided s' Hw' Hready') as (Hg' & _ & Hf).
           repeat split; try done. by apply (w_undecided _ Hw).
        -- left. by apply gating_not_ready.
    + pose proof (w_resolutions _ Hw) as Hn. pose proof (r_resolutions _ Hr') as Hn'.
      pose proof (resolved_decided s' Hr') as Hd.
      destruct (gating s) eqn:Hg.
      * right. left. done.
      * split; [done|]. right. right. repeat split; try done.
        apply waiting_decided; [done|]. destruct (isConsentReady (self s)) eqn:E; [done|].
        apply gating_not_ready in E. congruence.
      * split; [done|]. right. right. repeat split; try done.
        apply waiting_decided; [done|]. destruct (isConsentReady (self s)) eqn:E; [done|].
        apply gating_not_ready in E. congruence.
  - (* resolved *)
    destruct (step_resolved getConsentStatus s i Hr) as (Hr' & _ & _ & Hsame).
    fold s' in Hr', Hsame.
    pose proof (resolved_decided s Hr) as Hd. pose proof (resolved_decided s' Hr') as Hd'.
    assert (gating s' = gating s ∨ i.2 = Dispatch zarazConsentChoicesUpdated) as Hmove.
    { assert (i.2 = Dispatch zarazConsentChoicesUpdated
              ∨ i.2 ≠ Dispatch zarazConsentChoicesUpdated) as [|Hne].
      { destruct i as [g [e h|[]|id|]]; simpl; auto. }
      - by right.
      - left. unfold gating. by rewrite (r_ready _ Hr), (r_ready _ Hr'), (Hsame Hne). }
    destruct (gating s) eqn:Hg; [done| |]; (split; [done|]);
      destruct Hmove as [Hmove|Hmove]; auto.
Qed.

Example flush_in_arrival_order :
  sentryCalls (env (checkConsent getZarazConsentState granting_window queued_state))
  = [captureException (mkError "boom" ("app.js:10" +:+ newline +:+ "unknown:0"));
     captureMessage "hello" (Some "info");
     captureEvent plain_event no_hint]
  ∧ sentryCalls
      (env (checkConsent getZarazConsentState (window_with [("F", false)]) queued_state))
    = [].
Proof. by vm_compute. Qed.

(** The fallback has forced [READY_DENIED], no first resolution has run and
    no change listener is registered; the ready notification that arrives
    afterwards runs the first resolution all the same: the gate moves to
    [READY_GRANTED] on a trigger that is not a change notification, and the
    change listener is registered. *)
Lemma late_resolution_after_fallback :
  let s := fallen_back_state in
  let s' := step getZarazConsentState s (granting_window, Dispatch zarazConsentAPIReady) in
  gating s = READY_DENIED
  ∧ resolutions s = 0
  ∧ docListeners (env s) = [ready_listener]
  ∧ gating s' = READY_GRANTED
  ∧ resolutions s' = 1
  ∧ consentChangeListener (self s') = Some consentChangeListenerFn
  ∧ docListeners (env s') = [change_listener].
Proof. vm_compute. done. Qed.

(** ** Readiness waiter *)

Lemma start_not_ready getConsentStatus (mapping : PurposeMapping)
    (options : option JSObject) (sc : option ScopeData) (capture_event : bool)
    (pipeline : Pipeline)
    (g : Global) :
  api_ready g = false →
  fallback_armed_or_fired
    (start getConsentStatus mapping (fresh_env options sc capture_event pipeline) g).
Proof.
  intros Hg.
  pose proof (start_lifecycle getConsentStatus mapping options sc capture_event pipeline g) as Hs.
  revert Hs. unfold start, setupOnce, initializeConsentMonitoring. rewrite Hg.
  set (s0 := mkState (new mapping) (fresh_env options sc capture_event pipeline)).
  destruct (setup_captures s0) as (He & Hr & Hc & Hq & Hw & Hx & Hl & Hm).
  set (s1 := captureOriginalScopeData (captureOriginalSentryConfig s0)) in *.
  unfold setTimeout. normal_form. intros [Hwait|Hres].
  - split; [done|]. normal_form. rewrite He. simpl. split; [done|].
    left. apply list_elem_of_In. simpl. auto.
  - exfalso. pose proof (r_timers _ Hres) as Ht. normal_form.
    rewrite He in Ht. discriminate Ht.
Qed.

Lemma step_not_ready getConsentStatus (s : State) (i : Global * Trigger) :
  source_not_ready i →
  fallback_armed_or_fired s →
  fallback_armed_or_fired (step getConsentStatus s i).
Proof.
  intros [Hg Hnc] (Hw & He & Harmed).
  destruct (step_waiting getConsentStatus s i Hw)
    as [(Hw' & Hkeep & _)|(_ & _ & Hg' & _)]; [|congruence].
  split; [done|].
  destruct (Hw) as [_ Hls (wa & ea & wk & ek & Ht & _ & _ & _ & _ & Hre) _ _ _].
  destruct i as [g [event hint|ev|id|]]; unfold step in *; cbn [fst snd] in *.
  - (* Capture *)
    unfold processEvent.
    destruct (isConsentReady (self s) && hasConsent (self s)) eqn:E1;
      [|destruct (isConsentReady (self s) && negb (hasConsent (self s))) eqn:E2];
      normal_form; split; auto.
  - (* Dispatch *)
    unfold dispatch. rewrite Hls.
    destruct ev; simpl; [unfold zarazLoaded; rewrite Hg|]; auto.
  - (* TimerFires *)
    unfold fire_timer. rewrite Ht in *.
    destruct Harmed as [Hin|Hr].
    + destruct ea; [|by destruct wa; inversion Hin as [|? ? ? Hin']; inversion Hin'].
      destruct wa, id as [|[|[|id]]]; simpl; normal_form; rewrite ?Ht; simpl;
        (split; [done|]); first [by right | left; repeat constructor].
    + rewrite (Hre Hr).
      destruct wa, id as [|[|[|id]]]; simpl; normal_form; auto.
  - done.
Qed.

Lemma run_not_ready getConsentStatus (s : State) (inputs : list (Global * Trigger)) :
  Forall source_not_ready inputs →
  fallback_armed_or_fired s →
  fallback_armed_or_fired (run getConsentStatus s inputs).
Proof.
  revert s. induction inputs as [|i inputs IH]; intros s Hall Hs; [done|].
  apply Forall_cons in Hall as [Hi Hall].
  rewrite run_cons. apply IH; [done|]. by apply step_not_ready.
Qed.

(** C8: the consent source never becomes ready and the host does not clean
    the instance up.  Then the fallback timer, whose id the instance still
    holds, is armed or has fired already, and once it has fired the gate is
    [READY_DENIED] and the queue is empty; nothing has been sent to Sentry.
    Every trigger, the timer's included, has a next state: there is no
    failing outcome. *)
Theorem fallback_timeout_denies getConsentStatus (mapping : PurposeMapping)
    (options : option JSObject) (sc : option ScopeData) (capture_event : bool)
    (pipeline : Pipeline)
    (g0 : Global) (inputs : list (Global * Trigger)) (g : Global) :
  api_ready g0 = false →
  Forall source_not_ready inputs →
  let s := run getConsentStatus
             (start getConsentStatus mapping (fresh_env options sc capture_event pipeline) g0)
             inputs in
  let s' := step getConsentStatus s (g, TimerFires 2) in
  errorTimeoutId (self s) = Some 2
  ∧ (error_timer ∈ timers (env s) ∨ 0 < fallback_runs s)
  ∧ gating s' = READY_DENIED
  ∧ eventQueue (self s') = []
  ∧ sentryCalls (env s') = [].
Proof.
  intros Hg0 Hall s s'.
  assert (fallback_armed_or_fired s) as (Hw & He & Harmed).
  { apply run_not_ready; [done|]. by apply start_not_ready. }
  clearbody s. subst s'. split; [done|].
  split.
  { destruct Harmed as [?|Hr]; [by left|right]. by apply waiting_decided. }
  destruct (Hw) as [_ _ (wa & ea & wk & ek & Ht & _ & _ & _ & _ & Hre) Hfb _ Hsent].
  unfold step, fire_timer. cbn [fst snd]. rewrite Ht.
  destruct (isConsentReady (self s)) eqn:Hr.
  - (* the fallback has fired already *)
    rewrite (Hre eq_refl). destruct (waiting_decided s Hw Hr) as (Hgate & Hq & _).
    by destruct wa.
  - destruct Harmed as [Hin|?]; [|done]. rewrite Ht in Hin.
    destruct wa, ea; simpl in *;
      try (by apply list_elem_of_In in Hin; simpl in Hin; intuition discriminate);
      unfold gating; normal_form; done.
Qed.

Lemma run_resolved getConsentStatus (s : State) (more : list (Global * Trigger)) :
  resolved s →
  resolved (run getConsentStatus s more)
  ∧ timer_runs (run getConsentStatus s more) = timer_runs s.
Proof.
  revert s. induction more as [|i more IH]; intros s Hr; [done|].
  rewrite run_cons.
  destruct (step_resolved getConsentStatus s i Hr) as (Hr' & Ht & _).
  destruct (IH _ Hr') as (Hr'' & Ht'). split; [done|]. by rewrite Ht'.
Qed.

(** C9: once the gate has been decided by the first resolution and not by
    the fallback, no timer is armed any more, and whatever happens next
    neither delayed callback runs its body. *)
Theorem normal_resolution_cancels_timers getConsentStatus (mapping : PurposeMapping)
    (options : option JSObject) (sc : option ScopeData) (capture_event : bool)
    (pipeline : Pipeline)
    (g0 : Global) (inputs more : list (Global * Trigger)) :
  let s := run getConsentStatus
             (start getConsentStatus mapping (fresh_env options sc capture_event pipeline) g0)
             inputs in
  gating s ≠ NOT_READY →
  fallback_runs s = 0 →
  timers (env s) = []
  ∧ timers (env (run getConsentStatus s more)) = []
  ∧ timer_runs (run getConsentStatus s more) = timer_runs s.
Proof.
  intros s Hg Hf.
  destruct (reachable_lifecycle getConsentStatus mapping options sc capture_event pipeline g0 inputs)
    as [Hw|Hr]; fold s in Hw || fold s in Hr.
  - exfalso. destruct (isConsentReady (self s)) eqn:Hready.
    + destruct (waiting_decided s Hw Hready) as (_ & _ & Hpos). lia.
    + by apply gating_not_ready in Hready.
  - destruct (run_resolved getConsentStatus s more Hr) as (Hr' & Ht).
    split; [apply (r_timers _ Hr)|]. split; [apply (r_timers _ Hr')|done].
Qed.

(** The moment of the transition: the ready notification arrives while the
    gate is undecided and the consent API is ready. *)
Lemma ready_notification_cancels_timers getConsentStatus (mapping : PurposeMapping)
    (options : option JSObject) (sc : option ScopeData) (capture_event : bool)
    (pipeline : Pipeline)
    (g0 : Global) (inputs more : list (Global * Trigger)) (g : Global) :
  let s := run getConsentStatus
             (start getConsentStatus mapping (fresh_env options sc capture_event pipeline) g0)
             inputs in
  let s' := step getConsentStatus s (g, Dispatch zarazConsentAPIReady) in
  gating s = NOT_READY →
  api_ready g = true →
  gating s' ≠ NOT_READY
  ∧ timers (env s') = []
  ∧ timer_runs (run getConsentStatus s' more) = timer_runs s'.
Proof.
  intros s s' Hg Hapi.
  destruct (reachable_lifecycle getConsentStatus mapping options sc capture_event pipeline g0 inputs)
    as [Hw|Hr]; fold s in Hw || fold s in Hr.
  - destruct (step_waiting getConsentStatus s (g, Dispatch zarazConsentAPIReady) Hw)
      as [(_ & _ & _ & Hno)|(Hr' & _)].
    + specialize (Hno eq_refl). simpl in Hno. congruence.
    + fold s' in Hr'. destruct (run_resolved getConsentStatus s' more Hr') as (_ & Ht).
      split; [by apply resolved_decided|]. split; [apply (r_timers _ Hr')|done].
  - by apply resolved_decided in Hr.
Qed.

Lemma fallback_timeout_denies_witness :
  let s := run getZarazConsentState
             (start getZarazConsentState sample_mapping sample_env window_without_zaraz)
             three_captures in
  let s' := step getZarazConsentState s (window_without_zaraz, TimerFires 2) in
  errorTimeoutId (self s) = Some 2
  ∧ (error_timer ∈ timers (env s) ∨ 0 < fallback_runs s)
  ∧ gating s' = READY_DENIED
  ∧ eventQueue (self s') = []
  ∧ sentryCalls (env s') = [].
Proof.
  apply (fallback_timeout_denies getZarazConsentState sample_mapping (Some sample_options)
           None true sample_pipeline window_without_zaraz three_captures window_without_zaraz).
  - reflexivity.
  - repeat constructor; simpl; discriminate.
Defined.

Example queue_held_until_fallback :
  let s := run getZarazConsentState
             (start getZarazConsentState sample_mapping sample_env window_without_zaraz)
             three_captures in
  gating s = NOT_READY ∧ length (eventQueue (self s)) = 3.
Proof. by vm_compute. Qed.

Lemma normal_resolution_cancels_timers_witness :
  let s := run getZarazConsentState
             (start getZarazConsentState sample_mapping sample_env window_without_zaraz)
             late_ready_run in
  timers (env s) = []
  ∧ timers (env (run getZarazConsentState s both_timers_due)) = []
  ∧ timer_runs (run getZarazConsentState s both_timers_due) = timer_runs s.
Proof.
  apply (normal_resolution_cancels_timers getZarazConsentState sample_mapping
           (Some sample_options) None true sample_pipeline window_without_zaraz late_ready_run
           both_timers_due).
  - vm_compute. discriminate.
  - vm_compute. reflexivity.
Defined.

Example warning_before_resolution :
  let s := run getZarazConsentState
             (start getZarazConsentState sample_mapping sample_env window_without_zaraz)
             late_ready_run in
  gating s = READY_GRANTED ∧ timer_runs s = 1 ∧ fallback_runs s = 0
  ∧ warningTimeoutId (self s) = None ∧ errorTimeoutId (self s) = None.
Proof. by vm_compute. Qed.

(** The scenario of the specification: [F] granted and [A] not. *)
Example scenario_functional_only :
  match client (env resolved_state) with
  | Some live =>
      live !! "enabled" = Some (VBool true)
      ∧ live !! "sampleRate" = sample_options !! "sampleRate"
      ∧ live !! "tracesSampleRate" = Some (VNum 0)
      ∧ live !! "maxBreadcrumbs" = Some (VNum 0)
  | None => False
  end.
Proof. by vm_compute. Qed.

(** * Further properties *)

(** ** Resolver *)

(** X1: a page that grants at least what another page grants resolves every
    purpose at least as favourably: granting more identifiers never
    revokes a purpose. *)
Theorem resolver_monotone (pm : PurposeMapping) (g g' : Global) (c c' : ConsentAPI)
    (p : Purpose) :
  zaraz_consent g = Some c →
  zaraz_consent g' = Some c' →
  (∀ id, get c id = Some true → get c' id = Some true) →
  st_entry p (getZarazConsentState pm g) = true →
  st_entry p (getZarazConsentState pm g') = true.
Proof.
  intros Hc Hc' Hle. rewrite !getZarazConsentState_entry.
  destruct (pm_entry p pm) as [[b|ids]|]; simpl; try done.
  rewrite Hc, Hc', !granted_all. intros H. by apply (Forall_impl _ _ _ H).
Qed.

Lemma resolver_monotone_witness :
  st_entry Functional
    (getZarazConsentState sample_mapping (window_with [("F", true); ("A", true)])) = true.
Proof.
  apply (resolver_monotone sample_mapping (window_with [("F", true)])
           (window_with [("F", true); ("A", true)])
           (consent_of [("F", true)]) (consent_of [("F", true); ("A", true)]) Functional).
  - reflexivity.
  - reflexivity.
  - intros id. simpl. intros H.
    destruct (decide (id = "F")) as [->|Hne]; [reflexivity|].
    by rewrite lookup_insert_ne in H by done.
  - by vm_compute.
Defined.

(** X2: an identifier list that is the concatenation of two lists resolves
    to the conjunction of what the two lists resolve to. *)
Theorem resolver_concat (g : Global) (ids more : list string) :
  checkZarazConsent g (Some (MIds (ids ++ more)))
  = checkZarazConsent g (Some (MIds ids)) && checkZarazConsent g (Some (MIds more)).
Proof.
  simpl. destruct (zaraz_consent g) as [c|]; [|done].
  induction ids as [|id ids IH]; simpl; [done|]. by rewrite IH, andb_assoc.
Qed.

(** X3: the answer for an identifier list depends on the set of its
    identifiers only: order and repetitions do not matter. *)
Theorem resolver_set_of_ids (g : Global) (ids ids' : list string) :
  (∀ id, id ∈ ids ↔ id ∈ ids') →
  checkZarazConsent g (Some (MIds ids)) = checkZarazConsent g (Some (MIds ids')).
Proof.
  intros Hsame. simpl. destruct (zaraz_consent g) as [c|]; [|done].
  apply eq_true_iff_eq. rewrite !granted_all, !Forall_forall.
  split; intros H id Hin; apply H, Hsame, Hin.
Qed.

Lemma resolver_set_of_ids_witness :
  checkZarazConsent (window_with [("a", true); ("b", true)]) (Some (MIds ["a"; "b"; "a"]))
  = checkZarazConsent (window_with [("a", true); ("b", true)]) (Some (MIds ["b"; "a"])).
Proof.
  apply (resolver_set_of_ids (window_with [("a", true); ("b", true)])
           ["a"; "b"; "a"] ["b"; "a"]).
  intros id. rewrite !elem_of_cons, !elem_of_nil. tauto.
Defined.

(** X4: when [isZarazConsentReady] answers [false] the readiness flag is not
    set; and in a page that keeps to the declared type, where [get] is a
    function whenever there is a consent object, there is no consent object
    then, and the resolver gives every purpose its fixed boolean and [false]
    to every purpose mapped to identifiers or not mapped. *)
Theorem not_ready_resolves_fixed_only (pm : PurposeMapping) (g : Global) (p : Purpose)
    (get_is_function : bool) :
  isZarazConsentReady get_is_function g = false →
  api_ready g = false
  ∧ (get_is_function = true →
     zaraz_consent g = None
     ∧ st_entry p (getZarazConsentState pm g)
       = match pm_entry p pm with
         | Some (MBool b) => b
         | _ => false
         end).
Proof.
  rewrite getZarazConsentState_entry. unfold api_ready, isZarazConsentReady.
  destruct g as [w|].
  - destruct (zaraz_consent (Some w)) as [c|] eqn:Hc.
    + unfold truthy. destruct (default false (APIReady c)); [discriminate|].
      simpl. intros ->. split; [done|]. discriminate.
    + intros _. split; [done|]. intros _. split; [done|].
      destruct (pm_entry p pm) as [[|]|]; unfold checkZarazConsent; rewrite ?Hc; done.
  - intros _. split; [done|]. intros _. split; [done|].
    by destruct (pm_entry p pm) as [[|]|].
Qed.

Lemma not_ready_resolves_fixed_only_witness :
  api_ready window_without_zaraz = false
  ∧ (true = true →
     zaraz_consent window_without_zaraz = None
     ∧ st_entry Functional (getZarazConsentState sample_mapping window_without_zaraz)
       = match pm_entry Functional sample_mapping with
         | Some (MBool b) => b
         | _ => false
         end).
Proof.
  apply (not_ready_resolves_fixed_only sample_mapping window_without_zaraz Functional true).
  reflexivity.
Defined.

(** Outside the declared type: a consent object without [get] and without
    the readiness flag is not ready for [isZarazConsentReady], while an
    empty identifier list resolves to [true] on it, no identifier being
    looked up. *)
Example consent_object_without_get :
  let g := Some (mkWindow (Some (mkZaraz (Some (mkConsentAPI None (λ _, None)))))) in
  isZarazConsentReady false g = false
  ∧ checkZarazConsent g (Some (MIds [])) = true.
Proof. by vm_compute. Qed.

(** ** Reconciler *)

Lemma patch_lookup_gated (original : JSObject) (cs : ConsentState) (k : string) :
  k ∈ gated_fields → is_Some (buildConsentBasedConfig original cs !! k).
Proof. intros Hk. apply elem_of_dom. rewrite patch_domain. by apply elem_of_list_to_set. Qed.

Lemma patch_lookup_other (original : JSObject) (cs : ConsentState) (k : string) :
  k ∉ gated_fields → buildConsentBasedConfig original cs !! k = None.
Proof.
  intros Hk. apply not_elem_of_dom. rewrite patch_domain. by rewrite elem_of_list_to_set.
Qed.

(** Assigning a patch over options that already carry a patch leaves no
    trace of the earlier one. *)
Lemma assign_over_assign (original options : JSObject) (cs1 cs2 : ConsentState) :
  Object_assign (Object_assign options (buildConsentBasedConfig original cs1))
                (buildConsentBasedConfig original cs2)
  = Object_assign options (buildConsentBasedConfig original cs2).
Proof.
  unfold Object_assign. apply map_eq. intros k.
  destruct (decide (k ∈ gated_fields)) as [Hk|Hk].
  - destruct (patch_lookup_gated original cs2 k Hk) as [v Hv].
    by rewrite !(lookup_union_Some_l _ _ _ _ Hv).
  - by rewrite !lookup_union_r by (by apply patch_lookup_other).
Qed.

Lemma applySentryConfiguration_self (cs : ConsentState) (s : State) :
  self (applySentryConfiguration cs s) = self s.
Proof. by destruct (applySentryConfiguration_frame cs s) as (o & c & ->). Qed.

(** X5: what the reconciler leaves in the client's options depends on the
    latest snapshot only: reconciling one snapshot after another gives the
    options that reconciling the second alone gives.  In particular
    reconciling the same snapshot twice changes nothing the second time. *)
Theorem last_snapshot_wins (cs1 cs2 : ConsentState) (s : State) :
  client (env (applySentryConfiguration cs2 (applySentryConfiguration cs1 s)))
  = client (env (applySentryConfiguration cs2 s)).
Proof.
  destruct (client (env s)) as [options|] eqn:Hc.
  - pose proof (applied_options cs1 s options Hc) as H1.
    rewrite (applied_options cs2 _ _ H1), (applied_options cs2 s options Hc).
    by rewrite applySentryConfiguration_self, assign_over_assign.
  - unfold applySentryConfiguration at 2. rewrite Hc. done.
Qed.

(** X6: the reconciler writes the twelve gated fields and nothing else: any
    other option of the client keeps its value. *)
Theorem other_options_untouched (cs : ConsentState) (s : State) (options : JSObject)
    (k : string) :
  client (env s) = Some options →
  k ∉ gated_fields →
  ∃ live, client (env (applySentryConfiguration cs s)) = Some live
          ∧ live !! k = options !! k.
Proof.
  intros Hc Hk. eexists. split; [by apply applied_options|].
  unfold Object_assign. rewrite lookup_union_r; [done|]. by apply patch_lookup_other.
Qed.

Lemma other_options_untouched_witness :
  let options : JSObject := <["debug" := VBool true]> sample_options in
  let s := captureOriginalSentryConfig
             (mkState (new sample_mapping)
                (fresh_env (Some options) None true sample_pipeline)) in
  ∃ live,
    client (env (applySentryConfiguration
                   (mkConsentState (Some false) (Some false) (Some false) (Some false)) s))
    = Some live
    ∧ live !! "sampleRate" = Some (VNum 0)
    ∧ live !! "debug" = Some (VBool true).
Proof.
  destruct (other_options_untouched
              (mkConsentState (Some false) (Some false) (Some false) (Some false))
              (captureOriginalSentryConfig
                 (mkState (new sample_mapping)
                    (fresh_env (Some (<["debug" := VBool true]> sample_options)) None true
                       sample_pipeline)))
              (<["debug" := VBool true]> sample_options) "debug")
    as (live & Hlive & Hdebug).
  - reflexivity.
  - apply (bool_decide_unpack _). by vm_compute.
  - exists live. split; [exact Hlive|]. split; [|by rewrite Hdebug].
    injection Hlive as <-. by vm_compute.
Defined.

(** Twelve assignments to distinct keys: each key reads back its value. *)
Lemma chain_lookups (a1 a2 a3 b1 b2 b3 b4 b5 b6 c1 c2 c3 : JSValue) :
  let m : JSObject :=
    <["replaysOnErrorSampleRate" := c3]> (<["replaysSessionSampleRate" := c2]>
    (<["sendDefaultPii" := c1]>
    (<["beforeSendTransaction" := b6]> (<["beforeBreadcrumb" := b5]>
    (<["profilesSampleRate" := b4]> (<["tracesSampleRate" := b3]>
    (<["attachStacktrace" := b2]> (<["maxBreadcrumbs" := b1]>
    (<["beforeSend" := a3]> (<["sampleRate" := a2]> (<["enabled" := a1]> ∅))))))))))) in
  m !! "enabled" = Some a1 ∧ m !! "sampleRate" = Some a2 ∧ m !! "beforeSend" = Some a3
  ∧ m !! "maxBreadcrumbs" = Some b1 ∧ m !! "attachStacktrace" = Some b2
  ∧ m !! "tracesSampleRate" = Some b3 ∧ m !! "profilesSampleRate" = Some b4
  ∧ m !! "beforeBreadcrumb" = Some b5 ∧ m !! "beforeSendTransaction" = Some b6
  ∧ m !! "sendDefaultPii" = Some c1 ∧ m !! "replaysSessionSampleRate" = Some c2
  ∧ m !! "replaysOnErrorSampleRate" = Some c3.
Proof. repeat split; vm_compute; reflexivity. Qed.

(** Every field of the patch, by the consent of its purpose. *)
Lemma patch_values (original : JSObject) (cs : ConsentState) :
  let f := truthy (cs_functional cs) in
  let a := truthy (cs_analytics cs) in
  let p := truthy (cs_preferences cs) in
  let patch := buildConsentBasedConfig original cs in
  patch !! "enabled" = Some (VBool f)
  ∧ patch !! "sampleRate"
    = Some (if f then nullish (get_prop original "sampleRate") (VNum 1) else VNum 0)
  ∧ patch !! "beforeSend"
    = Some (if f then get_prop original "beforeSend" else VFun block_all)
  ∧ patch !! "maxBreadcrumbs"
    = Some (if a then nullish (get_prop original "maxBreadcrumbs") (VNum (Qc_of_Z 100))
            else VNum 0)
  ∧ patch !! "attachStacktrace"
    = Some (if a then nullish (get_prop original "attachStacktrace") (VBool false)
            else VBool false)
  ∧ patch !! "tracesSampleRate"
    = Some (if a then nullish (get_prop original "tracesSampleRate") (VNum 0) else VNum 0)
  ∧ patch !! "profilesSampleRate"
    = Some (if a then nullish (get_prop original "profilesSampleRate") (VNum 0) else VNum 0)
  ∧ patch !! "beforeBreadcrumb"
    = Some (if a then get_prop original "beforeBreadcrumb" else VFun block_all)
  ∧ patch !! "beforeSendTransaction"
    = Some (if a then get_prop original "beforeSendTransaction" else VFun block_all)
  ∧ patch !! "sendDefaultPii"
    = Some (if p then nullish (get_prop original "sendDefaultPii") (VBool false)
            else VBool false)
  ∧ patch !! "replaysSessionSampleRate"
    = Some (if p then nullish (get_prop original "replaysSessionSampleRate") (VNum 0)
            else VNum 0)
  ∧ patch !! "replaysOnErrorSampleRate"
    = Some (if p then nullish (get_prop original "replaysOnErrorSampleRate") (VNum 0)
            else VNum 0).
Proof.
  unfold buildConsentBasedConfig. cbv zeta.
  destruct (truthy (cs_functional cs)), (truthy (cs_analytics cs)),
    (truthy (cs_preferences cs)); cbn [negb];
    exact (chain_lookups _ _ _ _ _ _ _ _ _ _ _ _).
Qed.

Ltac use_patch_values original cs :=
  let H := fresh "Hpatch" in
  pose proof (patch_values original cs) as H; cbv zeta in H;
  destruct H as (? & ? & ? & ? & ? & ? & ? & ? & ? & ? & ? & ?).

(** X7: the fields of one purpose depend on that purpose's consent alone:
    two snapshots that agree on a purpose give its fields the same values,
    whatever they say of the other purposes.  The keys of the patch are the
    fields of functional, analytics and preferences and no other; and the
    patch is the same whatever the snapshot says of marketing, which decides
    no field. *)
Theorem purposes_do_not_interfere (original : JSObject) (cs1 cs2 : ConsentState)
    (p : Purpose) :
  truthy (cs_entry p cs1) = truthy (cs_entry p cs2) →
  Forall (λ k, buildConsentBasedConfig original cs1 !! k
               = buildConsentBasedConfig original cs2 !! k) (purpose_fields p)
  ∧ (∀ k, is_Some (buildConsentBasedConfig original cs1 !! k)
          ↔ k ∈ purpose_fields Functional ++ purpose_fields Analytics
                ++ purpose_fields Preferences)
  ∧ (∀ marketing,
       buildConsentBasedConfig original
         (mkConsentState (cs_functional cs1) (cs_analytics cs1) marketing
            (cs_preferences cs1))
       = buildConsentBasedConfig original cs1).
Proof.
  intros Hp. split; [|split].
  - use_patch_values original cs1. use_patch_values original cs2.
    destruct p; simpl in Hp; try rewrite Hp in *; unfold purpose_fields;
      repeat (apply Forall_cons; split; [cbv beta; congruence|]); constructor.
  - intros k. rewrite <- elem_of_dom, patch_domain, elem_of_list_to_set.
    unfold gated_fields, purpose_fields. simpl.
    rewrite !elem_of_cons, !elem_of_nil. tauto.
  - intros marketing. reflexivity.
Qed.

Lemma purposes_do_not_interfere_witness :
  Forall (λ k, buildConsentBasedConfig sample_options
                 (mkConsentState (Some true) (Some false) None None) !! k
               = buildConsentBasedConfig sample_options
                   (mkConsentState (Some false) (Some false) (Some true) (Some true)) !! k)
         (purpose_fields Analytics)
  ∧ buildConsentBasedConfig sample_options
      (mkConsentState (Some true) (Some false) (Some true) None)
    = buildConsentBasedConfig sample_options
        (mkConsentState (Some true) (Some false) None None).
Proof.
  destruct (purposes_do_not_interfere sample_options
              (mkConsentState (Some true) (Some false) None None)
              (mkConsentState (Some false) (Some false) (Some true) (Some true)) Analytics)
    as (Hfields & _ & Hmarketing); [reflexivity|].
  split; [exact Hfields|exact (Hmarketing (Some true))].
Defined.

(** X8: what a denied purpose writes does not depend on what the host had
    configured: its fields get the same values under every baseline. *)
Theorem denial_ignores_baseline (original original' : JSObject) (cs : ConsentState)
    (p : Purpose) :
  truthy (cs_entry p cs) = false →
  Forall (λ k, buildConsentBasedConfig original cs !! k
               = buildConsentBasedConfig original' cs !! k) (purpose_fields p).
Proof.
  intros Hp. use_patch_values original cs. use_patch_values original' cs.
  destruct p; simpl in Hp; try rewrite Hp in *; unfold purpose_fields;
    repeat (apply Forall_cons; split; [cbv beta; congruence|]); constructor.
Qed.

Lemma denial_ignores_baseline_witness :
  Forall (λ k, buildConsentBasedConfig sample_options
                 (mkConsentState (Some true) (Some false) None None) !! k
               = buildConsentBasedConfig default_config
                   (mkConsentState (Some true) (Some false) None None) !! k)
         (purpose_fields Analytics).
Proof.
  apply (denial_ignores_baseline sample_options default_config
           (mkConsentState (Some true) (Some false) None None) Analytics).
  reflexivity.
Defined.

Lemma nullish_defined (v d : JSValue) : is_nullish d = false → is_nullish (nullish v d) = false.
Proof. by destruct v. Qed.

(** X9: the nine gated fields that hold a number or a flag always get a
    value that is neither [undefined] nor [null], whatever the baseline
    holds and whatever the snapshot. *)
Theorem value_fields_are_defined (original : JSObject) (cs : ConsentState) :
  Forall (λ k, ∃ v, buildConsentBasedConfig original cs !! k = Some v
                    ∧ is_nullish v = false) value_fields.
Proof.
  use_patch_values original cs. unfold value_fields.
  repeat (apply Forall_cons; split;
          [cbv beta; eexists; split; [eassumption|];
           repeat case_match; first [reflexivity | by apply nullish_defined]|]).
  constructor.
Qed.

Lemma reconcile_all_frame (history : list ConsentState) (s : State) (options : JSObject) :
  client (env s) = Some options →
  ∃ live, client (env (reconcile_all history s)) = Some live
          ∧ self (reconcile_all history s) = self s.
Proof.
  revert s options. induction history as [|cs history IH]; intros s options Hc.
  - by exists options.
  - simpl. destruct (IH (applySentryConfiguration cs s) _ (applied_options cs s options Hc))
      as (live & Hl & Hs).
    exists live. split; [done|]. by rewrite Hs, applySentryConfiguration_self.
Qed.

Lemma restored_value (live patch original options : JSObject) (k : string) (d : JSValue) :
  patch !! k = Some (nullish (get_prop original k) d) →
  get_prop original k = get_prop options k →
  get_prop default_config k = d →
  get_prop (Object_assign live patch) k
  = if is_nullish (get_prop options k) then get_prop default_config k
    else get_prop options k.
Proof.
  intros Hv Hb Hd. unfold Object_assign. unfold get_prop at 1.
  rewrite (lookup_union_Some_l _ _ _ _ Hv), Hb, Hd. simpl.
  by destruct (get_prop options k).
Qed.

Lemma restored_hook (live patch original options : JSObject) (k : string) :
  patch !! k = Some (get_prop original k) →
  get_prop original k = get_prop options k →
  get_prop (Object_assign live patch) k = get_prop options k.
Proof.
  intros Hv Hb. unfold Object_assign. unfold get_prop at 1.
  by rewrite (lookup_union_Some_l _ _ _ _ Hv), Hb.
Qed.

(** X10: whatever snapshots were reconciled before, reconciling a snapshot
    that grants functional, analytics and preferences turns the client on
    and gives every captured option the value the host had configured at
    setup; an option the host had left unset gets the same default that
    setup records when there is no client, and a hook left unset stays
    unset. *)
Theorem full_consent_restores (s : State) (options : JSObject)
    (history : list ConsentState) (cs : ConsentState) :
  client (env s) = Some options →
  truthy (cs_functional cs) = true →
  truthy (cs_analytics cs) = true →
  truthy (cs_preferences cs) = true →
  ∃ live,
    client (env (applySentryConfiguration cs
                   (reconcile_all history (captureOriginalSentryConfig s)))) = Some live
    ∧ live !! "enabled" = Some (VBool true)
    ∧ Forall (λ k, get_prop live k
                   = if is_nullish (get_prop options k) then get_prop default_config k
                     else get_prop options k) defaulted_fields
    ∧ Forall (λ k, get_prop live k = get_prop options k) hook_fields.
Proof.
  intros Hc Hf Ha Hp.
  pose proof (captured_baseline s options Hc) as Hbase.
  set (s1 := captureOriginalSentryConfig s) in *.
  assert (client (env s1) = Some options) as Hc1.
  { unfold s1, captureOriginalSentryConfig. by rewrite Hc. }
  destruct (reconcile_all_frame history s1 options Hc1) as (o' & Ho' & Hself).
  eexists. split; [by apply applied_options|]. rewrite Hself.
  use_patch_values (originalSentryConfig (self s1)) cs.
  rewrite Hf, Ha, Hp in *.
  unfold captured_fields in Hbase.
  repeat (apply Forall_cons in Hbase as [? Hbase]).
  split; [by apply lookup_union_Some_l|].
  split; unfold defaulted_fields, hook_fields.
  - repeat (apply Forall_cons; split;
            [eapply restored_value; [eassumption|eassumption|vm_compute; reflexivity]|]).
    constructor.
  - repeat (apply Forall_cons; split; [eapply restored_hook; eassumption|]).
    constructor.
Qed.

Lemma full_consent_restores_witness :
  ∃ live,
    client (env (applySentryConfiguration (mkConsentState (Some true) (Some true) None (Some true))
                   (reconcile_all [mkConsentState None None None None]
                      (captureOriginalSentryConfig
                         (mkState (new sample_mapping) sample_env))))) = Some live
    ∧ live !! "enabled" = Some (VBool true)
    ∧ Forall (λ k, get_prop live k
                   = if is_nullish (get_prop sample_options k) then get_prop default_config k
                     else get_prop sample_options k) defaulted_fields
    ∧ Forall (λ k, get_prop live k = get_prop sample_options k) hook_fields.
Proof.
  apply (full_consent_restores (mkState (new sample_mapping) sample_env) sample_options
           [mkConsentState None None None None]
           (mkConsentState (Some true) (Some true) None (Some true)));
    reflexivity.
Defined.

(** ** Scope *)

(** X11: revoking marketing consent only clears (a [null] user, [undefined]
    tags, a [null] marketing context) and granting it only sets; the tags
    that granting sets again are, in order, the tags that revoking clears.
    Without a scope neither makes any call nor changes anything; with a
    scope revoking always makes a call. *)
Theorem scope_revoke_and_grant (s : State) :
  (scope (env s) = None → ∀ marketing, updateSentryScope marketing s = s)
  ∧ ∃ cleared restored,
      scopeCalls (env (updateSentryScope false s)) = scopeCalls (env s) ++ cleared
      ∧ scopeCalls (env (updateSentryScope true s)) = scopeCalls (env s) ++ restored
      ∧ Forall (λ c, is_clearing c = true) cleared
      ∧ Forall (λ c, is_clearing c = false) restored
      ∧ omap tag_key cleared = omap tag_key restored
      ∧ (scope (env s) = None ↔ cleared = [])
      ∧ (scope (env s) = None → restored = []).
Proof.
  split; [by intros Hs b; unfold updateSentryScope; rewrite Hs|].
  unfold updateSentryScope. destruct (scope (env s)) as [sc|].
  - eexists _, _. cbn [negb]. unfold scope_calls, upd_env. cbn [env scopeCalls set_scopeCalls].
    split; [reflexivity|]. split; [reflexivity|].
    destruct (originalScopeData (self s)) as [user tags contexts]. simpl.
    split; [|split; [|split; [|split]]].
    + constructor; [done|]. apply Forall_app. split; [|by repeat constructor].
      destruct tags as [tags|]; [|constructor]. by apply Forall_fmap, Forall_true.
    + apply Forall_app. split; [by destruct user; repeat constructor|].
      apply Forall_app. split.
      * destruct tags as [tags|]; [|constructor]. by apply Forall_fmap, Forall_true.
      * destruct contexts as [contexts|]; [|constructor]. by apply Forall_fmap, Forall_true.
    + assert (∀ l : list (string * Context),
                omap tag_key ((λ kv, setContext kv.1 (Some kv.2)) <$> l) = []) as Hctx.
      { induction l as [|kv l IH]; [done|]. by csimpl. }
      assert (∀ l : list (string * string),
                omap tag_key ((λ kv, setTag kv.1 None) <$> l) = l.*1) as Hclr.
      { induction l as [|kv l IH]; [done|]. csimpl. by rewrite IH. }
      assert (∀ l : list (string * string),
                omap tag_key ((λ kv, setTag kv.1 (Some kv.2)) <$> l) = l.*1) as Hset.
      { induction l as [|kv l IH]; [done|]. csimpl. by rewrite IH. }
      rewrite !omap_app.
      destruct user, tags as [tags|], contexts as [contexts|];
        rewrite ?Hctx, ?Hclr, ?Hset; simpl; by rewrite ?app_nil_r.
    + split; [done|]. intros H. discriminate H.
    + done.
  - exists [], []. rewrite app_nil_r. by repeat split.
Qed.

(** ** Queue flush *)

Lemma str_or_nonempty (s : option string) (d : string) : d ≠ "" → str_or s d ≠ "".
Proof. intros Hd. unfold str_or. destruct s as [x|]; [|done]. by case_decide. Qed.

(** X12: which capture a queued event is re-sent through.  An event with a
    first exception value is re-raised as an error whatever else it
    carries, and the error's message is never empty.  Failing that, an
    event with a non-empty message is re-sent as that very message with the
    event's level.  Any other event is passed to [captureEvent] unchanged,
    with its hint, when Sentry has it, and is dropped when it has not. *)
Theorem recapture_cases (capture_event : bool) (event : Event) (hint : EventHint) :
  match recapture capture_event event hint with
  | Some (captureException error) =>
      is_Some (exception_values event ≫= head) ∧ err_message error ≠ ""
  | Some (captureMessage msg lvl) =>
      exception_values event ≫= head = None
      ∧ message event = Some msg ∧ msg ≠ "" ∧ lvl = level event
  | Some (captureEvent event' hint') =>
      exception_values event ≫= head = None ∧ str_truthy (message event) = false
      ∧ capture_event = true ∧ event' = event ∧ hint' = hint
  | None =>
      exception_values event ≫= head = None ∧ str_truthy (message event) = false
      ∧ capture_event = false
  end.
Proof.
  unfold recapture.
  destruct (exception_values event ≫= head) as [v|].
  - split; [by eexists|]. by apply str_or_nonempty.
  - destruct (str_truthy (message event)) eqn:Hm.
    + unfold str_truthy in Hm. destruct (message event) as [m|]; [|done].
      apply bool_decide_eq_true in Hm. unfold str_or. by case_decide.
    + by destruct capture_event.
Qed.

(** ** The instance over its life *)

Lemma applySentryConfiguration_no_client (cs : ConsentState) (s : State) :
  client (env s) = None → applySentryConfiguration cs s = s.
Proof. intros Hc. unfold applySentryConfiguration. by rewrite Hc. Qed.

(** The ready notification in the waiting phase, the consent API being
    ready: everything the first resolution leaves behind. *)
Lemma zarazLoaded_resolves getConsentStatus (g : Global) (s : State) :
  waiting s →
  api_ready g = true →
  let snapshot := getConsentStatus (purposeMapping (self s)) g in
  let s' := step getConsentStatus s (g, Dispatch zarazConsentAPIReady) in
  resolved s'
  ∧ docListeners (env s') = [change_listener]
  ∧ consentChangeListener (self s') = Some consentChangeListenerFn
  ∧ hasConsent (self s') = st_functional snapshot
  ∧ currentConsentState (self s') = asConsentState snapshot
  ∧ sentryCalls (env s')
    = (if st_functional snapshot
       then recaptured (hasCaptureEvent (env s)) (eventQueue (self s)) else [])
  ∧ warning_runs s' = warning_runs s
  ∧ fallback_runs s' = fallback_runs s.
Proof.
  intros Hw Hg snapshot s'.
  destruct (step_waiting getConsentStatus s (g, Dispatch zarazConsentAPIReady) Hw)
    as [(_ & _ & _ & Hno)|(Hr & _)]; [specialize (Hno eq_refl); simpl in Hno; congruence|].
  fold s' in Hr. split; [done|].
  destruct (Hw) as [_ Hls (wa & ea & wk & ek & Ht & Hwid & Heid & Hwa & Hea & _) _ _ Hsent].
  subst s'. unfold step, dispatch. cbn [fst snd]. rewrite Hls. simpl.
  unfold zarazLoaded. rewrite Hg.
  rewrite checkConsent_exact. fold snapshot.
  match goal with
  | |- context [removeEventListener _ _ (clearWarningAndErrorTimeouts ?t)] =>
      rewrite (clear_armed t wa ea wk ek Ht Hwid Heid Hwa Hea)
  end.
  match goal with
  | |- context [clearWarningAndErrorTimeouts ?t] =>
      destruct (clear_none t) as (w' & e' & ->); [by normal_form|]
  end.
  unfold warning_runs, fallback_runs. normal_form.
  rewrite Hls, Hsent.
  destruct (st_functional snapshot);
    rewrite ?app_nil_r, ?count_records_allowed by (vm_compute; reflexivity);
    rewrite !count_records_snoc;
    repeat split; try done; by (rewrite Nat.add_0_r || (simpl; lia)).
Qed.

(** X13: whenever the gate of an instance that was set up in a fresh page is
    decided, by a resolution or by the fallback, its queue is empty. *)
Theorem decided_gate_has_empty_queue getConsentStatus (mapping : PurposeMapping)
    (options : option JSObject) (sc : option ScopeData) (capture_event : bool)
    (pipeline : Pipeline)
    (g : Global) (inputs : list (Global * Trigger)) :
  let s := run getConsentStatus
             (start getConsentStatus mapping (fresh_env options sc capture_event pipeline) g)
             inputs in
  isConsentReady (self s) = true →
  eventQueue (self s) = [].
Proof.
  intros s Hr.
  destruct (reachable_lifecycle getConsentStatus mapping options sc capture_event pipeline g inputs)
    as [Hw|Hres]; fold s in Hw || fold s in Hres.
  - by destruct (w_fallback s Hw Hr) as (_ & ? & _).
  - by apply r_queue.
Qed.

Lemma decided_gate_has_empty_queue_witness :
  let s := run getZarazConsentState
             (start getZarazConsentState sample_mapping sample_env window_without_zaraz)
             (three_captures ++ [(window_without_zaraz, TimerFires 2)]) in
  length (eventQueue (self queued_state)) = 3
  ∧ isConsentReady (self s) = true
  ∧ eventQueue (self s) = [].
Proof.
  cbv zeta. split; [by vm_compute|]. split; [by vm_compute|].
  apply (decided_gate_has_empty_queue getZarazConsentState sample_mapping
           (Some sample_options) None true sample_pipeline window_without_zaraz
           (three_captures ++ [(window_without_zaraz, TimerFires 2)])).
  by vm_compute.
Defined.

(** With an empty queue the change listener sends nothing. *)
Lemma consentChanged_calls getConsentStatus (g : Global) (s : State) :
  eventQueue (self s) = [] →
  sentryCalls (env (consentChanged getConsentStatus g s)) = sentryCalls (env s).
Proof.
  intros Hq. unfold consentChanged. cbv zeta.
  match goal with |- context [if ?c then _ else _] => destruct c end; [|done].
  unfold updateIntegrationConfigs.
  match goal with
  | |- context [applySentryConfiguration ?cs ?t] =>
      destruct (applySentryConfiguration_frame cs t) as (o & c & ->)
  end.
  destruct (st_functional _) eqn:Hf.
  - rewrite processQueuedEvents_granted by done. normal_form.
    rewrite Hq. unfold recaptured. simpl. by rewrite app_nil_r.
  - by normal_form.
Qed.

(** After the first resolution no trigger makes the instance call Sentry. *)
Lemma step_resolved_calls getConsentStatus (s : State) (i : Global * Trigger) :
  resolved s →
  sentryCalls (env (step getConsentStatus s i)) = sentryCalls (env s).
Proof.
  intros [Hn Ht Hr Hq Hsync Hls].
  destruct i as [g [event hint|ev|id|]]; unfold step; cbn [fst snd].
  - unfold processEvent. rewrite Hr.
    by destruct (hasConsent (self s)); cbn [andb negb snd]; normal_form.
  - unfold dispatch.
    destruct Hls as [Hls|Hls]; rewrite Hls; [|by simpl].
    destruct ev; [by simpl|]. simpl. by apply consentChanged_calls.
  - unfold fire_timer. rewrite Ht. by simpl.
  - unfold cleanup. destruct (clear_none s Ht) as (w & e & ->). normal_form.
    by destruct (consentChangeListener (self s)); normal_form.
Qed.

(** X14: the integration calls Sentry only in the step that runs the first
    resolution: a trigger that leaves the number of resolutions as it was
    leaves the calls made to Sentry as they were. *)
Theorem sends_only_at_first_resolution getConsentStatus (mapping : PurposeMapping)
    (options : option JSObject) (sc : option ScopeData) (capture_event : bool)
    (pipeline : Pipeline)
    (g : Global) (inputs : list (Global * Trigger)) (i : Global * Trigger) :
  let s := run getConsentStatus
             (start getConsentStatus mapping (fresh_env options sc capture_event pipeline) g)
             inputs in
  resolutions (step getConsentStatus s i) = resolutions s →
  sentryCalls (env (step getConsentStatus s i)) = sentryCalls (env s).
Proof.
  intros s Hn.
  destruct (reachable_lifecycle getConsentStatus mapping options sc capture_event pipeline g inputs)
    as [Hw|Hres]; fold s in Hw || fold s in Hres.
  - destruct (step_waiting getConsentStatus s i Hw) as [(Hw' & _)|(Hr' & _)].
    + by rewrite (w_nothing_sent _ Hw'), (w_nothing_sent _ Hw).
    + rewrite (r_resolutions _ Hr'), (w_resolutions _ Hw) in Hn. discriminate.
  - by apply step_resolved_calls.
Qed.

Lemma sends_only_at_first_resolution_witness :
  let s := run getZarazConsentState
             (start getZarazConsentState sample_mapping sample_env window_without_zaraz)
             (three_captures ++ [(granting_window, Dispatch zarazConsentAPIReady)]) in
  let revoked := step getZarazConsentState s
                   (window_with [("F", false)], Dispatch zarazConsentChoicesUpdated) in
  length (sentryCalls (env s)) = 3
  ∧ gating s = READY_GRANTED
  ∧ gating revoked = READY_DENIED
  ∧ resolutions revoked = resolutions s
  ∧ sentryCalls (env revoked) = sentryCalls (env s).
Proof.
  cbv zeta. do 4 (split; [by vm_compute|]).
  apply (sends_only_at_first_resolution getZarazConsentState sample_mapping
           (Some sample_options) None true sample_pipeline window_without_zaraz
           (three_captures ++ [(granting_window, Dispatch zarazConsentAPIReady)])
           (window_with [("F", false)], Dispatch zarazConsentChoicesUpdated)).
  by vm_compute.
Defined.

(** X15: [cleanup] for any state: a second call changes nothing more; the
    queue is dropped and the change listener forgotten, while the gate, the
    cached snapshot and the calls already made stay as they were. *)
Theorem cleanup_idempotent (s : State) :
  cleanup (cleanup s) = cleanup s
  ∧ eventQueue (self (cleanup s)) = []
  ∧ consentChangeListener (self (cleanup s)) = None
  ∧ gating (cleanup s) = gating s
  ∧ currentConsentState (self (cleanup s)) = currentConsentState (self s)
  ∧ sentryCalls (env (cleanup s)) = sentryCalls (env s)
  ∧ client (env (cleanup s)) = client (env s).
Proof.
  destruct s as [[? ? ? ? l ? wid eid ? ?] [? ? ? ? ? pending ? ? ? ?]].
  unfold cleanup, clearWarningAndErrorTimeouts, clear_if_set, gating.
  destruct wid as [[|w]|], eid as [[|e]|], l as [l|]; compute_state; done.
Qed.

(** Without a client no listener touches the options or the scope. *)
Lemma run_listener_no_client getConsentStatus (l : Listener) (g : Global) (s : State) :
  client (env s) = None →
  client (env (run_listener getConsentStatus l g s)) = None
  ∧ scopeCalls (env (run_listener getConsentStatus l g s)) = scopeCalls (env s).
Proof.
  intros Hc. destruct l; simpl.
  - unfold zarazLoaded. destruct (api_ready g); [|done].
    rewrite checkConsent_exact.
    rewrite (applySentryConfiguration_no_client _ s Hc).
    match goal with
    | |- context [removeEventListener _ _ (clearWarningAndErrorTimeouts ?t)] =>
        destruct (clearWarningAndErrorTimeouts_frame t) as (w & e & p & ->)
    end.
    match goal with
    | |- context [clearWarningAndErrorTimeouts ?t] =>
        destruct (clearWarningAndErrorTimeouts_frame t) as (w' & e' & p' & ->)
    end.
    by normal_form.
  - unfold consentChanged. cbv zeta.
    match goal with |- context [if ?c then _ else _] => destruct c end; [|done].
    unfold updateIntegrationConfigs.
    match goal with
    | |- context [applySentryConfiguration ?cs ?t] =>
        rewrite (applySentryConfiguration_no_client cs t) by (by normal_form)
    end.
    destruct (st_functional _) eqn:Hf.
    + rewrite processQueuedEvents_granted by done. by normal_form.
    + by normal_form.
Qed.

Lemma step_no_client getConsentStatus (s : State) (i : Global * Trigger) :
  client (env s) = None →
  client (env (step getConsentStatus s i)) = None
  ∧ scopeCalls (env (step getConsentStatus s i)) = scopeCalls (env s).
Proof.
  intros Hc. destruct i as [g [event hint|ev|id|]]; unfold step; cbn [fst snd].
  - unfold processEvent.
    by destruct (isConsentReady (self s)), (hasConsent (self s));
      cbn [andb negb snd]; normal_form.
  - unfold dispatch.
    generalize (filter (λ r : DocEvent * Listener, r.1 = ev) (docListeners (env s))).
    intros ls. revert s Hc. induction ls as [|r ls IH]; intros s Hc; [done|].
    simpl. destruct (run_listener_no_client getConsentStatus r.2 g s Hc) as [Hc' <-].
    by apply IH.
  - unfold fire_timer. destruct (list_find _ _) as [[k t]|]; [|done].
    by destruct (timer_body t); simpl; normal_form.
  - unfold cleanup.
    destruct (clearWarningAndErrorTimeouts_frame s) as (w & e & p & ->).
    by destruct (consentChangeListener (self s)); normal_form;
      cbn [consentChangeListener set_errorTimeoutId set_warningTimeoutId];
      destruct (consentChangeListener (self s)); normal_form.
Qed.

(** X16: an instance set up while Sentry has no client never gets one to
    change and never calls the scope, whatever the page does afterwards,
    even with a scope at hand and marketing consent refused. *)
Theorem no_client_no_reconciliation getConsentStatus (mapping : PurposeMapping)
    (sc : option ScopeData) (capture_event : bool)
    (pipeline : Pipeline)
    (g : Global) (inputs : list (Global * Trigger)) :
  let s := run getConsentStatus
             (start getConsentStatus mapping (fresh_env None sc capture_event pipeline) g)
             inputs in
  client (env s) = None ∧ scopeCalls (env s) = [].
Proof.
  cbv zeta.
  set (s0 := start getConsentStatus mapping (fresh_env None sc capture_event pipeline) g).
  assert (client (env s0) = None ∧ scopeCalls (env s0) = []) as H0.
  { unfold s0, start, setupOnce, initializeConsentMonitoring.
    set (t := mkState (new mapping) (fresh_env None sc capture_event pipeline)).
    destruct (setup_captures t) as (He & _).
    set (t1 := captureOriginalScopeData (captureOriginalSentryConfig t)) in *.
    assert (client (env t1) = None) as Hc by (by rewrite He).
    assert (scopeCalls (env t1) = []) as Hs by (by rewrite He).
    destruct (api_ready g).
    - rewrite checkConsent_exact.
      rewrite (applySentryConfiguration_no_client _ t1 Hc).
      match goal with
      | |- context [clearWarningAndErrorTimeouts ?t] =>
          destruct (clearWarningAndErrorTimeouts_frame t) as (w & e & p & ->)
      end.
      by normal_form.
    - unfold setTimeout. by normal_form. }
  clearbody s0. revert s0 H0.
  induction inputs as [|i inputs IH]; intros s0 [Hc Hs]; [done|].
  rewrite run_cons. apply IH.
  destruct (step_no_client getConsentStatus s0 i Hc) as [? ->]. done.
Qed.

(** Captures while the gate is undecided only extend the queue and the log. *)
Lemma captures_while_undecided getConsentStatus (g : Global)
    (events : list (Event * EventHint)) (s : State) :
  isConsentReady (self s) = false →
  run getConsentStatus s (captures g events)
  = mkState (set_eventQueue (eventQueue (self s) ++ events) (self s))
      (set_eventLog (eventLog (env s) ++ replicate (length events) "Sentry event queued")
         (env s)).
Proof.
  revert s. induction events as [|[event hint] events IH]; intros s Hr.
  - destruct s as [[] []]. simpl. by rewrite !app_nil_r.
  - unfold captures. rewrite fmap_cons. fold (captures g events). rewrite run_cons.
    unfold step at 1. cbn [fst snd]. unfold processEvent. rewrite Hr.
    cbn [andb negb snd]. rewrite IH by (by normal_form). normal_form.
    by rewrite <- !app_assoc.
Qed.

(** X17: a burst of captures while the consent source is missing, then the
    ready notification: the queue is empty again, the gate is the functional
    purpose of the snapshot, and Sentry has been called with the re-sent
    events, in capture order, if that purpose is granted and not at all
    otherwise. *)
Theorem queue_then_ready getConsentStatus (mapping : PurposeMapping)
    (options : option JSObject) (sc : option ScopeData) (capture_event : bool)
    (pipeline : Pipeline)
    (g0 g : Global) (events : list (Event * EventHint)) :
  api_ready g0 = false →
  api_ready g = true →
  let functional := st_functional (getConsentStatus mapping g) in
  let s := run getConsentStatus
             (start getConsentStatus mapping (fresh_env options sc capture_event pipeline) g0)
             (captures g0 events ++ [(g, Dispatch zarazConsentAPIReady)]) in
  eventQueue (self s) = []
  ∧ gating s = (if functional then READY_GRANTED else READY_DENIED)
  ∧ currentConsentState (self s) = asConsentState (getConsentStatus mapping g)
  ∧ sentryCalls (env s) = (if functional then recaptured capture_event events else [])
  ∧ timers (env s) = []
  ∧ docListeners (env s) = [change_listener].
Proof.
  intros Hg0 Hg functional s. subst s. rewrite run_app.
  set (s0 := start getConsentStatus mapping (fresh_env options sc capture_event pipeline) g0).
  assert (isConsentReady (self s0) = false ∧ eventQueue (self s0) = []
          ∧ purposeMapping (self s0) = mapping
          ∧ hasCaptureEvent (env s0) = capture_event) as (Hr0 & Hq0 & Hm0 & Hce0).
  { unfold s0, start, setupOnce, initializeConsentMonitoring. rewrite Hg0.
    set (t := mkState (new mapping) (fresh_env options sc capture_event pipeline)).
    destruct (setup_captures t) as (He & Hr & _ & Hq & _ & _ & _ & Hm).
    unfold setTimeout. normal_form. by rewrite He, Hr, Hq, Hm. }
  pose proof (run_lifecycle getConsentStatus s0 (captures g0 events)
                (start_lifecycle getConsentStatus mapping options sc capture_event pipeline g0))
    as Hl.
  fold s0 in Hl.
  rewrite (captures_while_undecided getConsentStatus g0 events s0 Hr0) in *.
  set (s1 := mkState _ _) in *.
  destruct Hl as [Hw|Hres]; [|by apply r_ready in Hres; unfold s1 in Hres; simpl in Hres; congruence].
  rewrite run_cons. change (run getConsentStatus ?t []) with t.
  destruct (zarazLoaded_resolves getConsentStatus g s1 Hw Hg)
    as (Hres & Hls & _ & Hc & Hcs & Hsent & _).
  replace (purposeMapping (self s1)) with mapping in * by (by unfold s1; normal_form).
  replace (hasCaptureEvent (env s1)) with capture_event in Hsent by (by unfold s1; normal_form).
  replace (eventQueue (self s1)) with events in Hsent
    by (unfold s1; normal_form; by rewrite Hq0).
  fold functional in Hc, Hsent.
  repeat split; try done.
  - by apply r_queue.
  - unfold gating. by rewrite (r_ready _ Hres), Hc.
  - by apply r_timers.
Qed.

Lemma queue_then_ready_witness :
  let s := run getZarazConsentState
             (start getZarazConsentState sample_mapping sample_env window_without_zaraz)
             (captures window_without_zaraz
                [(error_event, no_hint); (message_event, no_hint); (plain_event, no_hint)]
              ++ [(granting_window, Dispatch zarazConsentAPIReady)]) in
  eventQueue (self s) = []
  ∧ gating s = READY_GRANTED
  ∧ length (sentryCalls (env s)) = 3.
Proof.
  destruct (queue_then_ready getZarazConsentState sample_mapping (Some sample_options)
              None true sample_pipeline window_without_zaraz granting_window
              [(error_event, no_hint); (message_event, no_hint); (plain_event, no_hint)])
    as (Hq & Hg & _ & Hs & _); [by vm_compute|by vm_compute|].
  cbv zeta. split; [exact Hq|]. split; [etrans; [exact Hg|by vm_compute]|].
  etrans; [exact (f_equal length Hs)|by vm_compute].
Defined.

(** No trigger changes the purpose mapping the instance was built with. *)
Lemma step_mapping getConsentStatus (s : State) (i : Global * Trigger) :
  purposeMapping (self (step getConsentStatus s i)) = purposeMapping (self s).
Proof.
  destruct i as [g [event hint|ev|id|]]; unfold step; cbn [fst snd].
  - unfold processEvent.
    by destruct (isConsentReady (self s)), (hasConsent (self s));
      cbn [andb negb snd]; normal_form.
  - unfold dispatch.
    generalize (filter (λ r : DocEvent * Listener, r.1 = ev) (docListeners (env s))).
    intros ls. revert s. induction ls as [|r ls IH]; intros s; [done|].
    simpl. rewrite IH. destruct r as [? []]; simpl.
    + unfold zarazLoaded. destruct (api_ready g); [|done].
      destruct (checkConsent_shape getConsentStatus g s) as (o & c & sc & k & ->).
      match goal with
      | |- context [removeEventListener _ _ (clearWarningAndErrorTimeouts ?t)] =>
          destruct (clearWarningAndErrorTimeouts_frame t) as (w & e & p & ->)
      end.
      match goal with
      | |- context [clearWarningAndErrorTimeouts ?t] =>
          destruct (clearWarningAndErrorTimeouts_frame t) as (w' & e' & p' & ->)
      end.
      by normal_form.
    + by destruct (consentChanged_frame getConsentStatus g s)
        as [->|(o & c & sc & q & l & -> & _)].
  - unfold fire_timer. destruct (list_find _ _) as [[k t]|]; [|done].
    by destruct (timer_body t); simpl; normal_form.
  - unfold cleanup.
    destruct (clearWarningAndErrorTimeouts_frame s) as (w & e & p & ->).
    by destruct (consentChangeListener (self s)); normal_form;
      cbn [consentChangeListener set_errorTimeoutId set_warningTimeoutId];
      destruct (consentChangeListener (self s)); normal_form.
Qed.

Lemma run_mapping getConsentStatus (s : State) (inputs : list (Global * Trigger)) :
  purposeMapping (self (run getConsentStatus s inputs)) = purposeMapping (self s).
Proof.
  revert s. induction inputs as [|i inputs IH]; intros s; [done|].
  by rewrite run_cons, IH, step_mapping.
Qed.

Lemma start_mapping getConsentStatus (mapping : PurposeMapping) (e : Env) (g : Global) :
  purposeMapping (self (start getConsentStatus mapping e g)) = mapping.
Proof.
  unfold start, setupOnce, initializeConsentMonitoring.
  set (t := mkState (new mapping) e).
  destruct (setup_captures t) as (_ & _ & _ & _ & _ & _ & _ & Hm).
  set (t1 := captureOriginalScopeData (captureOriginalSentryConfig t)) in *.
  destruct (api_ready g).
  - destruct (checkConsent_shape getConsentStatus g t1) as (o & c & sc & k & ->).
    match goal with
    | |- context [clearWarningAndErrorTimeouts ?t] =>
        destruct (clearWarningAndErrorTimeouts_frame t) as (w & e' & p & ->)
    end.
    by normal_form.
  - unfold setTimeout. by normal_form.
Qed.

(** [cleanup] in the waiting phase. *)
Lemma cleanup_waiting (s : State) :
  waiting s →
  timers (env (cleanup s)) = []
  ∧ docListeners (env (cleanup s)) = [ready_listener]
  ∧ eventQueue (self (cleanup s)) = []
  ∧ isConsentReady (self (cleanup s)) = isConsentReady (self s)
  ∧ hasConsent (self (cleanup s)) = hasConsent (self s)
  ∧ hasCaptureEvent (env (cleanup s)) = hasCaptureEvent (env s).
Proof.
  intros [_ Hls (wa & ea & wk & ek & Ht & Hw & He & Hwa & Hea & _) _ _ _].
  unfold cleanup. rewrite (clear_armed s wa ea wk ek) by done.
  assert (∀ l, remove_first (zarazConsentChoicesUpdated, l) (docListeners (env s))
               = [ready_listener]) as Hrm by (intros l; rewrite Hls; by destruct l).
  normal_form.
  by destruct (consentChangeListener (self s)) as [l|]; normal_form; rewrite ?Hrm.
Qed.

(** No trigger changes what Sentry exposes. *)
Lemma step_capture_event getConsentStatus (s : State) (i : Global * Trigger) :
  hasCaptureEvent (env (step getConsentStatus s i)) = hasCaptureEvent (env s).
Proof.
  destruct i as [g [event hint|ev|id|]]; unfold step; cbn [fst snd].
  - unfold processEvent.
    by destruct (isConsentReady (self s)), (hasConsent (self s));
      cbn [andb negb snd]; normal_form.
  - unfold dispatch.
    generalize (filter (λ r : DocEvent * Listener, r.1 = ev) (docListeners (env s))).
    intros ls. revert s. induction ls as [|r ls IH]; intros s; [done|].
    simpl. rewrite IH. destruct r as [? []]; simpl.
    + unfold zarazLoaded. destruct (api_ready g); [|done].
      destruct (checkConsent_shape getConsentStatus g s) as (o & c & sc & k & ->).
      match goal with
      | |- context [removeEventListener _ _ (clearWarningAndErrorTimeouts ?t)] =>
          destruct (clearWarningAndErrorTimeouts_frame t) as (w & e & p & ->)
      end.
      match goal with
      | |- context [clearWarningAndErrorTimeouts ?t] =>
          destruct (clearWarningAndErrorTimeouts_frame t) as (w' & e' & p' & ->)
      end.
      by normal_form.
    + by destruct (consentChanged_frame getConsentStatus g s)
        as [->|(o & c & sc & q & l & -> & _)].
  - unfold fire_timer. destruct (list_find _ _) as [[k t]|]; [|done].
    by destruct (timer_body t); simpl; normal_form.
  - unfold cleanup.
    destruct (clearWarningAndErrorTimeouts_frame s) as (w & e & p & ->).
    by destruct (consentChangeListener (self s)); normal_form;
      cbn [consentChangeListener set_errorTimeoutId set_warningTimeoutId];
      destruct (consentChangeListener (self s)); normal_form.
Qed.

Lemma run_capture_event getConsentStatus (s : State) (inputs : list (Global * Trigger)) :
  hasCaptureEvent (env (run getConsentStatus s inputs)) = hasCaptureEvent (env s).
Proof.
  revert s. induction inputs as [|i inputs IH]; intros s; [done|].
  by rewrite run_cons, IH, step_capture_event.
Qed.

Lemma start_capture_event getConsentStatus (mapping : PurposeMapping)
    (options : option JSObject) (sc : option ScopeData) (capture_event : bool)
    (pipeline : Pipeline) (g : Global) :
  hasCaptureEvent
    (env (start getConsentStatus mapping (fresh_env options sc capture_event pipeline) g))
  = capture_event.
Proof.
  unfold start, setupOnce, initializeConsentMonitoring.
  set (t := mkState (new mapping) (fresh_env options sc capture_event pipeline)).
  destruct (setup_captures t) as (He & _).
  set (t1 := captureOriginalScopeData (captureOriginalSentryConfig t)) in *.
  destruct (api_ready g).
  - destruct (checkConsent_shape getConsentStatus g t1) as (o & c & scs & k & ->).
    match goal with
    | |- context [clearWarningAndErrorTimeouts ?t] =>
        destruct (clearWarningAndErrorTimeouts_frame t) as (w & e' & p & ->)
    end.
    normal_form. by rewrite He.
  - unfold setTimeout. normal_form. by rewrite He.
Qed.

(** One trigger that leaves the instance waiting: the queue afterwards holds
    nothing but what it held and the event of the trigger, in order. *)
Lemma step_waiting_queue getConsentStatus (s : State) (i : Global * Trigger) :
  waiting s →
  waiting (step getConsentStatus s i) →
  eventQueue (self (step getConsentStatus s i))
  `sublist_of` eventQueue (self s) ++ captured [i].
Proof.
  intros Hw Hw'.
  destruct (Hw) as [_ Hls (wa & ea & wk & ek & Ht & _) Hfb _ _].
  destruct i as [g [event hint|ev|id|]].
  - change (captured [(g, Capture event hint)]) with [(event, hint)].
    unfold step. cbn [fst snd]. unfold processEvent.
    destruct (isConsentReady (self s)) eqn:Hr.
    + destruct (Hfb eq_refl) as (-> & _). cbn [andb negb snd]. normal_form.
      by apply sublist_inserts_r.
    + cbn [andb negb snd]. by normal_form.
  - change (captured [(g, Dispatch ev)]) with (@nil (Event * EventHint)).
    rewrite app_nil_r. destruct ev.
    + destruct (api_ready g) eqn:Hg.
      * destruct (zarazLoaded_resolves getConsentStatus g s Hw Hg) as (Hres & _).
        pose proof (r_resolutions _ Hres) as Hn.
        rewrite (w_resolutions _ Hw') in Hn. discriminate.
      * unfold step, dispatch. cbn [fst snd]. rewrite Hls. simpl.
        unfold zarazLoaded. by rewrite Hg.
    + unfold step, dispatch. cbn [fst snd]. rewrite Hls. by simpl.
  - change (captured [(g, TimerFires id)]) with (@nil (Event * EventHint)).
    rewrite app_nil_r.
    unfold step. cbn [fst snd]. unfold fire_timer. rewrite Ht.
    destruct wa, ea; simpl; destruct id as [|[|[|id]]]; simpl; normal_form;
      first [reflexivity | apply sublist_nil_l].
  - change (captured [(g, Cleanup)]) with (@nil (Event * EventHint)).
    rewrite app_nil_r. unfold step. cbn [fst snd].
    destruct (cleanup_waiting s Hw) as (_ & _ & -> & _). apply sublist_nil_l.
Qed.

Lemma captured_cons (i : Global * Trigger) (inputs : list (Global * Trigger)) :
  captured (i :: inputs) = captured [i] ++ captured inputs.
Proof. unfold captured. csimpl. by destruct (i.2). Qed.

(** What a run sends and what it holds queued, from what it started with:
    nothing but events the run itself was handed, in order. *)
Lemma run_sends_own_events getConsentStatus (capture_event : bool) (s : State)
    (inputs : list (Global * Trigger)) (before : list (Event * EventHint)) :
  lifecycle s →
  hasCaptureEvent (env s) = capture_event →
  (waiting s → eventQueue (self s) `sublist_of` before) →
  (∃ sent, sent `sublist_of` before ∧ sentryCalls (env s) = recaptured capture_event sent) →
  (waiting (run getConsentStatus s inputs) →
   eventQueue (self (run getConsentStatus s inputs)) `sublist_of` before ++ captured inputs)
  ∧ ∃ sent, sent `sublist_of` before ++ captured inputs
            ∧ sentryCalls (env (run getConsentStatus s inputs))
              = recaptured capture_event sent.
Proof.
  revert s before. induction inputs as [|i inputs IH]; intros s before Hl Hce Hq Hsent.
  - unfold captured. csimpl. by rewrite app_nil_r.
  - rewrite run_cons, captured_cons, app_assoc. apply IH.
    + by apply step_lifecycle.
    + by rewrite step_capture_event.
    + intros Hw'. destruct Hl as [Hw|Hres].
      * etrans; [by apply step_waiting_queue|].
        apply sublist_app; [by apply Hq|done].
      * destruct (step_resolved getConsentStatus s i Hres) as (Hres' & _).
        pose proof (r_resolutions _ Hres') as Hn.
        rewrite (w_resolutions _ Hw') in Hn. discriminate.
    + destruct Hl as [Hw|Hres].
      * destruct (step_waiting getConsentStatus s i Hw) as [(Hw' & _)|(_ & Hi & Hg & _)].
        -- exists []. split; [apply sublist_nil_l|]. by rewrite (w_nothing_sent _ Hw').
        -- destruct i as [g t]. simpl in Hi, Hg. subst t.
           destruct (zarazLoaded_resolves getConsentStatus g s Hw Hg)
             as (_ & _ & _ & _ & _ & -> & _).
           rewrite Hce.
           destruct (st_functional _).
           ++ exists (eventQueue (self s)). split; [|done].
              apply sublist_inserts_r. by apply Hq.
           ++ exists []. split; [apply sublist_nil_l|done].
      * destruct Hsent as (sent & Hsub & Hsent). exists sent.
        split; [by apply sublist_inserts_r|].
        by rewrite step_resolved_calls.
Qed.

(** X18: [cleanup] before any resolution cancels both timers and drops the
    queue but leaves the listener for the ready notification in place.
    Whatever the page does afterwards, the events queued before the cleanup
    are never sent: every capture made is the re-sending of an event handed
    to the hook after the cleanup.  And as long as no resolution has run, a
    ready notification still resolves the gate from the snapshot, registers
    the change listener and flushes what has been queued since the
    cleanup. *)
Theorem cleanup_keeps_ready_listener getConsentStatus (mapping : PurposeMapping)
    (options : option JSObject) (sc : option ScopeData) (capture_event : bool)
    (pipeline : Pipeline)
    (g0 g : Global) (inputs : list (Global * Trigger)) :
  let s := run getConsentStatus
             (start getConsentStatus mapping (fresh_env options sc capture_event pipeline) g0)
             inputs in
  resolutions s = 0 →
  let c := step getConsentStatus s (g, Cleanup) in
  timers (env c) = []
  ∧ docListeners (env c) = [ready_listener]
  ∧ eventQueue (self c) = []
  ∧ gating c = gating s
  ∧ ∀ (more : list (Global * Trigger)) (g' : Global),
      let s' := run getConsentStatus c more in
      let r := step getConsentStatus s' (g', Dispatch zarazConsentAPIReady) in
      (∃ sent, sent `sublist_of` captured more
               ∧ sentryCalls (env s') = recaptured capture_event sent)
      ∧ (resolutions s' = 0 → api_ready g' = true →
         resolutions r = 1
         ∧ docListeners (env r) = [change_listener]
         ∧ gating r = (if st_functional (getConsentStatus mapping g')
                       then READY_GRANTED else READY_DENIED)
         ∧ eventQueue (self s') `sublist_of` captured more
         ∧ sentryCalls (env r)
           = (if st_functional (getConsentStatus mapping g')
              then recaptured capture_event (eventQueue (self s')) else [])).
Proof.
  intros s Hn c.
  destruct (reachable_lifecycle getConsentStatus mapping options sc capture_event pipeline g0 inputs)
    as [Hw|Hres]; fold s in Hw || fold s in Hres;
    [|rewrite (r_resolutions _ Hres) in Hn; discriminate].
  assert (waiting c) as Hwc.
  { destruct (step_waiting getConsentStatus s (g, Cleanup) Hw) as [(? & _)|(_ & ? & _)];
      [done|discriminate]. }
  destruct (cleanup_waiting s Hw) as (Ht & Hls & Hq & Hr & Hc & _).
  change (cleanup s) with c in Ht, Hls, Hq, Hr, Hc.
  do 3 (split; [done|]). split; [unfold gating; by rewrite Hr, Hc|].
  intros more g' s' r.
  assert (hasCaptureEvent (env c) = capture_event) as Hce.
  { unfold c. rewrite step_capture_event. unfold s.
    by rewrite run_capture_event, start_capture_event. }
  assert (purposeMapping (self s') = mapping) as Hm.
  { unfold s', c, s. by rewrite run_mapping, step_mapping, run_mapping, start_mapping. }
  destruct (run_sends_own_events getConsentStatus capture_event c more [])
    as (Hq' & Hsent'); [by left|done|by rewrite Hq| |].
  { exists []. split; [done|]. by rewrite (w_nothing_sent _ Hwc). }
  fold s' in Hq', Hsent'. rewrite app_nil_l in Hq', Hsent'.
  split; [exact Hsent'|]. intros Hn' Hg'.
  assert (waiting s') as Hw'.
  { destruct (run_lifecycle getConsentStatus c more (or_introl Hwc)) as [?|Hres']; [done|].
    fold s' in Hres'. rewrite (r_resolutions _ Hres') in Hn'. discriminate. }
  destruct (zarazLoaded_resolves getConsentStatus g' s' Hw' Hg')
    as (Hres & Hls' & _ & Hh & _ & Hs & _).
  fold r in Hres, Hls', Hh, Hs. rewrite Hm in Hh, Hs.
  split; [by apply r_resolutions|]. split; [done|].
  split; [unfold gating; by rewrite (r_ready _ Hres), Hh|].
  split; [by apply Hq'|].
  rewrite Hs. unfold s' at 1. by rewrite run_capture_event, Hce.
Qed.

Lemma cleanup_keeps_ready_listener_witness :
  let c := step getZarazConsentState queued_state (granting_window, Cleanup) in
  let s' := run getZarazConsentState c
              [(window_without_zaraz, Capture message_event no_hint)] in
  let r := step getZarazConsentState s' (granting_window, Dispatch zarazConsentAPIReady) in
  resolutions queued_state = 0
  ∧ length (eventQueue (self queued_state)) = 3
  ∧ docListeners (env c) = [ready_listener]
  ∧ sentryCalls (env r) = [captureMessage "hello" (Some "info")].
Proof.
  destruct (cleanup_keeps_ready_listener getZarazConsentState sample_mapping
              (Some sample_options) None true sample_pipeline window_without_zaraz
              granting_window three_captures)
    as (_ & Hls & _ & _ & Hmore); [by vm_compute|].
  destruct (Hmore [(window_without_zaraz, Capture message_event no_hint)] granting_window)
    as (_ & Hr).
  destruct Hr as (_ & _ & _ & _ & Hs); [by vm_compute|by vm_compute|].
  cbv zeta. split; [by vm_compute|]. split; [by vm_compute|]. split; [exact Hls|].
  etrans; [exact Hs|]. by vm_compute.
Defined.

(** ** The change listener and [cleanup] *)

Lemma start_tracked getConsentStatus (mapping : PurposeMapping)
    (options : option JSObject) (sc : option ScopeData) (capture_event : bool)
    (pipeline : Pipeline)
    (g : Global) :
  listener_tracked (start getConsentStatus mapping (fresh_env options sc capture_event pipeline) g).
Proof.
  unfold start, setupOnce, initializeConsentMonitoring.
  set (t := mkState (new mapping) (fresh_env options sc capture_event pipeline)).
  set (t1 := captureOriginalScopeData (captureOriginalSentryConfig t)).
  destruct (api_ready g).
  - intros _.
    destruct (checkConsent_shape getConsentStatus g t1) as (o & c & scs & k & ->).
    match goal with
    | |- context [clearWarningAndErrorTimeouts ?t] =>
        destruct (clearWarningAndErrorTimeouts_frame t) as (w & e' & p & ->)
    end.
    by normal_form.
  - unfold listener_tracked, setTimeout. normal_form.
    destruct (setup_captures t) as (He & _). fold t1 in He. rewrite He. simpl.
    discriminate.
Qed.

Lemma step_tracked getConsentStatus (s : State) (i : Global * Trigger) :
  lifecycle s → listener_tracked s → listener_tracked (step getConsentStatus s i).
Proof.
  intros [Hw|Hres] Htr.
  - destruct (step_waiting getConsentStatus s i Hw) as [(Hw' & _)|(_ & Hi & Hg & _)].
    + intros Hls. rewrite (w_listeners _ Hw') in Hls. discriminate.
    + intros _. destruct i as [g t]. simpl in Hi, Hg. subst t.
      by destruct (zarazLoaded_resolves getConsentStatus g s Hw Hg) as (_ & _ & ? & _).
  - destruct (Hres) as [Hn Ht Hr Hq Hsync Hls]. unfold listener_tracked in *.
    destruct i as [g [event hint|ev|id|]]; unfold step; cbn [fst snd].
    + unfold processEvent. rewrite Hr.
      by destruct (hasConsent (self s)); cbn [andb negb snd]; normal_form.
    + unfold dispatch.
      destruct Hls as [Hls|Hls]; rewrite Hls; [|by simpl].
      destruct ev; [by simpl|]. simpl.
      by destruct (consentChanged_frame getConsentStatus g s) as [->|(o & c & sc & q & l & -> & _)].
    + unfold fire_timer. rewrite Ht. by simpl.
    + unfold cleanup. destruct (clear_none s Ht) as (w & e & ->). normal_form.
      destruct (consentChangeListener (self s)) as [l|] eqn:Hl; normal_form.
      * destruct Hls as [Hls|Hls]; rewrite Hls.
        -- specialize (Htr Hls). injection Htr as ->. simpl. discriminate.
        -- simpl. discriminate.
      * rewrite Hl. intros Hls'. specialize (Htr Hls'). discriminate.
Qed.

Lemma reachable_tracked getConsentStatus (mapping : PurposeMapping)
    (options : option JSObject) (sc : option ScopeData) (capture_event : bool)
    (pipeline : Pipeline)
    (g : Global) (inputs : list (Global * Trigger)) :
  listener_tracked (run getConsentStatus
                      (start getConsentStatus mapping (fresh_env options sc capture_event pipeline) g)
                      inputs).
Proof.
  pose proof (start_lifecycle getConsentStatus mapping options sc capture_event pipeline g) as Hl.
  pose proof (start_tracked getConsentStatus mapping options sc capture_event pipeline g) as Ht.
  revert Hl Ht. generalize (start getConsentStatus mapping (fresh_env options sc capture_event pipeline) g).
  induction inputs as [|i inputs IH]; intros s Hl Ht; [done|].
  rewrite run_cons. apply IH; [by apply step_lifecycle|by apply step_tracked].
Qed.

(** A resolved instance without a document listener is frozen: no trigger
    changes the gate, the snapshot, the options or the calls made. *)
Lemma step_detached getConsentStatus (s : State) (i : Global * Trigger) :
  resolved s →
  docListeners (env s) = [] →
  let s' := step getConsentStatus s i in
  resolved s'
  ∧ docListeners (env s') = []
  ∧ hasConsent (self s') = hasConsent (self s)
  ∧ currentConsentState (self s') = currentConsentState (self s)
  ∧ client (env s') = client (env s)
  ∧ sentryCalls (env s') = sentryCalls (env s)
  ∧ scopeCalls (env s') = scopeCalls (env s).
Proof.
  intros Hres Hls s'.
  split; [by apply step_resolved|]. subst s'.
  destruct (Hres) as [Hn Ht Hr Hq Hsync _].
  destruct i as [g [event hint|ev|id|]]; unfold step; cbn [fst snd].
  - unfold processEvent. rewrite Hr.
    by destruct (hasConsent (self s)) eqn:Hc; cbn [andb negb snd]; normal_form.
  - unfold dispatch. rewrite Hls. by simpl.
  - unfold fire_timer. rewrite Ht. by simpl.
  - unfold cleanup. destruct (clear_none s Ht) as (w & e & ->). normal_form.
    by destruct (consentChangeListener (self s)) as [l|]; normal_form; rewrite ?Hls.
Qed.

Lemma run_detached getConsentStatus (s : State) (inputs : list (Global * Trigger)) :
  resolved s →
  docListeners (env s) = [] →
  let s' := run getConsentStatus s inputs in
  hasConsent (self s') = hasConsent (self s)
  ∧ isConsentReady (self s') = isConsentReady (self s)
  ∧ currentConsentState (self s') = currentConsentState (self s)
  ∧ client (env s') = client (env s)
  ∧ sentryCalls (env s') = sentryCalls (env s)
  ∧ scopeCalls (env s') = scopeCalls (env s).
Proof.
  revert s. induction inputs as [|i inputs IH]; intros s Hres Hls; [done|].
  cbv zeta. rewrite run_cons.
  destruct (step_detached getConsentStatus s i Hres Hls)
    as (Hres' & Hls' & Hc & Hcs & Hcl & Hsent & Hsc).
  destruct (IH _ Hres' Hls') as (-> & -> & -> & -> & -> & ->).
  rewrite (r_ready _ Hres'), (r_ready _ Hres). done.
Qed.

(** X19: [cleanup] after the first resolution removes the change listener
    from the document, and from then on the instance is frozen: whatever the
    page does, consent changes included, the gate, the cached snapshot, the
    client's options and the calls made to Sentry and to the scope stay as
    the cleanup left them. *)
Theorem cleanup_after_resolution_freezes getConsentStatus (mapping : PurposeMapping)
    (options : option JSObject) (sc : option ScopeData) (capture_event : bool)
    (pipeline : Pipeline)
    (g0 g : Global) (inputs more : list (Global * Trigger)) :
  let s := run getConsentStatus
             (start getConsentStatus mapping (fresh_env options sc capture_event pipeline) g0)
             inputs in
  resolutions s = 1 →
  let c := step getConsentStatus s (g, Cleanup) in
  let s' := run getConsentStatus c more in
  docListeners (env c) = []
  ∧ gating s' = gating s
  ∧ currentConsentState (self s') = currentConsentState (self s)
  ∧ client (env s') = client (env s)
  ∧ sentryCalls (env s') = sentryCalls (env s)
  ∧ scopeCalls (env s') = scopeCalls (env s).
Proof.
  intros s Hn c s'.
  destruct (reachable_lifecycle getConsentStatus mapping options sc capture_event pipeline g0 inputs)
    as [Hw|Hres]; fold s in Hw || fold s in Hres;
    [rewrite (w_resolutions _ Hw) in Hn; discriminate|].
  pose proof (reachable_tracked getConsentStatus mapping options sc capture_event pipeline g0 inputs)
    as Htr.
  fold s in Htr.
  assert (resolved c) as Hresc by (by apply step_resolved).
  assert (docListeners (env c) = []
          ∧ hasConsent (self c) = hasConsent (self s)
          ∧ isConsentReady (self c) = isConsentReady (self s)
          ∧ currentConsentState (self c) = currentConsentState (self s)
          ∧ client (env c) = client (env s)
          ∧ sentryCalls (env c) = sentryCalls (env s)
          ∧ scopeCalls (env c) = scopeCalls (env s))
    as (Hls & Hc & Hr & Hcs & Hcl & Hsent & Hsc).
  { unfold c, step. cbn [fst snd]. unfold cleanup.
    destruct (clear_none s (r_timers _ Hres)) as (w & e & ->). normal_form.
    destruct (consentChangeListener (self s)) as [l|] eqn:Hl; normal_form.
    - destruct (r_listeners _ Hres) as [Hls|Hls]; rewrite Hls.
      + specialize (Htr Hls). rewrite Hl in Htr. injection Htr as ->. by simpl.
      + by simpl.
    - destruct (r_listeners _ Hres) as [Hls|Hls].
      + specialize (Htr Hls). rewrite Hl in Htr. discriminate.
      + by rewrite Hls. }
  destruct (run_detached getConsentStatus c more Hresc Hls)
    as (Hc' & Hr' & Hcs' & Hcl' & Hsent' & Hsc').
  fold s' in Hc', Hr', Hcs', Hcl', Hsent', Hsc'.
  split; [done|]. unfold gating.
  by rewrite Hc', Hr', Hcs', Hcl', Hsent', Hsc', Hc, Hr, Hcs, Hcl, Hsent, Hsc.
Qed.

Lemma cleanup_after_resolution_freezes_witness :
  let c := step getZarazConsentState resolved_state (window_without_zaraz, Cleanup) in
  let s' := run getZarazConsentState c
              [(window_with [("F", false)], Dispatch zarazConsentChoicesUpdated);
               (window_with [("F", false)], Capture error_event no_hint)] in
  resolutions resolved_state = 1
  ∧ docListeners (env c) = []
  ∧ gating s' = gating resolved_state.
Proof.
  destruct (cleanup_after_resolution_freezes getZarazConsentState sample_mapping
              (Some sample_options) None true sample_pipeline granting_window window_without_zaraz []
              [(window_with [("F", false)], Dispatch zarazConsentChoicesUpdated);
               (window_with [("F", false)], Capture error_event no_hint)])
    as (Hls & Hg & _); [by vm_compute|].
  cbv zeta. split; [by vm_compute|]. split; [exact Hls|exact Hg].
Defined.

(** ** The two delayed callbacks *)

Lemma timer_runs_split (s : State) : timer_runs s = warning_runs s + fallback_runs s.
Proof.
  unfold timer_runs, warning_runs, fallback_runs.
  induction (eventLog (env s)) as [|name log IH] using rev_ind; [done|].
  rewrite !count_records_snoc, IH.
  unfold is_timer_record, is_warning_record, is_fallback_record.
  repeat case_bool_decide; subst; simpl; try lia; congruence.
Qed.

Lemma cleanup_log (s : State) : eventLog (env (cleanup s)) = eventLog (env s).
Proof.
  unfold cleanup.
  destruct (clearWarningAndErrorTimeouts_frame s) as (w & e & p & ->).
  by destruct (consentChangeListener (self s)); normal_form;
    cbn [consentChangeListener set_errorTimeoutId set_warningTimeoutId];
    destruct (consentChangeListener (self s)); normal_form.
Qed.

Ltac once_after wa ea Ht :=
  exists wa, ea; unfold warning_runs, fallback_runs, pending in *; count_log;
  classify is_warning_record; cbv iota; rewrite ?Nat.add_0_r, ?Ht;
  repeat split; first [done | lia].

Lemma start_timers_once getConsentStatus (mapping : PurposeMapping)
    (options : option JSObject) (sc : option ScopeData) (capture_event : bool)
    (pipeline : Pipeline)
    (g : Global) :
  timers_once (start getConsentStatus mapping (fresh_env options sc capture_event pipeline) g).
Proof.
  unfold start, setupOnce, initializeConsentMonitoring.
  set (t := mkState (new mapping) (fresh_env options sc capture_event pipeline)).
  destruct (setup_captures t) as (He & _).
  set (t1 := captureOriginalScopeData (captureOriginalSentryConfig t)) in *.
  destruct (api_ready g).
  - destruct (checkConsent_shape getConsentStatus g t1) as (o & c & scs & k & ->).
    match goal with
    | |- context [clearWarningAndErrorTimeouts ?t] =>
        destruct (clear_none t) as (w & e & ->); [by normal_form; rewrite He|]
    end.
    exists false, false. unfold warning_runs, fallback_runs, pending. normal_form.
    rewrite !count_records_allowed by (vm_compute; reflexivity).
    rewrite He. simpl.
    destruct (st_functional _); vm_compute; repeat split; lia.
  - exists true, true. unfold setTimeout, warning_runs, fallback_runs, pending.
    normal_form. rewrite He. by simpl.
Qed.

Lemma step_timers_once getConsentStatus (s : State) (i : Global * Trigger) :
  lifecycle s → timers_once s → timers_once (step getConsentStatus s i).
Proof.
  intros [Hw|Hres] (wa & ea & Ht & Hwn & Hfn).
  - destruct i as [g [event hint|ev|id|]].
    + unfold step. cbn [fst snd]. unfold processEvent.
      destruct (isConsentReady (self s)), (hasConsent (self s)); cbn [andb negb snd];
        once_after wa ea Ht.
    + destruct ev.
      * destruct (api_ready g) eqn:Hg.
        -- destruct (zarazLoaded_resolves getConsentStatus g s Hw Hg)
             as (Hres & _ & _ & _ & _ & _ & Hwr & Hfr).
           exists false, false. rewrite Hwr, Hfr, (r_timers _ Hres).
           unfold pending in *. repeat split; lia.
        -- unfold step, dispatch. cbn [fst snd]. rewrite (w_listeners _ Hw). simpl.
           unfold zarazLoaded. rewrite Hg. by exists wa, ea.
      * unfold step, dispatch. cbn [fst snd]. rewrite (w_listeners _ Hw). simpl.
        by exists wa, ea.
    + unfold step. cbn [fst snd]. unfold fire_timer. rewrite Ht.
      destruct wa, ea; simpl; destruct id as [|[|[|id]]]; simpl;
        try (by exists true, true; rewrite Ht);
        try (by exists true, false; rewrite Ht);
        try (by exists false, true; rewrite Ht);
        try (by exists false, false; rewrite Ht).
      all: first [ once_after false true Ht | once_after true false Ht | once_after false false Ht ].
    + unfold step. cbn [fst snd].
      destruct (cleanup_waiting s Hw) as (Ht' & _).
      exists false, false. unfold warning_runs, fallback_runs, pending in *.
      rewrite cleanup_log, Ht'. repeat split; lia.
  - destruct (step_resolved getConsentStatus s i Hres) as (Hres' & Htr & Hfr & _).
    rewrite !timer_runs_split in Htr.
    exists false, false. rewrite (r_timers _ Hres'). unfold pending in *.
    repeat split; lia.
Qed.

(** X20: each of the two delayed callbacks runs at most once in the life of
    an instance, and not at all while its timer is still armed; no other
    timer is ever armed. *)
Theorem timers_run_at_most_once getConsentStatus (mapping : PurposeMapping)
    (options : option JSObject) (sc : option ScopeData) (capture_event : bool)
    (pipeline : Pipeline)
    (g : Global) (inputs : list (Global * Trigger)) :
  let s := run getConsentStatus
             (start getConsentStatus mapping (fresh_env options sc capture_event pipeline) g)
             inputs in
  (warning_runs s ≤ 1)%nat
  ∧ (fallback_runs s ≤ 1)%nat
  ∧ (warning_timer ∈ timers (env s) → warning_runs s = 0)
  ∧ (error_timer ∈ timers (env s) → fallback_runs s = 0)
  ∧ (∀ t, t ∈ timers (env s) → t = warning_timer ∨ t = error_timer).
Proof.
  cbv zeta.
  assert (timers_once
            (run getConsentStatus
               (start getConsentStatus mapping (fresh_env options sc capture_event pipeline) g)
               inputs)) as (wa & ea & Ht & Hwn & Hfn).
  { pose proof (start_lifecycle getConsentStatus mapping options sc capture_event pipeline g) as Hl.
    pose proof (start_timers_once getConsentStatus mapping options sc capture_event pipeline g) as Ho.
    revert Hl Ho.
    generalize (start getConsentStatus mapping (fresh_env options sc capture_event pipeline) g).
    induction inputs as [|i inputs IH]; intros s Hl Ho; [done|].
    rewrite run_cons. apply IH; [by apply step_lifecycle|by apply step_timers_once]. }
  rewrite Ht. unfold pending in *.
  destruct wa, ea; simpl in *; repeat split; try lia; intros;
    repeat match goal with
      | H : _ ∈ _ :: _ |- _ => apply elem_of_cons in H; destruct H as [H|H]
      | H : _ ∈ [] |- _ => by apply elem_of_nil in H
      | H : warning_timer = error_timer |- _ => discriminate H
      | H : error_timer = warning_timer |- _ => discriminate H
      end; auto; lia.
Qed.

(** ** The cached snapshot *)

Lemma step_cached getConsentStatus (s : State) (i : Global * Trigger) :
  lifecycle s → cached_from_resolver s → cached_from_resolver (step getConsentStatus s i).
Proof.
  intros [Hw|Hres] Hc Hnext.
  - destruct (step_waiting getConsentStatus s i Hw) as [(Hw' & _)|(Hres' & Hi & Hg & _)].
    + pose proof (r_resolutions _ Hnext) as Hn.
      rewrite (w_resolutions _ Hw') in Hn. discriminate.
    + destruct i as [g t]. simpl in Hi, Hg. subst t.
      destruct (zarazLoaded_resolves getConsentStatus g s Hw Hg) as (_ & _ & _ & _ & -> & _).
      by eexists.
  - destruct (Hc Hres) as (cached & Hcached).
    destruct (Hres) as [Hn Ht Hr Hq Hsync Hls].
    destruct i as [g [event hint|ev|id|]]; unfold step; cbn [fst snd].
    + unfold processEvent. rewrite Hr.
      by destruct (hasConsent (self s)); cbn [andb negb snd]; normal_form; exists cached.
    + unfold dispatch.
      destruct Hls as [Hls|Hls]; rewrite Hls; [|by exists cached].
      destruct ev; [by exists cached|]. simpl.
      destruct (consentChanged_frame getConsentStatus g s) as [->|(o & c & sc & q & l & -> & _)];
        [by exists cached|by eexists].
    + unfold fire_timer. rewrite Ht. by exists cached.
    + unfold cleanup. destruct (clear_none s Ht) as (w & e & ->). normal_form.
      by destruct (consentChangeListener (self s)); normal_form; exists cached.
Qed.

Lemma reachable_cached getConsentStatus (mapping : PurposeMapping)
    (options : option JSObject) (sc : option ScopeData) (capture_event : bool)
    (pipeline : Pipeline)
    (g : Global) (inputs : list (Global * Trigger)) :
  cached_from_resolver
    (run getConsentStatus
       (start getConsentStatus mapping (fresh_env options sc capture_event pipeline) g) inputs).
Proof.
  pose proof (start_lifecycle getConsentStatus mapping options sc capture_event pipeline g) as Hl.
  assert (cached_from_resolver
            (start getConsentStatus mapping (fresh_env options sc capture_event pipeline) g)) as Hc.
  { intros Hres. revert Hres.
    unfold start, setupOnce, initializeConsentMonitoring.
    set (t := mkState (new mapping) (fresh_env options sc capture_event pipeline)).
    set (t1 := captureOriginalScopeData (captureOriginalSentryConfig t)).
    destruct (api_ready g).
    - intros _.
      destruct (checkConsent_shape getConsentStatus g t1) as (o & c & scs & k & ->).
      match goal with
      | |- context [clearWarningAndErrorTimeouts ?t] =>
          destruct (clearWarningAndErrorTimeouts_frame t) as (w & e' & p & ->)
      end.
      normal_form. by eexists.
    - intros Hres. apply r_ready in Hres. revert Hres. unfold setTimeout. normal_form.
      destruct (setup_captures t) as (_ & Hr & _). fold t1 in Hr. rewrite Hr. simpl.
      discriminate. }
  revert Hl Hc.
  generalize (start getConsentStatus mapping (fresh_env options sc capture_event pipeline) g).
  induction inputs as [|i inputs IH]; intros s Hl Hc; [done|].
  rewrite run_cons. apply IH; [by apply step_lifecycle|by apply step_cached].
Qed.

(** X21: while the change listener is attached, every change notification
    leaves the instance in step with the page: whether or not the listener
    finds a change, afterwards the cached snapshot is the snapshot of the
    page and the gate is its functional purpose; nothing is queued and no
    event is sent. *)
Theorem change_notification_syncs getConsentStatus (mapping : PurposeMapping)
    (options : option JSObject) (sc : option ScopeData) (capture_event : bool)
    (pipeline : Pipeline)
    (g0 g : Global) (inputs : list (Global * Trigger)) :
  let s := run getConsentStatus
             (start getConsentStatus mapping (fresh_env options sc capture_event pipeline) g0)
             inputs in
  docListeners (env s) = [change_listener] →
  let snapshot := getConsentStatus mapping g in
  let s' := step getConsentStatus s (g, Dispatch zarazConsentChoicesUpdated) in
  currentConsentState (self s') = asConsentState snapshot
  ∧ gating s' = (if st_functional snapshot then READY_GRANTED else READY_DENIED)
  ∧ eventQueue (self s') = []
  ∧ sentryCalls (env s') = sentryCalls (env s)
  ∧ docListeners (env s') = [change_listener].
Proof.
  intros s Hls snapshot s'.
  destruct (reachable_lifecycle getConsentStatus mapping options sc capture_event pipeline g0 inputs)
    as [Hw|Hres]; fold s in Hw || fold s in Hres;
    [rewrite (w_listeners _ Hw) in Hls; discriminate|].
  destruct (reachable_cached getConsentStatus mapping options sc capture_event pipeline g0 inputs Hres)
    as (cached & Hcached).
  fold s in Hcached.
  assert (purposeMapping (self s) = mapping) as Hm
    by (unfold s; by rewrite run_mapping, start_mapping).
  pose proof (r_synced _ Hres) as Hsync. rewrite Hcached in Hsync. simpl in Hsync.
  injection Hsync as Hsync.
  assert (resolved s') as Hres' by (by apply step_resolved).
  assert (sentryCalls (env s') = sentryCalls (env s)) as Hsent
    by (by apply step_resolved_calls).
  assert (s' = consentChanged getConsentStatus g s) as Hs'.
  { unfold s', step, dispatch. cbn [fst snd]. by rewrite Hls. }
  assert (currentConsentState (self s') = asConsentState snapshot
          ∧ hasConsent (self s') = st_functional snapshot
          ∧ docListeners (env s') = [change_listener]) as (Hcs & Hc & Hls').
  { rewrite Hs'. unfold snapshot. rewrite <- Hm.
    destruct (decide (JSON_stringify
                        (asConsentState (getConsentStatus (purposeMapping (self s)) g))
                      = JSON_stringify (asConsentState cached))) as [Heq|Hne].
    - apply JSON_stringify_status_inj in Heq.
      destruct (consentChanged_frame getConsentStatus g s) as [->|(o & c & scs & q & l & -> & _)].
      + by rewrite Heq, Hcached, Hsync.
      + by normal_form.
    - destruct (consentChanged_frame getConsentStatus g s) as [Hsame|(o & c & scs & q & l & -> & _)];
        [|by normal_form].
      destruct (changed_snapshot_is_applied getConsentStatus g s cached Hcached)
        as (Ha & Hb); [by intros E; apply Hne; rewrite E|].
      rewrite Ha, Hb. by rewrite Hsame. }
  repeat split; try done.
  - unfold gating. by rewrite (r_ready _ Hres'), Hc.
  - by apply r_queue.
Qed.

Lemma change_notification_syncs_witness :
  let s' := step getZarazConsentState resolved_state
              (window_with [("F", false)], Dispatch zarazConsentChoicesUpdated) in
  docListeners (env resolved_state) = [change_listener]
  ∧ gating s' = READY_DENIED.
Proof.
  destruct (change_notification_syncs getZarazConsentState sample_mapping
              (Some sample_options) None true sample_pipeline granting_window
              (window_with [("F", false)]) [])
    as (_ & Hg & _); [by vm_compute|].
  cbv zeta. split; [by vm_compute|exact Hg].
Defined.

(** ** Events queued before the fallback *)

Lemma step_after_fallback getConsentStatus (s : State) (i : Global * Trigger) :
  lifecycle s →
  (0 < fallback_runs s → sentryCalls (env s) = []) →
  0 < fallback_runs (step getConsentStatus s i) →
  sentryCalls (env (step getConsentStatus s i)) = [].
Proof.
  intros [Hw|Hres] Hinv Hran.
  - destruct (step_waiting getConsentStatus s i Hw) as [(Hw' & _)|(_ & Hi & Hg & _)].
    + by apply w_nothing_sent.
    + destruct i as [g t]. simpl in Hi, Hg. subst t.
      destruct (zarazLoaded_resolves getConsentStatus g s Hw Hg)
        as (_ & _ & _ & _ & _ & Hsent & _ & Hfr).
      rewrite Hsent. rewrite Hfr in Hran.
      destruct (isConsentReady (self s)) eqn:Hr.
      * destruct (w_fallback _ Hw Hr) as (_ & -> & _). by destruct (st_functional _).
      * rewrite (w_undecided _ Hw Hr) in Hran. lia.
  - destruct (step_resolved getConsentStatus s i Hres) as (_ & _ & Hfr & _).
    rewrite step_resolved_calls by done. apply Hinv. by rewrite <- Hfr.
Qed.

(** X22: once the fallback timer has fired, Sentry is never called by the
    integration: the events queued before it are dropped for good, also when
    the consent API becomes ready later and grants the functional purpose. *)
Theorem fallback_drops_queue_for_good getConsentStatus (mapping : PurposeMapping)
    (options : option JSObject) (sc : option ScopeData) (capture_event : bool)
    (pipeline : Pipeline)
    (g : Global) (inputs : list (Global * Trigger)) :
  let s := run getConsentStatus
             (start getConsentStatus mapping (fresh_env options sc capture_event pipeline) g)
             inputs in
  0 < fallback_runs s →
  sentryCalls (env s) = [].
Proof.
  cbv zeta.
  pose proof (start_lifecycle getConsentStatus mapping options sc capture_event pipeline g) as Hl.
  assert (0 < fallback_runs
                (start getConsentStatus mapping (fresh_env options sc capture_event pipeline) g) →
          sentryCalls
            (env (start getConsentStatus mapping (fresh_env options sc capture_event pipeline) g))
          = []) as Hinv.
  { intros Hran. destruct Hl as [Hw|Hres]; [by apply w_nothing_sent|].
    exfalso. revert Hran.
    destruct (start_timers_once getConsentStatus mapping options sc capture_event pipeline g)
      as (wa & ea & Ht & _ & _).
    revert Hres Ht.
    unfold start, setupOnce, initializeConsentMonitoring.
    set (t := mkState (new mapping) (fresh_env options sc capture_event pipeline)).
    destruct (setup_captures t) as (He & Hr & _).
    set (t1 := captureOriginalScopeData (captureOriginalSentryConfig t)) in *.
    destruct (api_ready g).
    - intros _ _.
      destruct (checkConsent_shape getConsentStatus g t1) as (o & c & scs & k & ->).
      match goal with
      | |- context [clearWarningAndErrorTimeouts ?t] =>
          destruct (clearWarningAndErrorTimeouts_frame t) as (w & e' & p & ->)
      end.
      unfold fallback_runs. normal_form.
      rewrite count_records_allowed by (vm_compute; reflexivity).
      rewrite He. simpl.
      destruct (st_functional _); vm_compute; lia.
    - intros Hres. apply r_ready in Hres. revert Hres. unfold setTimeout. normal_form.
      rewrite Hr. simpl. discriminate. }
  revert Hl Hinv.
  generalize (start getConsentStatus mapping (fresh_env options sc capture_event pipeline) g).
  induction inputs as [|i inputs IH]; intros s Hl Hinv; [done|].
  rewrite run_cons. apply IH; [by apply step_lifecycle|by apply step_after_fallback].
Qed.

Lemma fallback_drops_queue_for_good_witness :
  let s := run getZarazConsentState
             (start getZarazConsentState sample_mapping sample_env window_without_zaraz)
             (three_captures ++ [(window_without_zaraz, TimerFires 2);
                                 (granting_window, Dispatch zarazConsentAPIReady)]) in
  0 < fallback_runs s ∧ gating s = READY_GRANTED ∧ sentryCalls (env s) = [].
Proof.
  cbv zeta. split; [vm_compute; lia|]. split; [by vm_compute|].
  apply (fallback_drops_queue_for_good getZarazConsentState sample_mapping
           (Some sample_options) None true sample_pipeline window_without_zaraz
           (three_captures ++ [(window_without_zaraz, TimerFires 2);
                               (granting_window, Dispatch zarazConsentAPIReady)])).
  vm_compute. lia.
Defined.

(** ** The wrapper's change subscription *)

Lemma remove_first_absent {A} `{EqDecision A} (x : A) (l : list A) :
  x ∉ l → remove_first x l = l.
Proof.
  induction l as [|y l IH]; [done|]. intros Hx. simpl.
  apply not_elem_of_cons in Hx as [Hxy Hx]. rewrite decide_False by done.
  by rewrite IH.
Qed.

Lemma remove_first_app {A} `{EqDecision A} (x : A) (l k : list A) :
  x ∉ l → remove_first x (l ++ x :: k) = l ++ k.
Proof.
  induction l as [|y l IH]; intros Hx; simpl.
  - by rewrite decide_True.
  - apply not_elem_of_cons in Hx as [Hxy Hx]. rewrite decide_False by done.
    by rewrite IH.
Qed.

(** X23: the wrapper's [onConsentChange], for a handler not yet in the
    document: after the call each of the two consent events runs the handler
    once, after the handlers registered before; the cleanup function it
    returns removes exactly the two registrations, also when other handlers
    were registered in between. *)
Theorem subscription_round_trip (h : nat) (d more : Wrapper.Handlers) :
  (∀ ev, (ev, h) ∉ d) →
  let subscribed := (Wrapper.onConsentChange h d).1 in
  let cleanup := (Wrapper.onConsentChange h d).2 in
  (∀ ev, Wrapper.handlers_for ev subscribed = Wrapper.handlers_for ev d ++ [h])
  ∧ cleanup (subscribed ++ more) = d ++ more.
Proof.
  intros Hfresh. cbv zeta.
  unfold Wrapper.onConsentChange, Wrapper.addEventListener, Wrapper.removeEventListener.
  cbn [fst snd].
  rewrite (decide_False (P := (zarazConsentChoicesUpdated, h) ∈ d)) by apply Hfresh.
  rewrite decide_False.
  2:{ rewrite elem_of_app, elem_of_cons, elem_of_nil.
      intros [Hin|[Heq|[]]]; [by apply Hfresh in Hin|discriminate]. }
  split.
  - intros ev. unfold Wrapper.handlers_for.
    rewrite !filter_app, !fmap_app, <- app_assoc. f_equal.
    destruct ev; rewrite !filter_cons, !filter_nil; simpl;
      repeat case_decide; simplify_eq; done.
  - rewrite <- !app_assoc. simpl.
    rewrite remove_first_app by apply Hfresh.
    by rewrite remove_first_app by apply Hfresh.
Qed.

Lemma subscription_round_trip_witness :
  let d := [(zarazConsentChoicesUpdated, 1); (zarazConsentAPIReady, 2)] in
  (Wrapper.onConsentChange 7 d).2
    ((Wrapper.onConsentChange 7 d).1 ++ [(zarazConsentAPIReady, 3)])
  = d ++ [(zarazConsentAPIReady, 3)].
Proof.
  apply (subscription_round_trip 7
           [(zarazConsentChoicesUpdated, 1); (zarazConsentAPIReady, 2)]
           [(zarazConsentAPIReady, 3)]).
  intros ev. destruct ev; apply (bool_decide_unpack _); by vm_compute.
Defined.

(** ** The demo page *)

Lemma slice_last_snoc {A} (n : nat) (l : list A) (x : A) :
  (0 < n)%nat →
  Demo.slice_last n (Demo.slice_last n l ++ [x]) = Demo.slice_last n (l ++ [x]).
Proof.
  intros Hn. unfold Demo.slice_last.
  rewrite !length_app, length_drop. simpl.
  destruct (decide (length l ≤ n)%nat) as [Hle|Hgt].
  - replace (length l - n) with 0 by lia. by rewrite drop_0, Nat.sub_0_r.
  - replace (length l - (length l - n) + 1 - n) with 1 by lia.
    replace (length l + 1 - n) with (length l - n + 1) by lia.
    rewrite !drop_app_le by (rewrite ?length_drop; lia).
    by rewrite drop_drop.
Qed.

Lemma addLog_slice (timestamp type : string) (args logs : list string) :
  Demo.addLog timestamp type args logs
  = Demo.slice_last 50 (logs ++ [Demo.line (timestamp, type, args)]).
Proof.
  unfold Demo.addLog, Demo.line. cbv zeta. cbn [fst snd].
  case_decide as Hlen; [done|].
  unfold Demo.slice_last.
  match goal with |- _ = drop ?n _ => replace n with 0 by lia end.
  by rewrite drop_0.
Qed.

(** X24: the demo's log list is a window on the console: starting from at
    most 50 lines, after any number of [addLog] calls it holds the last 50
    of all the lines, in order, and so never more than 50. *)
Theorem logs_keep_last_50 (entries : list (string * string * list string))
    (logs : list string) :
  (length logs ≤ 50)%nat →
  Demo.addLogs entries logs = Demo.slice_last 50 (logs ++ (Demo.line <$> entries))
  ∧ (length (Demo.addLogs entries logs) ≤ 50)%nat.
Proof.
  intros Hlen.
  assert (Demo.addLogs entries logs
          = Demo.slice_last 50 (logs ++ (Demo.line <$> entries))) as ->.
  { replace logs with (Demo.slice_last 50 logs) at 1.
    2:{ unfold Demo.slice_last. replace (length logs - 50) with 0 by lia. apply drop_0. }
    clear Hlen. revert logs. unfold Demo.addLogs.
    induction entries as [|[[timestamp type] args] entries IH]; intros logs.
    - by rewrite app_nil_r.
    - simpl. rewrite addLog_slice, slice_last_snoc by lia. rewrite IH.
      by rewrite <- app_assoc. }
  split; [done|]. unfold Demo.slice_last. rewrite length_drop. lia.
Qed.

Lemma logs_keep_last_50_witness :
  Demo.addLogs [("12:00:00", "warn", ["a"; "b"])] (replicate 50 "old")
  = Demo.slice_last 50 (replicate 50 "old" ++ ["[12:00:00] WARN: a b"]).
Proof.
  apply (logs_keep_last_50 [("12:00:00", "warn", ["a"; "b"])] (replicate 50 "old")).
  vm_compute. lia.
Defined.

Lemma JSON_stringify_nonempty (cs : ConsentState) : JSON_stringify cs ≠ "".
Proof. unfold JSON_stringify. discriminate. Qed.

(** X25: the consent the demo displays is the last snapshot it read: after
    any reads, failed ones included, followed by a successful one, the
    displayed consent is that snapshot, and its recorded text is the text of
    the displayed consent. *)
Theorem display_follows_snapshot (reads : list (option ConsentStatus))
    (newConsent : ConsentStatus) :
  let d := foldl (λ d read, Demo.monitorConsentChanges read d) Demo.initial_display
             (reads ++ [Some newConsent]) in
  Demo.currentConsent d = newConsent
  ∧ Demo.lastConsentCheck d = JSON_stringify (asConsentState newConsent).
Proof.
  cbv zeta. rewrite foldl_app. simpl.
  set (d := foldl _ _ reads).
  assert (Demo.lastConsentCheck d = ""
          ∨ Demo.lastConsentCheck d
            = JSON_stringify (asConsentState (Demo.currentConsent d))) as Hinv.
  { subst d. induction reads as [|read reads IH] using rev_ind; [by left|].
    rewrite foldl_app. simpl. destruct read as [c|]; simpl; [|done].
    case_decide; [by right|done]. }
  case_decide as Hne; [done|].
  destruct Hinv as [Hempty|Hsync].
  - rewrite Hempty in Hne. by apply JSON_stringify_nonempty in Hne.
  - rewrite Hsync in Hne. apply JSON_stringify_status_inj in Hne.
    split; [done|]. by rewrite Hsync, <- Hne.
Qed.

Lemma checkZaraz_bounded (ready : nat → bool) (fuel attempts : nat) :
  (attempts < Demo.maxAttempts)%nat →
  (Demo.maxAttempts ≤ attempts + fuel)%nat →
  (∀ n, attempts < n → n ≤ Demo.maxAttempts → ready n = false)%nat
  ∧ Demo.checkZaraz fuel ready attempts = Some (Demo.TimedOutAfter Demo.maxAttempts)
  ∨ ∃ n, (attempts < n ≤ Demo.maxAttempts)%nat
         ∧ ready n = true
         ∧ (∀ k, attempts < k → k < n → ready k = false)%nat
         ∧ Demo.checkZaraz fuel ready attempts = Some (Demo.ReadyAfter n).
Proof.
  revert attempts. induction fuel as [|fuel IH]; intros attempts Hlt Hfuel; [lia|].
  simpl. destruct (ready (S attempts)) eqn:Hr.
  - right. exists (S attempts). repeat split; try lia; try done.
  - case_decide as Hmax.
    + left. split; [|f_equal; f_equal; lia].
      intros n Hn Hle. by replace n with (S attempts) by lia.
    + destruct (IH (S attempts)) as [[Hnone Hout]|(n & Hn & Hrn & Hbefore & Hout)]; [lia..| |].
      * left. split; [|done]. intros n Hn Hle.
        destruct (decide (n = S attempts)) as [->|]; [done|]. apply Hnone; lia.
      * right. exists n. repeat split; try lia; try done.
        intros k Hk Hkn. destruct (decide (k = S attempts)) as [->|]; [done|].
        apply Hbefore; lia.
Qed.

(** X26: the demo's polling for the consent API ends within 100 checks: it
    stops at the first check that finds the API ready, and if none of the
    first 100 does, it gives up at the 100th. *)
Theorem polling_ends (ready : nat → bool) :
  (∀ n, 1 ≤ n → n ≤ 100 → ready n = false)%nat
  ∧ Demo.checkZaraz 100 ready 0 = Some (Demo.TimedOutAfter 100)
  ∨ ∃ n, (1 ≤ n ≤ 100)%nat
         ∧ ready n = true
         ∧ (∀ k, 1 ≤ k → k < n → ready k = false)%nat
         ∧ Demo.checkZaraz 100 ready 0 = Some (Demo.ReadyAfter n).
Proof.
  destruct (checkZaraz_bounded ready 100 0) as [[Hnone Hout]|(n & Hn & Hrn & Hbefore & Hout)];
    [unfold Demo.maxAttempts; lia..| |].
  - left. split; [|exact Hout]. intros n H1 H2. apply Hnone; unfold Demo.maxAttempts; lia.
  - right. exists n. unfold Demo.maxAttempts in Hn. repeat split; try lia; try done.
Qed.
